(** * CROPS price tracker: reconciler, classifier, ledger and orchestrator

    A shallow embedding of the core of the CROPS grocery price tracker
    (Python, SQLAlchemy, asyncio) and the properties of its specification.

    Conventions of the embedding:
    - a Python [str] is a [string], its UTF-8 encoding; what [lower],
      [strip] and the word class of [re] do is decided by the Unicode
      tables of the interpreter, a parameter ([PyStr.Unicode]) of every
      definition that uses them. The theorems hold whatever the
      tables, unless their module says that it fixes the tables of the
      ASCII range ([PyStr.ascii_range]), which are the interpreter's on
      strs of ASCII characters;
    - a database table is the list of its rows in table order;
    - a [datetime] is an integer number of microseconds, a price is a
      rational number and the arithmetic on prices is exact (the source
      computes with binary floats, whose results can differ from the
      exact ones in the last digits);
    - what the outside world decides (the outcome of a store adapter, a
      failing commit, an exception raised while a row is saved) is an
      explicit argument of the function that observes it. *)

From Stdlib Require Import List String Ascii Bool Arith ZArith QArith Lia.
From Stdlib Require Import Qround Lqa.
Import ListNotations.

Local Open Scope string_scope.
Local Open Scope list_scope.

(** ** Python string operations *)

Module PyStr.

(** *** What the operations take from the interpreter

    [str.lower], [str.strip] and the word class [\w] of [re] are
    decided by the Unicode tables of the interpreter. The program is
    embedded over any such tables; a str stands as its UTF-8 encoding. *)
Class Unicode := {
  (** [s.lower()] *)
  lower : string -> string;
  (** [s.strip()] *)
  strip : string -> string;
  (** the last character of a str that is not empty is a word
      character, one that [\w] matches *)
  ends_with_word : string -> bool;
  (** the first character of a str that is not empty is a word
      character *)
  starts_with_word : string -> bool
}.

(** *** Operations that do not depend on the tables *)

Definition code (c : ascii) : nat := nat_of_ascii c.

Definition between (lo hi : nat) (c : ascii) : bool :=
  (lo <=? code c)%nat && (code c <=? hi)%nat.

(** [s.split(sep)] for a one-character separator: never the empty
    list, [''.split(',')] is [['']]. *)
Fixpoint split (sep : ascii) (s : string) : list string :=
  match s with
  | EmptyString => [EmptyString]
  | String c s' =>
      if Ascii.eqb c sep then EmptyString :: split sep s'
      else match split sep s' with
           | [] => [String c EmptyString]
           | w :: ws => String c w :: ws
           end
  end.

(** [s.startswith(p)] *)
Fixpoint startswith (p s : string) : bool :=
  match p, s with
  | EmptyString, _ => true
  | String a p', String b s' => Ascii.eqb a b && startswith p' s'
  | String _ _, EmptyString => false
  end.

(** [k in s] for two strings: [k] occurs in [s] as a substring. *)
Fixpoint contains (k s : string) : bool :=
  startswith k s
  || match s with
     | EmptyString => false
     | String _ s' => contains k s'
     end.

(** [bool(s)]: a string is truthy when it is not empty. *)
Definition truthy (s : string) : bool :=
  match s with EmptyString => false | String _ _ => true end.

(** A byte that continues the encoding of a character. *)
Definition is_continuation (c : ascii) : bool := between 128 191 c.

(** [s] is empty or starts at the first byte of a character: a position
    of the str, as the positions between its bytes are not all. *)
Definition char_start (s : string) : bool :=
  match s with
  | EmptyString => true
  | String c _ => negb (is_continuation c)
  end.

(** *** The tables on the ASCII range

    The tables restricted to the ASCII range: every other byte is taken
    as uncased, not a space and not a word character. On a str of ASCII
    characters they are the interpreter's. *)

Definition is_upper (c : ascii) : bool := between 65 90 c.

Definition lower_char (c : ascii) : ascii :=
  if is_upper c then ascii_of_nat (code c + 32) else c.

Fixpoint ascii_lower (s : string) : string :=
  match s with
  | EmptyString => EmptyString
  | String c s' => String (lower_char c) (ascii_lower s')
  end.

(** [c.isspace()] for an ASCII character: tab, line feed, vertical tab,
    form feed, carriage return, the four separators 0x1c-0x1f and the
    space. *)
Definition is_space (c : ascii) : bool :=
  between 9 13 c || between 28 32 c.

(** [\w] for an ASCII character: letters, digits and the underscore. *)
Definition is_word_char (c : ascii) : bool :=
  between 97 122 c || between 65 90 c || between 48 57 c
  || (code c =? 95)%nat.

Fixpoint lstrip (s : string) : string :=
  match s with
  | EmptyString => EmptyString
  | String c s' => if is_space c then lstrip s' else s
  end.

Fixpoint rstrip (s : string) : string :=
  match s with
  | EmptyString => EmptyString
  | String c s' =>
      match rstrip s' with
      | EmptyString => if is_space c then EmptyString else String c EmptyString
      | t => String c t
      end
  end.

Definition ascii_strip (s : string) : string := rstrip (lstrip s).

Definition is_word (c : option ascii) : bool :=
  match c with
  | None => false
  | Some c => is_word_char c
  end.

Definition head (s : string) : option ascii :=
  match s with
  | EmptyString => None
  | String c _ => Some c
  end.

(** The last character of [u], or [prev] when [u] is empty. *)
Fixpoint last_char (prev : option ascii) (u : string) : option ascii :=
  match u with
  | EmptyString => prev
  | String c u' => last_char (Some c) u'
  end.

#[global] Arguments lower : simpl never.
#[global] Arguments strip : simpl never.
#[global] Arguments ends_with_word : simpl never.
#[global] Arguments starts_with_word : simpl never.

Definition ascii_range : Unicode := {|
  lower := ascii_lower;
  strip := ascii_strip;
  ends_with_word := fun s => is_word (last_char None s);
  starts_with_word := fun s => is_word (head s)
|}.

End PyStr.

(** ** Persisted rows and scraped items

    Modelled from the spec: the models of [app/models/] and the
    [ProductData] of [app/scrapers/base_scraper.py] are not part of the
    sources. The records have the columns of the persisted schema of the
    specification and the attributes the code reads and writes. *)

Definition datetime := Z.

Bind Scope Z_scope with datetime.

(** [product(id, name, category, keywords, is_active)] *)
Record Product := mkProduct {
  product_id : Z;
  product_name : string;
  product_category : string;
  product_keywords : string;
  product_is_active : bool
}.

(** [store(id, name, url, type, scraper_ref, is_active, status, last_scraped)] *)
Record Store := mkStore {
  store_id : Z;
  store_name : string;
  store_url : string;
  store_type : string;
  store_scraper_module : option string;
  store_is_active : bool;
  store_status : string;
  store_last_scraped : option datetime
}.

(** [ProductData], the item a store adapter produces. *)
Record ProductData := mkProductData {
  pd_name : string;
  pd_price : Q;
  pd_price_per_kg : option Q;
  pd_pack_size : option string;
  pd_pack_unit : option string;
  pd_is_available : bool;
  pd_is_organic : bool;
  pd_is_discounted : bool;
  pd_original_price : option Q;
  pd_brand : option string;
  pd_image_url : option string;
  pd_product_url : option string;
  pd_category : option string;
  pd_scraped_at : datetime
}.

(** [current_price(product_id, store_id, price, ...)], the [Price] model.
    The surrogate key of the row is left out: no function embedded here
    depends on it. *)
Record Price := mkPrice {
  price_product_id : Z;
  price_store_id : Z;
  price_price : Q;
  price_price_per_kg : option Q;
  price_pack_size : option string;
  price_pack_unit : option string;
  price_is_available : bool;
  price_is_organic : option bool;
  price_is_discounted : option bool;
  price_original_price : option Q;
  price_brand : option string;
  price_image_url : option string;
  price_product_url : option string;
  price_scraped_at : datetime
}.

(** [price_history(product_id, store_id, price, is_available, recorded_at)],
    the [PriceHistory] model, without its surrogate key. *)
Record PriceHistory := mkPriceHistory {
  history_product_id : Z;
  history_store_id : Z;
  history_price : Q;
  history_is_available : bool;
  history_recorded_at : datetime
}.

(** The durable tables. *)
Record Database := mkDatabase {
  db_stores : list Store;
  db_products : list Product;
  db_prices : list Price;
  db_price_history : list PriceHistory
}.

(** ** The unit of work

    A SQLAlchemy session over the tables: the rows a query sees, and the
    objects handed to [db.add] that no flush has written yet. Whether a
    query flushes first is the [autoflush] setting of [SessionLocal]
    ([app/database.py], not part of the sources): it is an argument. *)

Module Session.

Record t := mkSession {
  stores : list Store;
  products : list Product;
  prices : list Price;
  price_history : list PriceHistory;
  new_prices : list Price;
  new_history : list PriceHistory
}.

(** The session when its transaction begins. *)
Definition begin (db : Database) : t :=
  mkSession (db_stores db) (db_products db) (db_prices db) (db_price_history db)
            [] [].

(** [db.flush()]: the pending objects are inserted, in the order of
    their [db.add]. *)
Definition flush (s : t) : t :=
  mkSession (stores s) (products s)
            (prices s ++ new_prices s) (price_history s ++ new_history s)
            [] [].

(** What precedes the execution of a query. *)
Definition before_query (autoflush : bool) (s : t) : t :=
  if autoflush then flush s else s.

(** [db.commit()] that succeeds: flush, then the tables are durable.
    A commit that raises is followed by [db.rollback()], which leaves
    the database as it was when the transaction began. *)
Definition commit (s : t) : Database :=
  let s := flush s in
  mkDatabase (stores s) (products s) (prices s) (price_history s).

Definition set_prices (s : t) (rows : list Price) : t :=
  mkSession (stores s) (products s) rows (price_history s)
            (new_prices s) (new_history s).

Definition set_products (s : t) (rows : list Product) : t :=
  mkSession (stores s) rows (prices s) (price_history s)
            (new_prices s) (new_history s).

(** [db.add(price)] *)
Definition add_price (s : t) (row : Price) : t :=
  mkSession (stores s) (products s) (prices s) (price_history s)
            (new_prices s ++ [row]) (new_history s).

(** [db.add(history_entry)] *)
Definition add_history (s : t) (row : PriceHistory) : t :=
  mkSession (stores s) (products s) (prices s) (price_history s)
            (new_prices s) (new_history s ++ [row]).

(** The session a caller passes on as [db], between two of its
    transactions: the database as last committed, and the store rows
    as the session holds them, with the assignments to the attributes
    of its [Store] objects that no commit has written yet. The next
    commit of the session writes them; a rollback, or closing the
    session, discards them. *)
Record handle := mkHandle {
  durable : Database;
  held : list Store
}.

(** The session that holds no write: what [SessionLocal()] gives over
    a database, and what a session is after a commit or a rollback. *)
Definition clean (db : Database) : handle := mkHandle db (db_stores db).

(** The transaction the session goes on with. *)
Definition resume (db : handle) : t :=
  mkSession (held db) (db_products (durable db)) (db_prices (durable db))
            (db_price_history (durable db)) [] [].

(** [db.rollback()] *)
Definition rollback (db : handle) : handle := clean (durable db).

(** What a session holds of the product, price and history tables. *)
Definition tables (s : t)
  : list Product * list Price * list PriceHistory * list Price * list PriceHistory :=
  (products s, prices s, price_history s, new_prices s, new_history s).

End Session.

(** A database is read as the session without writes over it, a
    session as the database it has committed. *)
#[warnings="-ambiguous-paths"]
Coercion Session.clean : Database >-> Session.handle.
#[warnings="-ambiguous-paths"]
Coercion Session.durable : Session.handle >-> Database.

(** ** Reconciler: [DataProcessor._find_matching_product] *)

Module DataProcessor.
Import PyStr.

Section Tables.
Context {tables : Unicode}.

(** The inner loop [for keyword in keywords: if keyword.strip() in
    scraped_name.lower(): return product]; [true] when it returns. *)
Fixpoint keyword_loop (keywords : list string) (scraped_name : string) : bool :=
  match keywords with
  | [] => false
  | keyword :: rest =>
      if contains (strip keyword) (lower scraped_name) then true
      else keyword_loop rest scraped_name
  end.

(** [_find_matching_product(db, scraped_name)] with
    [products = db.query(Product).all()]. *)
Fixpoint _find_matching_product (products : list Product) (scraped_name : string)
  : option Product :=
  match products with
  | [] => None
  | product :: rest =>
      let keywords := split "," (lower (product_keywords product)) in
      if keyword_loop keywords scraped_name then Some product
      else _find_matching_product rest scraped_name
  end.

(** The keywords of a catalog entry, compared without regard to case:
    the comma-separated segments of its keyword string in lower case,
    stripped. *)
Definition lowered_keywords (p : Product) : list string :=
  map strip (split "," (lower (product_keywords p))).

(** [k], a keyword in lower case, is a case-insensitive substring of
    [s]: it occurs in [s] in lower case. *)
Definition ci_substring (k s : string) : Prop :=
  exists u v, lower s = (u ++ k ++ v)%string.

Definition has_matching_keyword (p : Product) (scraped_name : string) : Prop :=
  exists k, In k (lowered_keywords p) /\ ci_substring k scraped_name.

(** The segments of the keyword string as it is stored, stripped. *)
Definition keywords_of (p : Product) : list string :=
  map strip (split "," (product_keywords p)).

(** The same in terms of the stored keywords: one of them, lower-cased,
    occurs in the lower-cased name. *)
Definition has_stored_keyword (p : Product) (scraped_name : string) : Prop :=
  exists k, In k (keywords_of p) /\ ci_substring (lower k) scraped_name.

(** *** Ledger: [DataProcessor.process_scraped_data] *)

(** The filter [Price.product_id == product_id, Price.store_id == store_id]. *)
Definition for_pair (product_id store_id : Z) (row : Price) : bool :=
  (price_product_id row =? product_id)%Z && (price_store_id row =? store_id)%Z.

(** [query.first()] followed by assignments to the row it returns: the
    first row that passes the filter is changed where it stands; [None]
    when no row passes. *)
Fixpoint update_first (f : Price -> bool) (g : Price -> Price) (rows : list Price)
  : option (list Price) :=
  match rows with
  | [] => None
  | row :: rest =>
      if f row then Some (g row :: rest)
      else option_map (cons row) (update_first f g rest)
  end.

(** The three assignments of the update branch. *)
Definition update_price (scraped_product : ProductData) (current_price : Price)
  : Price :=
  mkPrice (price_product_id current_price) (price_store_id current_price)
          (pd_price scraped_product)
          (price_price_per_kg current_price) (price_pack_size current_price)
          (price_pack_unit current_price)
          (pd_is_available scraped_product)
          (price_is_organic current_price) (price_is_discounted current_price)
          (price_original_price current_price) (price_brand current_price)
          (price_image_url current_price) (price_product_url current_price)
          (pd_scraped_at scraped_product).

(** [Price(product_id=..., store_id=..., price=..., is_available=...,
    product_url=..., scraped_at=...)] *)
Definition new_price (db_product : Product) (store_id : Z)
  (scraped_product : ProductData) : Price :=
  mkPrice (product_id db_product) store_id (pd_price scraped_product)
          None None None (pd_is_available scraped_product) None None None None
          None (pd_product_url scraped_product) (pd_scraped_at scraped_product).

(** Modelled from the spec: the [PriceHistory] model
    ([app/models/price_history.py]) is not part of the sources. The code
    passes no [recorded_at]; the row is "timestamped at capture time" by
    the column default when it is written, and [now] is that time. *)
Definition history_entry (now : datetime) (db_product : Product) (store_id : Z)
  (scraped_product : ProductData) : PriceHistory :=
  mkPriceHistory (product_id db_product) store_id (pd_price scraped_product)
                 (pd_is_available scraped_product) now.

(** [not scraped_product.name or scraped_product.price <= 0] *)
Definition invalid (scraped_product : ProductData) : bool :=
  negb (truthy (pd_name scraped_product))
  || Qle_bool (pd_price scraped_product) 0.

(** The body of the loop over the scraped products. *)
Definition process_item (autoflush : bool) (now : datetime) (store_id : Z)
  (s : Session.t) (scraped_product : ProductData) : Session.t :=
  if invalid scraped_product then s
  else
    let s := Session.before_query autoflush s in
    match _find_matching_product (Session.products s) (pd_name scraped_product) with
    | None => s
    | Some db_product =>
        let s := Session.before_query autoflush s in
        let s :=
          match update_first (for_pair (product_id db_product) store_id)
                             (update_price scraped_product) (Session.prices s) with
          | Some rows => Session.set_prices s rows
          | None => Session.add_price s (new_price db_product store_id scraped_product)
          end in
        Session.add_history s (history_entry now db_product store_id scraped_product)
    end.

Fixpoint process_loop (autoflush : bool) (now : datetime) (store_id : Z)
  (s : Session.t) (scraped_products : list ProductData) : Session.t :=
  match scraped_products with
  | [] => s
  | scraped_product :: rest =>
      process_loop autoflush now store_id
                   (process_item autoflush now store_id s scraped_product) rest
  end.

(** [process_scraped_data(db, store_id, scraped_products)]; the result
    is the database the call leaves. [commit_raises] tells whether the
    [db.commit()] that ends the call raises. *)
Definition process_scraped_data (autoflush commit_raises : bool) (now : datetime)
  (db : Database) (store_id : Z) (scraped_products : list ProductData) : Database :=
  match scraped_products with
  | [] => db
  | _ :: _ =>
      let s := process_loop autoflush now store_id (Session.begin db)
                            scraped_products in
      if commit_raises then db else Session.commit s
  end.

End Tables.

End DataProcessor.

(** ** Python dictionaries

    A [dict] with string keys, in insertion order: assigning to a key
    that is present replaces the value where it stands, assigning to a
    new key appends the entry. *)

Module PyDict.

Fixpoint dict_get {V : Type} (d : list (string * V)) (key : string) : option V :=
  match d with
  | [] => None
  | (k, v) :: rest => if String.eqb k key then Some v else dict_get rest key
  end.

Fixpoint dict_set {V : Type} (d : list (string * V)) (key : string) (value : V)
  : list (string * V) :=
  match d with
  | [] => [(key, value)]
  | (k, v) :: rest =>
      if String.eqb k key then (k, value) :: rest
      else (k, v) :: dict_set rest key value
  end.

End PyDict.

(** ** Category classifier: [CategoryClassifier.classify] *)

Module CategoryClassifier.
Import PyStr PyDict.

Section Tables.
Context {tables : Unicode}.

(** The character before a position is a word character; there is none
    before the start of the text. *)
Definition word_before (before : string) : bool :=
  match before with
  | EmptyString => false
  | String _ _ => ends_with_word before
  end.

(** The character at a position is a word character; there is none at
    the end of the text. *)
Definition word_after (after : string) : bool :=
  match after with
  | EmptyString => false
  | String _ _ => starts_with_word after
  end.

(** [\b] at the position between [before] and [after]: exactly one of
    the two neighbouring characters is a word character. *)
Definition word_boundary (before after : string) : bool :=
  xorb (word_before before) (word_after after).

(** [re.escape(keyword)] matched at the start of [text]: the escaped
    keyword matches itself, character by character; what is left of the
    text after it. *)
Fixpoint match_literal (keyword text : string) : option string :=
  match keyword with
  | EmptyString => Some text
  | String k keyword' =>
      match text with
      | EmptyString => None
      | String c text' =>
          if Ascii.eqb k c then match_literal keyword' text' else None
      end
  end.

(** The whole pattern [r'\b' + re.escape(keyword) + r'\b'] at the
    position of the text between [before] and [text]. *)
Definition match_here (keyword before text : string) : bool :=
  char_start text
  && word_boundary before text
  && match match_literal keyword text with
     | Some rest => word_boundary (before ++ keyword) rest
     | None => false
     end.

(** The scan of [re.search] over the start positions, left to right. *)
Fixpoint search_from (keyword before text : string) : bool :=
  match_here keyword before text
  || match text with
     | EmptyString => false
     | String c text' => search_from keyword (before ++ String c EmptyString) text'
     end.

(** [re.search(r'\b' + re.escape(keyword) + r'\b', text)] is not [None]. *)
Definition re_search_word (keyword text : string) : bool :=
  search_from keyword EmptyString text.

(** [for keyword in keywords: if re.search(...): return ...]; [true]
    when the loop returns. *)
Fixpoint keyword_loop (keywords : list string) (text_to_search : string) : bool :=
  match keywords with
  | [] => false
  | keyword :: rest =>
      if re_search_word keyword text_to_search then true
      else keyword_loop rest text_to_search
  end.

(** [classify(self, product_name)]; [None] is the [KeyError] of a table
    without the key that is looked up. *)
Definition classify (self : list (string * list string)) (product_name : string)
  : option string :=
  let text_to_search := lower product_name in
  match dict_get self "B" with
  | None => None
  | Some keywords_b =>
      if keyword_loop keywords_b text_to_search then Some "B"
      else
        match dict_get self "A" with
        | None => None
        | Some keywords_a =>
            if keyword_loop keywords_a text_to_search then Some "A"
            else Some "A"
        end
  end.

(** The specification's word-boundary match: [keyword] occurs in [text]
    at a position of the text, with a word boundary on each side of the
    occurrence. *)
Definition word_match (keyword text : string) : Prop :=
  exists u v,
    text = (u ++ keyword ++ v)%string
    /\ char_start (keyword ++ v) = true
    /\ word_boundary u (keyword ++ v) = true
    /\ word_boundary (u ++ keyword) v = true.

Definition some_word_match (keywords : list string) (text : string) : Prop :=
  exists k, In k keywords /\ word_match k text.

End Tables.

(** [self.category_keywords] as [__init__] sets it. *)
Definition category_keywords : list (string * list string) :=
  [ ("A", [ "cucumber"; "خيار"; "tomato"; "طماطم"; "cherry tomato";
            "capsicum"; "pepper"; "فلفل"; "arugula"; "جرجير";
            "parsley"; "بقدونس"; "coriander"; "كزبرة"; "mint"; "نعناع";
            "kale"; "basil"; "ريحان" ]);
    ("B", [ "lettuce"; "خس"; "chives"; "ثوم معمر"; "batavia" ]) ].

(** The table of the specification's example. *)
Definition example_keywords : list (string * list string) :=
  [ ("A", [ "tomato" ]); ("B", [ "cherry tomato" ]) ].

(** The string holds an upper-case letter of the ASCII range. *)
Fixpoint has_upper (s : string) : bool :=
  match s with
  | EmptyString => false
  | String c s' => is_upper c || has_upper s'
  end.

(** A table whose B keyword is capitalised. *)
Definition capitalised_keywords : list (string * list string) :=
  [ ("A", [ "tomato" ]); ("B", [ "Lettuce"; "chives" ]) ].

End CategoryClassifier.

(** ** The ledger as the specification words it *)

Module Ledger.
Import PyStr DataProcessor.

Section Tables.
Context {tables : Unicode}.

(** The catalog entry an item is reconciled with: [None] for an item
    that is dropped (empty name, price not positive, no match). *)
Definition matched (products : list Product) (item : ProductData) : option Product :=
  if invalid item then None
  else _find_matching_product products (pd_name item).

Definition kept (products : list Product) (item : ProductData) : bool :=
  match matched products item with Some _ => true | None => false end.

(** The items the reconciliation policy drops: empty name, price that
    is not positive, no catalog match. *)
Definition dropped (products : list Product) (item : ProductData) : Prop :=
  pd_name item = EmptyString \/ (pd_price item <= 0)%Q
  \/ _find_matching_product products (pd_name item) = None.

(** The items of a batch that are processed, each with its catalog entry. *)
Fixpoint processed (products : list Product) (items : list ProductData)
  : list (Product * ProductData) :=
  match items with
  | [] => []
  | item :: rest =>
      match matched products item with
      | Some product => (product, item) :: processed products rest
      | None => processed products rest
      end
  end.

(** [upsert(productId, storeId, scrapedItem)] on the current prices: if
    a row exists for the pair, overwrite its fields in place; otherwise
    insert one. *)
Definition overwrite (store_id : Z) (x : Product * ProductData) (row : Price) : Price :=
  if for_pair (product_id (fst x)) store_id row then update_price (snd x) row else row.

Definition upsert (store_id : Z) (rows : list Price) (x : Product * ProductData)
  : list Price :=
  if existsb (for_pair (product_id (fst x)) store_id) rows
  then map (overwrite store_id x) rows
  else rows ++ [new_price (fst x) store_id (snd x)].

(** The record appended for a processed item. *)
Definition record (now : datetime) (store_id : Z) (x : Product * ProductData)
  : PriceHistory :=
  history_entry now (fst x) store_id (snd x).

(** At most one current price per (product, store) pair. *)
Definition unique_pairs (rows : list Price) : Prop :=
  forall product_id store_id,
    (List.length (filter (for_pair product_id store_id) rows) <= 1)%nat.

(** The number of current prices of a pair, the number of its records. *)
Definition count_prices (product_id store_id : Z) (rows : list Price) : nat :=
  List.length (filter (for_pair product_id store_id) rows).

Definition of_pair (product_id store_id : Z) (r : PriceHistory) : bool :=
  (history_product_id r =? product_id)%Z && (history_store_id r =? store_id)%Z.

Definition count_records (product_id store_id : Z) (records : list PriceHistory)
  : nat :=
  List.length (filter (of_pair product_id store_id) records).

(** The history is append-only: the most recent record of a pair is the
    one appended last. *)
Definition last_record (product_id store_id : Z) (records : list PriceHistory)
  : option PriceHistory :=
  last (map Some (filter (of_pair product_id store_id) records)) None.

(** A current price row and a history record hold the same price and
    availability. *)
Definition same_values (row : Price) (r : PriceHistory) : Prop :=
  history_price r = price_price row
  /\ history_is_available r = price_is_available row.

(** Every row carries the values of the last record of its pair. *)
Definition covered (rows : list Price) (records : list PriceHistory) : Prop :=
  forall row, In row rows ->
    exists r, last_record (price_product_id row) (price_store_id row) records = Some r
              /\ same_values row r.

(** The ledger invariant: one row per pair, and every row carries the
    price and the availability of the most recent record of its pair. *)
Definition consistent (db : Database) : Prop :=
  unique_pairs (db_prices db)
  /\ covered (db_prices db) (db_price_history db).

(** The invariant as the specification states it, the timestamp
    included, as a test on a database. *)
Definition agrees (row : Price) (r : PriceHistory) : bool :=
  Qeq_bool (history_price r) (price_price row)
  && Bool.eqb (history_is_available r) (price_is_available row)
  && (history_recorded_at r =? price_scraped_at row)%Z.

Definition row_has_latest_record (records : list PriceHistory) (row : Price) : bool :=
  match last_record (price_product_id row) (price_store_id row) records with
  | Some r => agrees row r
  | None => false
  end.

Definition snapshot_equals_latest_record (db : Database) : bool :=
  forallb (row_has_latest_record (db_price_history db)) (db_prices db).

(** What a session holds once flushed: the price rows and the records. *)
Definition view (s : Session.t) : list Price * list PriceHistory :=
  (Session.prices s ++ Session.new_prices s,
   Session.price_history s ++ Session.new_history s).

(** The step of the loop of [process_scraped_data] on flushed tables. *)
Definition apply_item (now : datetime) (store_id : Z)
  (ledger : list Price * list PriceHistory) (x : Product * ProductData)
  : list Price * list PriceHistory :=
  (match update_first (for_pair (product_id (fst x)) store_id)
                      (update_price (snd x)) (fst ledger) with
   | Some rows => rows
   | None => fst ledger ++ [new_price (fst x) store_id (snd x)]
   end,
   snd ledger ++ [record now store_id x]).

(** No two processed items of the batch are reconciled with the same
    catalog entry. *)
Definition distinct_matches (products : list Product) (items : list ProductData)
  : Prop :=
  NoDup (map (fun x => product_id (fst x)) (processed products items)).

(** All the overwrites of a batch on one row, in the order of the batch. *)
Definition overwrite_all (store_id : Z) (l : list (Product * ProductData))
  (row : Price) : Price :=
  fold_left (fun row x => overwrite store_id x row) l row.

(** The current prices of the other stores. *)
Definition of_other_store (store_id : Z) (row : Price) : bool :=
  negb (price_store_id row =? store_id)%Z.

(** The records a batch appends: one for each processed item. *)
Definition records_of (now : datetime) (store_id : Z) (products : list Product)
  (items : list ProductData) : list PriceHistory :=
  map (record now store_id) (processed products items).

(** A query of the loop sees the rows the loop added for the pair it
    asks for: the session flushes before a query, or no row of that pair
    was added. *)
Definition sees_own_rows (autoflush : bool) (products : list Product)
  (items : list ProductData) : Prop :=
  autoflush = true \/ distinct_matches products items.

End Tables.

End Ledger.

(** ** Orchestrator: [ScraperManager] *)

Module ScraperManager.
Import PyStr PyDict.

(** What awaiting [scraper_class().scrape()] ends in. *)
Inductive outcome :=
| Raised (error : string)
| Returned (products : list ProductData).

(** A scraper class of the registry [self.scrapers]: the outcome of the
    task that instantiates it and scrapes for a given store. *)
Definition ScraperClass := Store -> outcome.

Definition set_status (status : string) (store : Store) : Store :=
  mkStore (store_id store) (store_name store) (store_url store) (store_type store)
          (store_scraper_module store) (store_is_active store) status
          (store_last_scraped store).

Definition set_last_scraped (at_ : datetime) (store : Store) : Store :=
  mkStore (store_id store) (store_name store) (store_url store) (store_type store)
          (store_scraper_module store) (store_is_active store) (store_status store)
          (Some at_).

(** [_scrape_store_safe(scraper_class, store)]: the [store] object as
    the call leaves it and the list it returns. The object belongs to
    the session of the caller; the [db.commit()] that follows each
    assignment is the commit of a fresh [SessionLocal()] that holds
    nothing, so the assignments stay in the session of the caller, to
    be written by its next commit or discarded by its rollback. [now]
    is what [datetime.utcnow()] reads. *)
Definition _scrape_store_safe (scraper_class : ScraperClass) (now : datetime)
  (store : Store) : Store * list ProductData :=
  let scraping := set_status "scraping" store in
  match scraper_class store with
  | Returned products =>
      (set_last_scraped now (set_status "idle" scraping), products)
  | Raised _ => (set_status "offline" scraping, [])
  end.

(** [store.scraper_module and store.scraper_module in self.scrapers],
    and then [self.scrapers[store.scraper_module]]. *)
Definition resolve (scrapers : list (string * ScraperClass)) (store : Store)
  : option ScraperClass :=
  match store_scraper_module store with
  | None => None
  | Some module => if truthy module then dict_get scrapers module else None
  end.

(** A store of the table is attempted when it is active and its scraper
    resolves. *)
Definition attempted (scrapers : list (string * ScraperClass)) (store : Store)
  : bool :=
  store_is_active store
  && match resolve scrapers store with Some _ => true | None => false end.

(** The tasks of one batch, created for the active stores in table
    order and awaited together by [asyncio.gather] with
    [return_exceptions=True]: the store objects as they leave them in
    the session, the names of the attempted stores and, in the same
    order, what each task ended in, an exception ([inl]) or a returned
    list ([inr]). A task only assigns to the object of its own store,
    so the order in which the tasks interleave does not show in the
    result. *)
Fixpoint run_tasks (scrapers : list (string * ScraperClass)) (now : datetime)
  (stores : list Store)
  : list Store * list string * list (string + list ProductData) :=
  match stores with
  | [] => ([], [], [])
  | store :: rest =>
      let '(stores', store_names, results) := run_tasks scrapers now rest in
      if store_is_active store then
        match resolve scrapers store with
        | Some scraper_class =>
            let (store', products) := _scrape_store_safe scraper_class now store in
            (store' :: stores', store_name store :: store_names,
             inr products :: results)
        | None => (store :: stores', store_names, results)
        end
      else (store :: stores', store_names, results)
  end.

(** [for i, result in enumerate(results): all_results[store_names[i]] = ...] *)
Fixpoint collect (store_names : list string)
  (results : list (string + list ProductData))
  (all_results : list (string * list ProductData))
  : list (string * list ProductData) :=
  match store_names, results with
  | store_name :: store_names', inl _ :: results' =>
      collect store_names' results' (dict_set all_results store_name [])
  | store_name :: store_names', inr result :: results' =>
      collect store_names' results' (dict_set all_results store_name result)
  | _, _ => all_results
  end.

(** [db.query(Product).filter(Product.name == name).first()] *)
Definition find_product (products : list Product) (name : string) : option Product :=
  find (fun product => String.eqb (product_name product) name) products.

(** The key the database gives a product row on insertion. *)
Definition next_id (products : list Product) : Z :=
  (1 + fold_right Z.max 0 (map product_id products))%Z.

(** [x or default] on an optional string. *)
Definition str_or (x : option string) (default : string) : string :=
  match x with
  | Some s => if truthy s then s else default
  | None => default
  end.

(** [float(x) if x else 0.0] *)
Definition float_or_zero (x : Q) : Q := if Qeq_bool x 0 then 0 else x.

(** [float(x) if x else None] *)
Definition float_or_none (x : option Q) : option Q :=
  match x with
  | Some q => if Qeq_bool q 0 then None else Some q
  | None => None
  end.

Section Tables.
Context {tables : Unicode}.

(** [Product(name=..., category=... or "uncategorized",
    keywords=name.lower(), is_active=True)], keyed by the flush. *)
Definition new_product (id : Z) (product_data : ProductData) : Product :=
  mkProduct id (pd_name product_data)
            (str_or (pd_category product_data) "uncategorized")
            (lower (pd_name product_data)) true.

(** The [Price(...)] of [_save_store_results]. *)
Definition build_price (product : Product) (store : Store)
  (product_data : ProductData) : Price :=
  mkPrice (product_id product) (store_id store)
          (float_or_zero (pd_price product_data))
          (float_or_none (pd_price_per_kg product_data))
          (pd_pack_size product_data) (pd_pack_unit product_data)
          (pd_is_available product_data)
          (Some (pd_is_organic product_data))
          (Some (pd_is_discounted product_data))
          (float_or_none (pd_original_price product_data))
          (pd_brand product_data) (pd_image_url product_data)
          (pd_product_url product_data) (pd_scraped_at product_data).

(** [db.query(Price).filter(...).delete()] *)
Definition delete_prices (product_id store_id : Z) (rows : list Price) : list Price :=
  filter (fun row => negb (DataProcessor.for_pair product_id store_id row)) rows.

(** The body of the inner [try] for one item. [raises product_data]
    tells whether building the price row of the item raises (a [float()]
    of a value that is no number, say): the lookup, the creation of the
    product and the delete have then been done, the [except] clause
    moves on to the next item and the count is not incremented. *)
Definition save_item (autoflush : bool) (raises : ProductData -> bool)
  (store : Store) (acc : Session.t * nat) (product_data : ProductData)
  : Session.t * nat :=
  let (s, saved_count) := acc in
  let s := Session.before_query autoflush s in
  let (s, product) :=
    match find_product (Session.products s) (pd_name product_data) with
    | Some product => (s, product)
    | None =>
        let product := new_product (next_id (Session.products s)) product_data in
        (Session.flush (Session.set_products s (Session.products s ++ [product])),
         product)
    end in
  let s := Session.before_query autoflush s in
  let s := Session.set_prices s
             (delete_prices (product_id product) (store_id store) (Session.prices s)) in
  if raises product_data then (s, saved_count)
  else (Session.add_price s (build_price product store product_data),
        S saved_count).

Fixpoint save_loop (autoflush : bool) (raises : ProductData -> bool)
  (store : Store) (acc : Session.t * nat) (products : list ProductData)
  : Session.t * nat :=
  match products with
  | [] => acc
  | product_data :: rest =>
      save_loop autoflush raises store
                (save_item autoflush raises store acc product_data) rest
  end.

(** [_save_store_results(products, store, db)]: the session the call
    leaves and the count it returns. [db] is the session of the caller:
    the [db.commit()] that ends the loop also writes the store rows the
    session holds, and when it raises, the [db.rollback()] of the outer
    [except] discards them with the rows of the batch. *)
Definition _save_store_results (autoflush : bool) (raises : ProductData -> bool)
  (commit_raises : bool) (products : list ProductData) (store : Store)
  (db : Session.handle) : Session.handle * nat :=
  let (s, saved_count) :=
    save_loop autoflush raises store (Session.resume db, 0%nat) products in
  if commit_raises then (Session.rollback db, saved_count)
  else (Session.clean (Session.commit s), saved_count).

(** The catalog entries a batch creates: one for each name the catalog
    does not hold when its item comes, keyed as the flush keys it. *)
Fixpoint created_products (catalog : list Product) (products : list ProductData)
  : list Product :=
  match products with
  | [] => []
  | product_data :: rest =>
      match find_product catalog (pd_name product_data) with
      | Some _ => created_products catalog rest
      | None =>
          let product := new_product (next_id catalog) product_data in
          product :: created_products (catalog ++ [product]) rest
      end
  end.

(** The number of items of a batch whose price row is built without
    exception. *)
Definition count_saved (raises : ProductData -> bool) (products : list ProductData)
  : nat :=
  List.length (filter (fun product_data => negb (raises product_data)) products).

(** [db.query(Store).filter(Store.name == store_name).first()] *)
Definition find_store (stores : list Store) (store_name_ : string) : option Store :=
  find (fun store => String.eqb (store_name store) store_name_) stores.

(** [_save_all_results(all_results, db)], on the one session [db] that
    every store's batch is saved in; [commit_raises store_name] tells
    whether the commit of that store's rows raises. *)
Fixpoint _save_all_results (autoflush : bool) (raises : ProductData -> bool)
  (commit_raises : string -> bool)
  (all_results : list (string * list ProductData)) (db : Session.handle)
  : Session.handle * nat :=
  match all_results with
  | [] => (db, 0%nat)
  | (store_name_, products) :: rest =>
      match find_store (Session.held db) store_name_ with
      | Some store =>
          let (db', saved) :=
            _save_store_results autoflush raises (commit_raises store_name_)
                                products store db in
          let (db'', total_saved) :=
            _save_all_results autoflush raises commit_raises rest db' in
          (db'', (saved + total_saved)%nat)
      | None => _save_all_results autoflush raises commit_raises rest db
      end
  end.

Definition set_stores (db : Database) (stores : list Store) : Database :=
  mkDatabase stores (db_products db) (db_prices db) (db_price_history db).

(** [scrape_all_stores(self)]: the map it returns and the database it
    leaves. The tasks assign to the store objects of the session that
    [_save_all_results] is then given; [db.close()] in the [finally]
    clause discards what no commit has written. *)
Definition scrape_all_stores (scrapers : list (string * ScraperClass))
  (autoflush : bool) (raises : ProductData -> bool)
  (commit_raises : string -> bool) (now : datetime) (db : Database)
  : list (string * list ProductData) * Database :=
  match filter store_is_active (db_stores db) with
  | [] => ([], db)
  | _ :: _ =>
      let '(stores', store_names, results) :=
        run_tasks scrapers now (db_stores db) in
      let all_results := collect store_names results [] in
      let (db', total_saved) :=
        _save_all_results autoflush raises commit_raises all_results
                          (Session.mkHandle db stores') in
      (all_results, Session.durable db')
  end.

(** Two databases that agree on the catalog, the prices and the history. *)
Definition same_tables (a b : Database) : Prop :=
  db_products a = db_products b
  /\ db_prices a = db_prices b
  /\ db_price_history a = db_price_history b.

(** The store whose batch is the first to be saved. *)
Definition first_saved (all_results : list (string * list ProductData))
  (stores : list Store) : option string :=
  option_map fst
    (find (fun entry => match find_store stores (fst entry) with
                        | Some _ => true
                        | None => false
                        end) all_results).

(** The key and the name of every store row, which no assignment of
    the code changes. *)
Definition keys_of (stores : list Store) : list (Z * string) :=
  map (fun store => (store_id store, store_name store)) stores.

(** Whether the assignments of the tasks to the store objects reach
    the database: the first commit of the session, the one that ends
    the batch of the first attempted store, writes them when it
    succeeds and rolls them back when it raises. *)
Definition statuses_committed (scrapers : list (string * ScraperClass))
  (commit_raises : string -> bool) (stores : list Store) : bool :=
  match filter (attempted scrapers) stores with
  | [] => false
  | first :: _ => negb (commit_raises (store_name first))
  end.

(** The outcome of the adapter of a store of the batch; [None] for a
    store that is not attempted. *)
Definition adapter_outcome (scrapers : list (string * ScraperClass))
  (store : Store) : option outcome :=
  if store_is_active store
  then option_map (fun scraper_class : ScraperClass => scraper_class store)
                  (resolve scrapers store)
  else None.

(** The row of a store after the batch. *)
Definition after_task (scrapers : list (string * ScraperClass)) (now : datetime)
  (store : Store) : Store :=
  if store_is_active store then
    match resolve scrapers store with
    | Some scraper_class => fst (_scrape_store_safe scraper_class now store)
    | None => store
    end
  else store.

(** The list the task of an attempted store returns. *)
Definition task_result (scrapers : list (string * ScraperClass)) (now : datetime)
  (store : Store) : list ProductData :=
  match resolve scrapers store with
  | Some scraper_class => snd (_scrape_store_safe scraper_class now store)
  | None => []
  end.

End Tables.

End ScraperManager.

(** ** Price change: [PriceService] and the prices API *)

Module PriceService.

(** [timedelta(days=n)], in microseconds. *)
Definition timedelta_days (n : Z) : Z := (n * 86400000000)%Z.

Definition timedelta_hours (n : Z) : Z := (n * 3600000000)%Z.

(** The filter of the history query. *)
Definition recorded_before (product_id store_id : Z) (yesterday : datetime)
  (record : PriceHistory) : bool :=
  (history_product_id record =? product_id)%Z
  && (history_store_id record =? store_id)%Z
  && (history_recorded_at record <? yesterday)%Z.

(** [order_by(PriceHistory.recorded_at.desc()).first()]: a row with the
    greatest [recorded_at]; among rows with the same one, the first of
    the table. *)
Fixpoint latest (records : list PriceHistory) : option PriceHistory :=
  match records with
  | [] => None
  | record :: rest =>
      match latest rest with
      | None => Some record
      | Some other =>
          if (history_recorded_at record <? history_recorded_at other)%Z
          then Some other else Some record
      end
  end.

(** The query for [previous_price_obj]. *)
Definition previous_price_obj (utcnow : datetime) (history : list PriceHistory)
  (price : Price) : option PriceHistory :=
  let yesterday := (utcnow - timedelta_days 1)%Z in
  latest (filter (recorded_before (price_product_id price) (price_store_id price)
                                  yesterday) history).

(** Rounding to the nearest integer, ties to the even one. *)
Definition round_half_even (x : Q) : Z :=
  let f := Qfloor x in
  match Qcompare (x - inject_Z f) (1 # 2) with
  | Lt => f
  | Gt => (f + 1)%Z
  | Eq => if Z.even f then f else (f + 1)%Z
  end.

(** [round(x, 2)] of the exact value [x]: the nearest hundredth, ties
    to the even one. *)
Definition round2 (x : Q) : Q := inject_Z (round_half_even (x * 100)) / 100.

(** The unrounded percentage both call sites compute. *)
Definition change_percent (previous : option PriceHistory) (price : Price) : Q :=
  match previous with
  | Some previous_price_obj =>
      if Qle_bool (history_price previous_price_obj) 0 then 0
      else
        let price_change := price_price price - history_price previous_price_obj in
        (price_change / history_price previous_price_obj) * 100
  | None => 0
  end.

(** The entry ["price_change_percent"] of the dictionary that
    [PriceService._format_price_with_change(db, price)] returns. *)
Definition _format_price_with_change (utcnow : datetime)
  (history : list PriceHistory) (price : Price) : Q :=
  round2 (change_percent (previous_price_obj utcnow history price) price).

(** The entry ["price_change_percent"] of a result of the prices API
    ([get_prices_test_no_auth]). *)
Definition get_prices_price_change_percent (utcnow : datetime)
  (history : list PriceHistory) (price : Price) : Q :=
  change_percent (previous_price_obj utcnow history price) price.

(** The specification's reading: [record] is a most recent history
    record of the pair of [price] strictly older than [utcnow] minus 24
    hours. *)
Definition most_recent_older (utcnow : datetime) (history : list PriceHistory)
  (price : Price) (record : PriceHistory) : Prop :=
  let older r :=
    history_product_id r = price_product_id price
    /\ history_store_id r = price_store_id price
    /\ (history_recorded_at r < utcnow - timedelta_hours 24)%Z in
  In record history /\ older record
  /\ forall r, In r history -> older r ->
               (history_recorded_at r <= history_recorded_at record)%Z.

End PriceService.

(** ** Concrete batches *)

Module Examples.
Import ScraperManager.

Definition cucumbers : Product := mkProduct 1 "Cucumbers" "A" "cucumber" true.

Definition tomatoes : Product := mkProduct 2 "Tomatoes" "A" "tomato, roma" true.

Definition catalog : list Product := [cucumbers; tomatoes].



Definition item (name : string) (price : Q) (scraped_at : datetime) : ProductData :=
  mkProductData name price None None None true false false None None None None
                None scraped_at.

Definition organic_cucumber : ProductData := item "Organic Cucumber" (25 # 2) 100%Z.

Definition baby_cucumber : ProductData := item "Baby Cucumber 1kg" 10 101%Z.

Definition cherry_tomato : ProductData := item "Cherry Tomato Pack 500g" 30 102%Z.

Definition unknown_widget : ProductData := item "Unknown Widget" (999 # 100) 100%Z.

Definition free_widget : ProductData := item "Free Widget" 0 100%Z.

Definition store_S : Store :=
  mkStore 7 "S" "https://s.example" "grocery" (Some "gourmet_scraper") true "idle" None.

Definition store_T : Store :=
  mkStore 8 "T" "https://t.example" "grocery" (Some "metro_scraper") true "idle" None.

Definition store_U : Store :=
  mkStore 9 "U" "https://u.example" "grocery" (Some "talabat_scraper") true "idle" None.

Definition db0 : Database := mkDatabase [store_S; store_T; store_U] catalog [] [].

(** The adapter of S raises, the adapter of T returns two items, the
    adapter of U returns none. *)
Definition scrapers : list (string * ScraperClass) :=
  [ ("gourmet_scraper", fun _ => Raised "timeout");
    ("metro_scraper", fun _ => Returned [organic_cucumber; unknown_widget]);
    ("talabat_scraper", fun _ => Returned []) ].

Definition never_raises (product_data : ProductData) : bool := false.

Definition commits (store_name_ : string) : bool := false.

(** Saving the item named "Unknown Widget" raises. *)
Definition widget_raises (product_data : ProductData) : bool :=
  String.eqb (pd_name product_data) "Unknown Widget".

(** The time [T] of the price change example. *)
Definition T : datetime := 1762000000000000%Z.

Definition price_at_T (price : Q) : Price :=
  mkPrice 1 7 price None None None true None None None None None None T.

Definition recorded (price : Q) (hours_ago : Z) : PriceHistory :=
  mkPriceHistory 1 7 price true (T - PriceService.timedelta_hours hours_ago)%Z.

End Examples.

(** ** Orchestrator: one store, and the search across stores *)

Module ScraperManagerMore.
Import PyStr PyDict ScraperManager.

(** [db.query(Store).filter(Store.id == store_id).first()] *)
Definition find_store_by_id (stores : list Store) (id : Z) : option Store :=
  find (fun store => (store_id store =? id)%Z) stores.

(** Assignments to the attributes of the object [first()] returned,
    committed: the first row with the key is the one that changes. *)
Fixpoint write_store (id : Z) (store' : Store) (stores : list Store) : list Store :=
  match stores with
  | [] => []
  | store :: rest =>
      if (store_id store =? id)%Z then store' :: rest
      else store :: write_store id store' rest
  end.

(** [store.status = ...], [store.last_scraped = ...]: an assignment to
    the attributes of the [Store] object with the key, held by the
    session and not yet written. *)
Fixpoint update_store (id : Z) (f : Store -> Store) (stores : list Store)
  : list Store :=
  match stores with
  | [] => []
  | store :: rest =>
      if (store_id store =? id)%Z then f store :: rest
      else store :: update_store id f rest
  end.

Definition assign (id : Z) (f : Store -> Store) (db : Session.handle)
  : Session.handle :=
  Session.mkHandle (Session.durable db) (update_store id f (Session.held db)).

(** [db.commit()] that succeeds, of a session that holds store writes
    only. *)
Definition commit_stores (db : Session.handle) : Session.handle :=
  Session.clean (set_stores (Session.durable db) (Session.held db)).

(** The four [db.commit()] that a call of [scrape_single_store] can
    reach: after [store.status = "scraping"], at the end of
    [_save_store_results], after [store.status = "idle"], and after
    [store.status = "offline"] in the [except] clause. *)
Inductive commit_site :=
| CommitScraping
| CommitSave
| CommitIdle
| CommitOffline.

(** What a call ends in: the list it returns, or an exception that
    leaves it. *)
Inductive ended :=
| Returns (products : list ProductData)
| Raises.

Section Tables.
Context {tables : Unicode}.

(** The [except Exception] clause of [scrape_single_store], entered
    when a commit of the [try] block raises: the failed commit has
    rolled the transaction back, then [store.status = "offline"],
    [db.commit()] and [return []]. When this commit raises as well the
    exception leaves the call. The [finally] clause closes the session,
    which discards what is not committed. *)
Definition except_clause (commit_raises : commit_site -> bool) (id : Z)
  (db : Session.handle) : ended * Database :=
  let db := assign id (set_status "offline") (Session.rollback db) in
  if commit_raises CommitOffline then (Raises, Session.durable db)
  else (Returns [], Session.durable (commit_stores db)).

(** [scrape_single_store(self, store_id)]: what it ends in and the
    database it leaves. [commit_raises] tells which of the commits
    raise; [now] is the clock read in [_scrape_store_safe], [later] the
    clock read after the save. [_scrape_store_safe] and
    [_save_store_results] catch what the adapter and the save raise. *)
Definition scrape_single_store (scrapers : list (string * ScraperClass))
  (autoflush : bool) (raises : ProductData -> bool)
  (commit_raises : commit_site -> bool)
  (now later : datetime) (db : Database) (id : Z)
  : ended * Database :=
  match find_store_by_id (db_stores db) id with
  | None => (Returns [], db)
  | Some store =>
      if negb (store_is_active store) then (Returns [], db)
      else
        match resolve scrapers store with
        | None => (Returns [], db)
        | Some scraper_class =>
            let db := assign id (set_status "scraping") (Session.clean db) in
            if commit_raises CommitScraping then except_clause commit_raises id db
            else
              let db := commit_stores db in
              let (store, products) :=
                _scrape_store_safe scraper_class now (set_status "scraping" store) in
              let db := assign id (fun _ => store) db in
              let (db, saved_count) :=
                _save_store_results autoflush raises (commit_raises CommitSave)
                                    products store db in
              let db :=
                assign id (fun store => set_last_scraped later (set_status "idle" store))
                       db in
              if commit_raises CommitIdle then except_clause commit_raises id db
              else (Returns products, Session.durable (commit_stores db))
        end
  end.

(** The row a call writes and what it ends in, for a store that is
    there, is active and has a scraper. *)
Definition single_outcome (scraper_class : ScraperClass)
  (commit_raises : commit_site -> bool) (now later : datetime) (store : Store)
  : ended * Store :=
  let scraping := set_status "scraping" store in
  let attempt := _scrape_store_safe scraper_class now scraping in
  let saved := if commit_raises CommitSave then scraping else fst attempt in
  if commit_raises CommitScraping then
    if commit_raises CommitOffline then (Raises, store)
    else (Returns [], set_status "offline" store)
  else if commit_raises CommitIdle then
    if commit_raises CommitOffline then (Raises, saved)
    else (Returns [], set_status "offline" saved)
  else (Returns (snd attempt), set_last_scraped later (set_status "idle" saved)).

End Tables.

(** A scraper class seen from the search: what
    [_search_product_in_store(scraper_class, product_name)] meets when it
    opens the browser and awaits [scraper.search_product(product_name)]
    in the task created for a store. *)
Definition SearchClass := Store -> string -> outcome.

(** [store.scraper_module and store.scraper_module in self.scrapers],
    and then [self.scrapers[store.scraper_module]], for any registry. *)
Definition resolve_in {C : Type} (scrapers : list (string * C)) (store : Store)
  : option C :=
  match store_scraper_module store with
  | None => None
  | Some module => if truthy module then dict_get scrapers module else None
  end.

(** [_search_product_in_store]: an exception gives the empty list. *)
Definition _search_product_in_store (scraper_class : SearchClass) (store : Store)
  (product_name : string) : list ProductData :=
  match scraper_class store product_name with
  | Returned results => results
  | Raised _ => []
  end.

(** The search tasks, created for the active stores in table order. *)
Fixpoint search_tasks (scrapers : list (string * SearchClass))
  (product_name : string) (stores : list Store)
  : list string * list (string + list ProductData) :=
  match stores with
  | [] => ([], [])
  | store :: rest =>
      let (store_names, results) := search_tasks scrapers product_name rest in
      if store_is_active store then
        match resolve_in scrapers store with
        | Some scraper_class =>
            (store_name store :: store_names,
             inr (_search_product_in_store scraper_class store product_name)
             :: results)
        | None => (store_names, results)
        end
      else (store_names, results)
  end.

(** A store takes part in a search when it is active and its scraper
    resolves. *)
Definition searched (scrapers : list (string * SearchClass)) (store : Store) : bool :=
  store_is_active store
  && match resolve_in scrapers store with Some _ => true | None => false end.

(** The list the search task of a store returns. *)
Definition search_result (scrapers : list (string * SearchClass))
  (product_name : string) (store : Store) : list ProductData :=
  match resolve_in scrapers store with
  | Some scraper_class => _search_product_in_store scraper_class store product_name
  | None => []
  end.

(** [search_product_across_stores(self, product_name)] *)
Definition search_product_across_stores (scrapers : list (string * SearchClass))
  (db : Database) (product_name : string) : list (string * list ProductData) :=
  let (store_names, results) := search_tasks scrapers product_name (db_stores db) in
  collect store_names results [].

End ScraperManagerMore.

(** ** The Celery tasks: [app/tasks/scraping_tasks.py] *)

Module ScrapingTasks.
Import PyStr PyDict ScraperManager ScraperManagerMore.

Section Tables.
Context {tables : Unicode}.

(** [scrape_store_task(store_id)]: the number it returns,
    [len(products_data)], or 0 from its [except] clause when
    [scrape_single_store] raises. *)
Definition scrape_store_task (scrapers : list (string * ScraperClass))
  (autoflush : bool) (raises : ProductData -> bool)
  (commit_raises : commit_site -> bool)
  (now later : datetime) (db : Database) (id : Z) : nat * Database :=
  let (result, db') :=
    scrape_single_store scrapers autoflush raises commit_raises now later db id in
  (match result with
   | Returns products_data => List.length products_data
   | Raises => 0%nat
   end, db').

(** [sum(len(products) for products in results.values())] *)
Definition total_of (results : list (string * list ProductData)) : nat :=
  fold_left (fun total entry => (total + List.length (snd entry))%nat) results 0%nat.

(** [{store: len(products) for store, products in results.items()}] *)
Definition counts_of (results : list (string * list ProductData))
  : list (string * nat) :=
  fold_left (fun counts entry => dict_set counts (fst entry) (List.length (snd entry)))
            results [].

(** The dictionary both summary tasks return. *)
Record Summary := mkSummary {
  summary_stores : nat;
  summary_total : nat;
  summary_results : list (string * nat)
}.

Definition summarize (results : list (string * list ProductData)) : Summary :=
  mkSummary (List.length results) (total_of results) (counts_of results).

(** [scrape_all_stores_task()]: ["stores_scraped"], ["total_products"]
    and ["results"]. *)
Definition scrape_all_stores_task (scrapers : list (string * ScraperClass))
  (autoflush : bool) (raises : ProductData -> bool)
  (commit_raises : string -> bool) (now : datetime) (db : Database)
  : Summary * Database :=
  let (results, db') :=
    scrape_all_stores scrapers autoflush raises commit_raises now db in
  (summarize results, db').

(** [search_specific_product_task(product_name)]: ["stores_searched"],
    ["total_found"] and ["results"]. *)
Definition search_specific_product_task (scrapers : list (string * SearchClass))
  (db : Database) (product_name : string) : Summary :=
  summarize (search_product_across_stores scrapers db product_name).

(** [trigger_scraping(db)]: the store ids handed to
    [scrape_store_task.delay], and the number returned. *)
Definition trigger_scraping (db : Database) : list Z * nat :=
  let stores := filter store_is_active (db_stores db) in
  (map store_id stores, List.length stores).

End Tables.

End ScrapingTasks.

(** ** The scraper endpoints: [app/api/scraper.py] *)

Module ScraperApi.
Import PyStr PyDict ScraperManager ScraperManagerMore ScrapingTasks.

(** What an endpoint ends in: its response, or an [HTTPException]. *)
Inductive http (A : Type) :=
| Response (a : A)
| HTTPException (status_code : Z) (detail : string).

Arguments Response {A} a.
Arguments HTTPException {A} status_code detail.

(** What [background_tasks.add_task] is given. *)
Inductive background_task :=
| ScrapeStoreTask (id : Z)
| ScrapeAllStoresTask.

(** A response of [trigger_scraping]: the message, then ["store_id"] or
    ["stores_count"]. *)
Inductive triggered :=
| TriggeredStore (message : string) (id : Z)
| TriggeredAll (message : string) (stores_count : nat).

Section Tables.
Context {tables : Unicode}.

(** [for store in stores: store.status = "scraping"] over the active
    stores, committed. *)
Definition mark_active_scraping (stores : list Store) : list Store :=
  map (fun store => if store_is_active store then set_status "scraping" store
                    else store) stores.

(** [trigger_scraping(background_tasks, db, current_user, store_id)]:
    the response, the database and the task added. [if store_id:] takes
    the first branch for a number other than 0. *)
Definition trigger_scraping (db : Database) (store_id_ : option Z)
  : http (triggered * Database * background_task) :=
  let single :=
    match store_id_ with
    | Some id => if (id =? 0)%Z then None else Some id
    | None => None
    end in
  match single with
  | Some id =>
      match find_store_by_id (db_stores db) id with
      | None => HTTPException 404 "Store not found"
      | Some store =>
          if negb (store_is_active store)
          then HTTPException 400 "Store is not active"
          else
            let db' := set_stores db (write_store id (set_status "scraping" store)
                                                  (db_stores db)) in
            Response (TriggeredStore ("Scraping initiated for " ++ store_name store) id,
                      db', ScrapeStoreTask id)
      end
  | None =>
      match filter store_is_active (db_stores db) with
      | [] => HTTPException 404 "No active stores found"
      | stores =>
          Response (TriggeredAll "Scraping initiated for all stores"
                                 (List.length stores),
                    set_stores db (mark_active_scraping (db_stores db)),
                    ScrapeAllStoresTask)
      end
  end.

(** The number of stores with a given status:
    [len([s for s in stores if s.status == status])]. *)
Definition with_status (status : string) (stores : list Store) : nat :=
  List.length (filter (fun s => String.eqb (store_status s) status) stores).

(** The counters of [get_scraping_status]. *)
Record Status := mkStatus {
  total_stores : nat;
  active_stores : nat;
  scraping : nat;
  online : nat;
  offline : nat;
  idle : nat
}.

Definition get_scraping_status (db : Database) : Status :=
  let stores := db_stores db in
  mkStatus (List.length stores)
           (List.length (filter store_is_active stores))
           (with_status "scraping" stores) (with_status "online" stores)
           (with_status "offline" stores) (with_status "idle" stores).

(** [stop_scraping(db, current_user)]: ["affected_stores"] and the
    database. *)
Definition stop_scraping (db : Database) : nat * Database :=
  let stores := filter (fun s => String.eqb (store_status s) "scraping")
                       (db_stores db) in
  (List.length stores,
   set_stores db
     (map (fun store => if String.eqb (store_status store) "scraping"
                        then set_status "idle" store else store)
          (db_stores db))).

(** The background task, run. [commit_raises] tells which commits of
    the batches of [scrape_all_stores] raise, [store_commit_raises]
    which commits of [scrape_single_store]. *)
Definition run_task (scrapers : list (string * ScraperClass))
  (autoflush : bool) (raises : ProductData -> bool)
  (commit_raises : string -> bool) (store_commit_raises : commit_site -> bool)
  (now later : datetime)
  (db : Database) (task : background_task) : Database :=
  match task with
  | ScrapeStoreTask id =>
      snd (scrape_store_task scrapers autoflush raises store_commit_raises
                             now later db id)
  | ScrapeAllStoresTask =>
      snd (scrape_all_stores_task scrapers autoflush raises commit_raises now db)
  end.

(** The statuses of the state machine. *)
Definition known_status (status : string) : bool :=
  String.eqb status "idle" || String.eqb status "scraping"
  || String.eqb status "online" || String.eqb status "offline".

Definition all_known (db : Database) : Prop :=
  forall store, In store (db_stores db) -> known_status (store_status store) = true.

End Tables.

End ScraperApi.

(** ** Examples for the search and the single-store paths *)

Module MoreExamples.
Import ScraperManager ScraperManagerMore Examples.

(** The search of S raises, the search of T finds one item, the search
    of U finds none. *)
Definition searchers : list (string * SearchClass) :=
  [ ("gourmet_scraper", fun _ _ => Raised "timeout");
    ("metro_scraper", fun _ _ => Returned [organic_cucumber]);
    ("talabat_scraper", fun _ _ => Returned []) ].

(** The adapter of store S. *)
Definition scraper_of_S : ScraperClass := fun _ => Raised "timeout".

(** No commit of [scrape_single_store] raises. *)
Definition every_commit (site : commit_site) : bool := false.

(** The commit that follows [store.status = "idle"] raises. *)
Definition idle_commit_raises (site : commit_site) : bool :=
  match site with CommitIdle => true | _ => false end.

(** The commit of the batch of S raises. *)
Definition commit_of_S_raises (store_name_ : string) : bool :=
  String.eqb store_name_ "S".



(** The session of [scrape_all_stores] over [db0] when the tasks are
    done. *)
Definition session_after_tasks : Session.handle :=
  Session.mkHandle db0 (map (after_task scrapers 55%Z) (db_stores db0)).

(** What the tasks have returned. *)
Definition results_of_tasks : list (string * list ProductData) :=
  [("S", []); ("T", [organic_cucumber; unknown_widget]); ("U", [])].

End MoreExamples.

(** * Properties *)

(** ** Facts about the string operations *)

Module PyStrFacts.
Import PyStr.

Lemma split_nonempty sep s : split sep s <> [].
Proof.
  destruct s as [|c s]; simpl; [discriminate|].
  destruct (Ascii.eqb c sep); [discriminate|].
  destruct (split sep s); discriminate.
Qed.

Lemma startswith_spec p s :
  startswith p s = true <-> exists v, s = (p ++ v)%string.
Proof.
  revert s; induction p as [|a p IH]; intros s; simpl.
  - split; [intros _; now exists s | reflexivity].
  - destruct s as [|b s].
    + split; [discriminate | intros [v H]; discriminate].
    + rewrite andb_true_iff, Ascii.eqb_eq, IH. split.
      * intros [-> [v ->]]. now exists v.
      * intros [v H]. injection H as -> ->. split; [reflexivity | now exists v].
Qed.

Lemma contains_spec k s :
  contains k s = true <-> exists u v, s = (u ++ k ++ v)%string.
Proof.
  induction s as [|c s IH]; simpl; rewrite orb_true_iff, startswith_spec.
  - split.
    + intros [[v H] | H]; [now exists EmptyString, v | discriminate].
    + intros [u [v H]]. left. destruct u; [now exists v | discriminate].
  - rewrite IH. split.
    + intros [[v H] | [u [v H]]].
      * now exists EmptyString, v.
      * exists (String c u), v. simpl. now rewrite H.
    + intros [[|d u] [v H]]; simpl in H.
      * left. now exists v.
      * right. injection H as _ ->. now exists u, v.
Qed.

Lemma contains_empty s : contains EmptyString s = true.
Proof. destruct s; reflexivity. Qed.

Lemma append_assoc (u v w : string) : ((u ++ v) ++ w = u ++ v ++ w)%string.
Proof. induction u as [|c u IH]; simpl; [reflexivity | now rewrite IH]. Qed.

Lemma append_empty_r (u : string) : (u ++ EmptyString = u)%string.
Proof. induction u as [|c u IH]; simpl; [reflexivity | now rewrite IH]. Qed.

Lemma append_snoc (u : string) c (v : string) :
  ((u ++ String c EmptyString) ++ v = u ++ String c v)%string.
Proof. now rewrite append_assoc. Qed.

(** *** The tables on the ASCII range *)

Ltac each_char c :=
  destruct c as [[] [] [] [] [] [] [] []]; vm_compute; try reflexivity; try congruence.

Lemma is_space_lower_char c : is_space (lower_char c) = is_space c.
Proof. each_char c. Qed.

Lemma lower_char_comma c : Ascii.eqb (lower_char c) "," = Ascii.eqb c ",".
Proof. each_char c. Qed.

Lemma lower_char_idem c : lower_char (lower_char c) = lower_char c.
Proof. each_char c. Qed.

Lemma ascii_lower_app s t : ascii_lower (s ++ t) = (ascii_lower s ++ ascii_lower t)%string.
Proof. induction s as [|c s IH]; simpl; [reflexivity | now rewrite IH]. Qed.

Lemma ascii_lower_idem s : ascii_lower (ascii_lower s) = ascii_lower s.
Proof.
  induction s as [|c s IH]; simpl; [reflexivity|].
  now rewrite lower_char_idem, IH.
Qed.

Lemma lower_lstrip s : ascii_lower (lstrip s) = lstrip (ascii_lower s).
Proof.
  induction s as [|c s IH]; simpl; [reflexivity|].
  rewrite is_space_lower_char.
  destruct (is_space c); [exact IH | reflexivity].
Qed.

Lemma lower_rstrip s : ascii_lower (rstrip s) = rstrip (ascii_lower s).
Proof.
  induction s as [|c s IH]; simpl; [reflexivity|].
  rewrite <- IH, is_space_lower_char.
  destruct (rstrip s); simpl; [destruct (is_space c)|]; reflexivity.
Qed.

Lemma ascii_split_lower s :
  split "," (ascii_lower s) = map ascii_lower (split "," s).
Proof.
  induction s as [|c s IH]; simpl; [reflexivity|].
  rewrite lower_char_comma, IH.
  destruct (Ascii.eqb c ","); [reflexivity|].
  destruct (split "," s); reflexivity.
Qed.

(** The same facts, of the operations of the tables [ascii_range]. *)

#[local] Existing Instance ascii_range.

Lemma lower_app s t : lower (s ++ t) = (lower s ++ lower t)%string.
Proof. exact (ascii_lower_app s t). Qed.

Lemma lower_idem s : lower (lower s) = lower s.
Proof. exact (ascii_lower_idem s). Qed.

Lemma lower_strip s : lower (strip s) = strip (lower s).
Proof.
  change (ascii_lower (rstrip (lstrip s)) = rstrip (lstrip (ascii_lower s))).
  now rewrite lower_rstrip, lower_lstrip.
Qed.

Lemma split_lower s : split "," (lower s) = map lower (split "," s).
Proof. exact (ascii_split_lower s). Qed.

End PyStrFacts.

(** ** The reconciler's match *)

Module MatchFacts.
Import PyStr PyStrFacts DataProcessor.

Section Tables.
Context {tables : Unicode}.

Lemma keyword_loop_true keywords scraped_name :
  keyword_loop keywords scraped_name = true <->
  exists k, In k keywords /\ contains (strip k) (lower scraped_name) = true.
Proof.
  induction keywords as [|k ks IH]; simpl.
  - split; [discriminate | intros [k [[] _]]].
  - destruct (contains (strip k) (lower scraped_name)) eqn:E.
    + split; [intros _; exists k; auto | reflexivity].
    + rewrite IH. split.
      * intros [k' [Hin Hc]]. exists k'. auto.
      * intros [k' [[<- | Hin] Hc]]; [congruence | exists k'; auto].
Qed.

(** The loop over the lower-cased, split keyword string decides whether
    the entry has a keyword that is a case-insensitive substring of the
    name. *)
Lemma keyword_loop_matching p scraped_name :
  keyword_loop (split "," (lower (product_keywords p))) scraped_name = true <->
  has_matching_keyword p scraped_name.
Proof.
  rewrite keyword_loop_true.
  unfold has_matching_keyword, lowered_keywords, ci_substring. split.
  - intros [k [Hin Hc]]. exists (strip k). split; [now apply in_map|].
    now apply contains_spec.
  - intros [k [Hin Hc]]. apply in_map_iff in Hin. destruct Hin as [seg [<- Hseg]].
    exists seg. split; [exact Hseg|]. now apply contains_spec.
Qed.

Lemma keyword_loop_not_matching p scraped_name :
  keyword_loop (split "," (lower (product_keywords p))) scraped_name = false <->
  ~ has_matching_keyword p scraped_name.
Proof.
  rewrite <- keyword_loop_matching.
  destruct (keyword_loop _ _); split; congruence.
Qed.

(** Where the match stops: the entry returned, the entries passed over. *)
Lemma find_matching_product_split products scraped_name :
  match _find_matching_product products scraped_name with
  | Some p =>
      exists before after,
        products = before ++ p :: after
        /\ has_matching_keyword p scraped_name
        /\ forall q, In q before -> ~ has_matching_keyword q scraped_name
  | None => forall q, In q products -> ~ has_matching_keyword q scraped_name
  end.
Proof.
  induction products as [|p rest IH]; simpl.
  - intros q [].
  - destruct (keyword_loop _ scraped_name) eqn:E.
    + exists [], rest. split; [reflexivity|]. split.
      * now apply keyword_loop_matching.
      * intros q [].
    + apply keyword_loop_not_matching in E.
      destruct (_find_matching_product rest scraped_name) as [r|].
      * destruct IH as [before [after [-> [Hr Hb]]]].
        exists (p :: before), after. split; [reflexivity|]. split; [exact Hr|].
        intros q [<- | Hq]; auto.
      * intros q [<- | Hq]; auto.
Qed.

Lemma find_matching_product_skip before rest scraped_name :
  (forall q, In q before -> ~ has_matching_keyword q scraped_name) ->
  _find_matching_product (before ++ rest) scraped_name =
  _find_matching_product rest scraped_name.
Proof.
  induction before as [|q before IH]; intros Hnone; simpl; [reflexivity|].
  assert (keyword_loop (split "," (lower (product_keywords q))) scraped_name = false)
    as -> by (apply keyword_loop_not_matching, Hnone; now left).
  apply IH. intros q' Hq'. apply Hnone. now right.
Qed.


(** Where lower-casing leaves the commas and the white space at the two
    ends of a str as they are, the lower-cased keywords are the stored
    ones in lower case. *)
Lemma lowered_keywords_of p :
  (forall s, split "," (lower s) = map lower (split "," s)) ->
  (forall s, strip (lower s) = lower (strip s)) ->
  lowered_keywords p = map lower (keywords_of p).
Proof.
  intros Hsplit Hstrip. unfold lowered_keywords, keywords_of.
  rewrite Hsplit, !map_map. apply map_ext. exact Hstrip.
Qed.

Lemma has_stored_keyword_matching p scraped_name :
  (forall s, split "," (lower s) = map lower (split "," s)) ->
  (forall s, strip (lower s) = lower (strip s)) ->
  has_matching_keyword p scraped_name <-> has_stored_keyword p scraped_name.
Proof.
  intros Hsplit Hstrip. unfold has_matching_keyword, has_stored_keyword.
  rewrite (lowered_keywords_of p Hsplit Hstrip). split.
  - intros [k [Hin Hc]]. apply in_map_iff in Hin. destruct Hin as [k' [<- Hk']].
    exists k'. auto.
  - intros [k [Hin Hc]]. exists (lower k). split; [now apply in_map | exact Hc].
Qed.

End Tables.

(** C5. Whatever the tables of the interpreter, for every catalog and
    every scraped name the match returns the first catalog entry, in
    catalog order, one of whose keywords is a case-insensitive substring
    of the scraped name, and [None] when no entry has such a keyword: it
    returns [p] exactly when [p] stands in the catalog after entries
    without such a keyword and has one, and [None] exactly when no entry
    has one. Both sides of the comparison are in lower case: the
    keywords are the stripped segments of the lower-cased keyword
    string, and they are looked for in the lower-cased name. Where
    lower-casing leaves the commas and the white space at the ends of a
    str as they are, these are the stripped segments of the stored
    keyword string, lower-cased. *)
Theorem find_matching_product_first_match :
  forall (tables : Unicode) (products : list Product) (scraped_name : string),
    (forall p,
        _find_matching_product products scraped_name = Some p <->
        exists before after,
          products = before ++ p :: after
          /\ has_matching_keyword p scraped_name
          /\ forall q, In q before -> ~ has_matching_keyword q scraped_name)
    /\ (_find_matching_product products scraped_name = None <->
        forall q, In q products -> ~ has_matching_keyword q scraped_name)
    /\ ((forall s, split "," (lower s) = map lower (split "," s)) ->
        (forall s, strip (lower s) = lower (strip s)) ->
        forall p, has_matching_keyword p scraped_name
                  <-> has_stored_keyword p scraped_name).
Proof.
  intros tables products scraped_name.
  pose proof (find_matching_product_split products scraped_name) as Hsplit.
  split; [|split].
  - intros p. split.
    + intros Hp. rewrite Hp in Hsplit. exact Hsplit.
    + intros [before [after [-> [Hp Hbefore]]]].
      rewrite (find_matching_product_skip _ _ _ Hbefore). simpl.
      apply keyword_loop_matching in Hp. now rewrite Hp.
  - split.
    + intros Hnone. rewrite Hnone in Hsplit. exact Hsplit.
    + intros Hall.
      destruct (_find_matching_product products scraped_name) as [p|];
        [|reflexivity].
      destruct Hsplit as [before [after [-> [Hp _]]]].
      exfalso. apply (Hall p); [|exact Hp].
      apply in_or_app. right. now left.
  - intros Hs Ht p. now apply has_stored_keyword_matching.
Qed.

(** *** On the ASCII range

    From here on the tables are [ascii_range]. *)

#[local] Existing Instance ascii_range.

Lemma strip_lower s : strip (lower s) = lower (strip s).
Proof. symmetry. apply lower_strip. Qed.

Lemma empty_keyword_matches p scraped_name :
  In EmptyString (keywords_of p) -> has_matching_keyword p scraped_name.
Proof.
  intros H. apply (has_stored_keyword_matching p scraped_name split_lower strip_lower).
  exists EmptyString. split; [exact H|].
  exists EmptyString, (lower scraped_name). reflexivity.
Qed.


End MatchFacts.

(** ** The category classifier *)

Module ClassifierFacts.
Import PyStr PyStrFacts PyDict CategoryClassifier.

Section Tables.
Context {tables : Unicode}.

Lemma match_literal_spec keyword text rest :
  match_literal keyword text = Some rest <-> text = (keyword ++ rest)%string.
Proof.
  revert text; induction keyword as [|a k IH]; intros text; simpl.
  - split; [intros H; now injection H | intros ->; reflexivity].
  - destruct text as [|c text]; [split; discriminate|].
    destruct (Ascii.eqb a c) eqn:E.
    + apply Ascii.eqb_eq in E. subst c. rewrite IH. split.
      * intros ->. reflexivity.
      * intros H. now injection H.
    + split; [discriminate|]. intros H. injection H as H _.
      subst c. now rewrite Ascii.eqb_refl in E.
Qed.

Lemma match_here_spec keyword before text :
  match_here keyword before text = true <->
  exists v,
    text = (keyword ++ v)%string
    /\ char_start text = true
    /\ word_boundary before text = true
    /\ word_boundary (before ++ keyword) v = true.
Proof.
  unfold match_here. rewrite !andb_true_iff. split.
  - intros [[Hc Hb] Hm].
    destruct (match_literal keyword text) as [rest|] eqn:E; [|discriminate].
    apply match_literal_spec in E. exists rest. auto.
  - intros [v [Hv [Hc [Hb He]]]]. split; [auto|].
    apply match_literal_spec in Hv. now rewrite Hv.
Qed.

Lemma search_from_spec keyword text : forall before,
  search_from keyword before text = true <->
  exists u v,
    text = (u ++ keyword ++ v)%string
    /\ char_start (keyword ++ v) = true
    /\ word_boundary (before ++ u) (keyword ++ v) = true
    /\ word_boundary ((before ++ u) ++ keyword) v = true.
Proof.
  induction text as [|c text IH]; intros before;
    cbn [search_from]; rewrite orb_true_iff, match_here_spec.
  - split.
    + intros [[v [Hv [Hc [Hb He]]]] | H]; [|discriminate].
      exists EmptyString, v. rewrite append_empty_r. cbn [append].
      rewrite <- Hv. auto.
    + intros [u [v [Hv [Hc [Hb He]]]]]. left.
      destruct u; [|discriminate]. rewrite append_empty_r in Hb, He.
      cbn [append] in Hv. rewrite <- Hv in Hb, Hc. exists v. auto.
  - rewrite IH. split.
    + intros [[v [Hv [Hc [Hb He]]]] | [u [v [Hv [Hc [Hb He]]]]]].
      * exists EmptyString, v. rewrite append_empty_r. cbn [append].
        rewrite <- Hv. auto.
      * exists (String c u), v. rewrite append_snoc in Hb, He.
        cbn [append]. rewrite Hv. auto.
    + intros [[|d u] [v [Hv [Hc [Hb He]]]]].
      * left. rewrite append_empty_r in Hb, He. cbn [append] in Hv.
        rewrite <- Hv in Hb, Hc. exists v. auto.
      * right. cbn [append] in Hv. injection Hv as -> ->.
        exists u, v. rewrite append_snoc. auto.
Qed.

(** The regular-expression search decides the word-boundary match. *)
Lemma re_search_word_spec keyword text :
  re_search_word keyword text = true <-> word_match keyword text.
Proof. apply search_from_spec. Qed.

Lemma keyword_loop_spec keywords text :
  keyword_loop keywords text = true <-> some_word_match keywords text.
Proof.
  unfold some_word_match. induction keywords as [|k ks IH]; simpl.
  - split; [discriminate | intros [k [[] _]]].
  - destruct (re_search_word k text) eqn:E.
    + apply re_search_word_spec in E. split; [intros _; exists k; auto | reflexivity].
    + rewrite IH. split.
      * intros [k' [Hin Hm]]. exists k'. auto.
      * intros [k' [[<- | Hin] Hm]]; [|exists k'; auto].
        apply re_search_word_spec in Hm. congruence.
Qed.

Lemma classify_cases self keywords_a keywords_b product_name :
  dict_get self "A" = Some keywords_a ->
  dict_get self "B" = Some keywords_b ->
  (some_word_match keywords_b (lower product_name) ->
   classify self product_name = Some "B")
  /\ (~ some_word_match keywords_b (lower product_name) ->
      classify self product_name = Some "A").
Proof.
  intros HA HB. unfold classify. rewrite HB, HA.
  destruct (keyword_loop keywords_b (lower product_name)) eqn:E.
  - split; [reflexivity|]. intros Hn. apply keyword_loop_spec in E. contradiction.
  - split.
    + intros Hm. apply keyword_loop_spec in Hm. congruence.
    + intros _. destruct (keyword_loop keywords_a _); reflexivity.
Qed.

End Tables.

(** C6, as the code has it. Whatever the tables of the interpreter, the
    B list is checked before the A list, with word-boundary matching,
    and A is the default: on a table with both lists [classify] returns
    B when a B keyword matches the lower-cased name (whatever the A list
    holds) and A otherwise. On the table A = [tomato],
    B = [cherry tomato] the name "Cherry Tomato Pack 500g", a str of
    ASCII characters, is classified B although "tomato" matches the A
    list. *)
Theorem classify_B_before_A :
  (forall (tables : Unicode) self keywords_a keywords_b product_name,
      dict_get self "A" = Some keywords_a ->
      dict_get self "B" = Some keywords_b ->
      (some_word_match keywords_b (lower product_name) ->
       classify self product_name = Some "B")
      /\ (~ some_word_match keywords_b (lower product_name) ->
          classify self product_name = Some "A"))
  /\ @classify ascii_range example_keywords "Cherry Tomato Pack 500g" = Some "B"
  /\ @some_word_match ascii_range [ "tomato" ]
       (@lower ascii_range "Cherry Tomato Pack 500g").
Proof.
  split; [|split; [reflexivity | apply keyword_loop_spec; reflexivity]].
  intros tables self keywords_a keywords_b product_name.
  apply classify_cases.
Qed.

#[local] Existing Instance ascii_range.

(** C6, as the claim states it, fails on the classifier's own table:
    "cherry tomato" is a keyword of its A list, no B keyword occurs in
    the name, and the name is classified A. *)
Lemma classify_cherry_tomato_is_A :
  classify category_keywords "Cherry Tomato Pack 500g" = Some "A"
  /\ classify category_keywords "Cherry Tomato Pack 500g" <> Some "B".
Proof. split; [reflexivity | discriminate]. Qed.

End ClassifierFacts.

(** ** Dictionaries *)

Module PyDictFacts.
Import PyDict.

Lemma dict_get_set_eq {V} (d : list (string * V)) k v :
  dict_get (dict_set d k v) k = Some v.
Proof.
  induction d as [|[k0 v0] d IH]; simpl.
  - now rewrite String.eqb_refl.
  - destruct (String.eqb k0 k) eqn:E; simpl; rewrite E; auto.
Qed.

Lemma dict_get_set_ne {V} (d : list (string * V)) k k' v :
  k <> k' -> dict_get (dict_set d k v) k' = dict_get d k'.
Proof.
  intros Hne. induction d as [|[k0 v0] d IH]; simpl.
  - apply String.eqb_neq in Hne. now rewrite Hne.
  - destruct (String.eqb k0 k) eqn:E; simpl.
    + apply String.eqb_eq in E. subst k0.
      apply String.eqb_neq in Hne. now rewrite Hne.
    + now rewrite IH.
Qed.

Lemma dict_set_keys_new {V} (d : list (string * V)) k v :
  ~ In k (map fst d) -> map fst (dict_set d k v) = map fst d ++ [k].
Proof.
  induction d as [|[k0 v0] d IH]; simpl; intros Hn; [reflexivity|].
  destruct (String.eqb k0 k) eqn:E.
  - apply String.eqb_eq in E. tauto.
  - simpl. f_equal. apply IH. tauto.
Qed.

End PyDictFacts.

(** ** The orchestrator *)

Module ScraperManagerFacts.
Import PyStr PyDict PyDictFacts ScraperManager.

Section Tables.
Context {tables : Unicode}.

Lemma run_tasks_spec scrapers now stores :
  run_tasks scrapers now stores =
  (map (after_task scrapers now) stores,
   map store_name (filter (attempted scrapers) stores),
   map (fun store => inr (task_result scrapers now store))
       (filter (attempted scrapers) stores)).
Proof.
  induction stores as [|store rest IH]; simpl; [reflexivity|].
  rewrite IH.
  destruct (store_is_active store) eqn:Ea;
    [destruct (resolve scrapers store) as [scraper_class|] eqn:Er|].
  - assert (attempted scrapers store = true) as ->
        by (unfold attempted; now rewrite Ea, Er).
    assert (after_task scrapers now store =
            fst (_scrape_store_safe scraper_class now store)) as ->
        by (unfold after_task; now rewrite Ea, Er).
    simpl.
    assert (task_result scrapers now store =
            snd (_scrape_store_safe scraper_class now store)) as ->
        by (unfold task_result; now rewrite Er).
    destruct (_scrape_store_safe scraper_class now store). reflexivity.
  - assert (attempted scrapers store = false) as ->
        by (unfold attempted; now rewrite Ea, Er).
    assert (after_task scrapers now store = store) as ->
        by (unfold after_task; now rewrite Ea, Er).
    reflexivity.
  - assert (attempted scrapers store = false) as ->
        by (unfold attempted; now rewrite Ea).
    assert (after_task scrapers now store = store) as ->
        by (unfold after_task; now rewrite Ea).
    reflexivity.
Qed.

(** The map the collecting loop builds from tasks that all returned. *)
Lemma collect_other {A} (f : A -> list ProductData) (g : A -> string) l d k :
  ~ In k (map g l) ->
  dict_get (collect (map g l) (map (fun a => inr (f a)) l) d) k = dict_get d k.
Proof.
  revert d; induction l as [|a l IH]; intros d Hn; simpl; [reflexivity|].
  simpl in Hn. rewrite IH by tauto. apply dict_get_set_ne. tauto.
Qed.

Lemma collect_get {A} (f : A -> list ProductData) (g : A -> string) l d a :
  NoDup (map g l) -> In a l ->
  dict_get (collect (map g l) (map (fun a => inr (f a)) l) d) (g a) = Some (f a).
Proof.
  revert d; induction l as [|b l IH]; intros d Hnd Hin; simpl; [destruct Hin|].
  simpl in Hnd. apply NoDup_cons_iff in Hnd. destruct Hnd as [Hb Hnd].
  destruct Hin as [-> | Hin].
  - rewrite collect_other by exact Hb. apply dict_get_set_eq.
  - now apply IH.
Qed.

Lemma collect_keys {A} (f : A -> list ProductData) (g : A -> string) l d :
  NoDup (map g l) -> (forall k, In k (map g l) -> ~ In k (map fst d)) ->
  map fst (collect (map g l) (map (fun a => inr (f a)) l) d) = map fst d ++ map g l.
Proof.
  revert d; induction l as [|b l IH]; intros d Hnd Hd; simpl.
  - now rewrite app_nil_r.
  - simpl in Hnd. apply NoDup_cons_iff in Hnd. destruct Hnd as [Hb Hnd].
    rewrite IH; [| exact Hnd |].
    + rewrite dict_set_keys_new by (apply Hd; now left).
      now rewrite <- app_assoc.
    + intros k Hk. rewrite dict_set_keys_new by (apply Hd; now left).
      intros Hin. apply in_app_or in Hin. destruct Hin as [Hin | [<- | []]].
      * apply (Hd k); [now right | exact Hin].
      * contradiction.
Qed.

(** Saving never writes the store table. *)
Lemma save_item_stores autoflush raises store acc product_data :
  Session.stores (fst (save_item autoflush raises store acc product_data)) =
  Session.stores (fst acc).
Proof.
  destruct acc as [s n]. unfold save_item, Session.before_query.
  destruct autoflush; simpl;
    destruct (find_product _ _); simpl;
    destruct (raises product_data); reflexivity.
Qed.

Lemma save_loop_stores autoflush raises store acc products :
  Session.stores (fst (save_loop autoflush raises store acc products)) =
  Session.stores (fst acc).
Proof.
  revert acc; induction products as [|product_data rest IH]; intros acc; simpl.
  - reflexivity.
  - rewrite IH. apply save_item_stores.
Qed.

(** The store rows a batch leaves: a commit writes the rows the
    session holds, a rollback leaves the rows of the database; either
    way the session then holds no write. *)
Lemma save_store_results_stores autoflush raises commit_raises products store
  (db : Session.handle) :
  db_stores (fst (_save_store_results autoflush raises commit_raises products store db))
  = (if commit_raises then db_stores db else Session.held db)
  /\ Session.held (fst (_save_store_results autoflush raises commit_raises
                                            products store db))
     = db_stores (fst (_save_store_results autoflush raises commit_raises
                                           products store db)).
Proof.
  unfold _save_store_results.
  pose proof (save_loop_stores autoflush raises store (Session.resume db, 0%nat) products)
    as H.
  destruct (save_loop _ _ _ _ _) as [s n]. simpl in H.
  destruct commit_raises; simpl; auto.
Qed.

(** On a session without writes the store table stays. *)
Lemma save_store_results_stores_clean autoflush raises commit_raises products store
  (db : Database) :
  db_stores (fst (_save_store_results autoflush raises commit_raises products store db))
  = db_stores db.
Proof.
  destruct (save_store_results_stores autoflush raises commit_raises products store db)
    as [H _].
  rewrite H. now destruct commit_raises.
Qed.

Lemma find_store_keys stores stores' name :
  keys_of stores = keys_of stores' ->
  option_map store_id (find_store stores name)
  = option_map store_id (find_store stores' name).
Proof.
  unfold keys_of, find_store. revert stores'.
  induction stores as [|a stores IH]; intros [|b stores'] H; try discriminate;
    [reflexivity|].
  cbn in H. injection H as Hid Hname H. cbn. rewrite Hname.
  destruct (String.eqb (store_name b) name); [cbn; now rewrite Hid | now apply IH].
Qed.

(** Results none of whose names is the name of a store are skipped. *)
Lemma save_all_results_none autoflush raises commit_raises all_results
  (db : Session.handle) :
  first_saved all_results (Session.held db) = None ->
  _save_all_results autoflush raises commit_raises all_results db = (db, 0%nat).
Proof.
  unfold first_saved.
  induction all_results as [|[name products] rest IH]; intros H; [reflexivity|].
  cbn [_save_all_results]. cbn [find fst] in H.
  destruct (find_store (Session.held db) name); [discriminate | exact (IH H)].
Qed.

(** What [_save_all_results] leaves of the store rows: those the
    session held when the commit of the first batch succeeds, those of
    the database otherwise, and a session that holds no write as soon
    as one batch has been saved. *)
Lemma save_all_results_stores autoflush raises commit_raises all_results :
  forall db : Session.handle,
    let result := fst (_save_all_results autoflush raises commit_raises
                                         all_results db) in
    db_stores result
    = match first_saved all_results (Session.held db) with
      | Some name => if commit_raises name then db_stores db else Session.held db
      | None => db_stores db
      end
    /\ (first_saved all_results (Session.held db) <> None ->
        Session.held result = db_stores result).
Proof.
  induction all_results as [|[name products] rest IH]; intros db; cbv zeta.
  - cbn. split; [reflexivity | tauto].
  - unfold first_saved. cbn [_save_all_results find fst].
    destruct (find_store (Session.held db) name) as [store|] eqn:Ef.
    + destruct (save_store_results_stores autoflush raises (commit_raises name)
                  products store db) as [Hs Hh].
      destruct (_save_store_results _ _ _ _ _ _) as [db' saved]. cbn [fst] in Hs, Hh.
      cbn [option_map fst].
      assert (forall r : Session.handle * nat,
                 (let (db'', total_saved) := r in (db'', (saved + total_saved)%nat))
                 = (fst r, (saved + snd r)%nat)) as E by (now intros []).
      rewrite E. cbn [fst]. clear E.
      destruct (first_saved rest (Session.held db')) as [name'|] eqn:Efirst.
      * destruct (IH db') as [IH1 IH2]. cbv zeta in IH1, IH2.
        rewrite Efirst, Hh in IH1.
        assert (db_stores (fst (_save_all_results autoflush raises commit_raises
                                                  rest db')) = db_stores db') as E1
            by (rewrite IH1; now destruct (commit_raises name')).
        split; [now rewrite E1, Hs|]. intros _. apply IH2.
        rewrite Efirst. discriminate.
      * rewrite (save_all_results_none _ _ _ _ _ Efirst). cbn [fst].
        split; [exact Hs | intros _; exact Hh].
    + destruct (IH db) as [IH1 IH2]. cbv zeta in IH1, IH2.
      unfold first_saved in IH1, IH2. auto.
Qed.

(** The first key of the map is the name of the first task. *)
Lemma collect_first names results :
  forall k (v : list ProductData) d,
    exists v' d', collect names results ((k, v) :: d) = (k, v') :: d'.
Proof.
  revert results; induction names as [|n names IH]; intros results k v d;
    [destruct results; cbn; eauto|].
  destruct results as [|[e | r] results]; cbn [collect]; [eauto| |];
    cbn [dict_set]; destruct (String.eqb k n); apply IH.
Qed.

Lemma collect_first_key {A} (f : A -> list ProductData) (g : A -> string) a l :
  exists v d,
    collect (map g (a :: l)) (map (fun a => inr (f a)) (a :: l)) []
    = (g a, v) :: d.
Proof. cbn [map collect dict_set]. apply collect_first. Qed.

Lemma keys_after_task scrapers now stores :
  keys_of (map (after_task scrapers now) stores) = keys_of stores.
Proof.
  unfold keys_of. rewrite map_map. apply map_ext. intros store.
  unfold after_task, _scrape_store_safe.
  destruct (store_is_active store); [|reflexivity].
  destruct (resolve scrapers store) as [scraper_class|]; [|reflexivity].
  now destruct (scraper_class store).
Qed.

Lemma find_store_in stores store :
  In store stores -> find_store stores (store_name store) <> None.
Proof.
  unfold find_store. intros Hin H.
  apply (find_none _ _ H) in Hin. now rewrite String.eqb_refl in Hin.
Qed.

(** What a batch returns, and the store table it leaves: the rows the
    tasks have assigned to when the first commit succeeds, the rows as
    they were when it raises. *)
Lemma scrape_all_stores_spec scrapers autoflush raises commit_raises now db :
  let attempted_stores := filter (attempted scrapers) (db_stores db) in
  let result := scrape_all_stores scrapers autoflush raises commit_raises now db in
  fst result =
    collect (map store_name attempted_stores)
            (map (fun store => inr (task_result scrapers now store)) attempted_stores) []
  /\ db_stores (snd result)
     = if statuses_committed scrapers commit_raises (db_stores db)
       then map (after_task scrapers now) (db_stores db)
       else db_stores db.
Proof.
  cbv zeta. unfold scrape_all_stores, statuses_committed.
  destruct (filter store_is_active (db_stores db)) eqn:Eactive.
  - assert (filter (attempted scrapers) (db_stores db) = []) as ->; [|now split].
    destruct (filter (attempted scrapers) (db_stores db)) as [|store l] eqn:E;
      [reflexivity|].
    assert (In store (filter (attempted scrapers) (db_stores db))) as Hin
        by (rewrite E; now left).
    apply filter_In in Hin. destruct Hin as [Hin Hatt].
    unfold attempted in Hatt. apply andb_true_iff in Hatt.
    assert (In store (filter store_is_active (db_stores db))) as H
        by (apply filter_In; tauto).
    rewrite Eactive in H. destruct H.
  - rewrite run_tasks_spec.
    set (entries := collect _ _ []).
    set (stores' := map (after_task scrapers now) (db_stores db)).
    destruct (save_all_results_stores autoflush raises commit_raises entries
                (Session.mkHandle db stores')) as [Hstores _].
    cbv zeta in Hstores. cbn [Session.held Session.durable] in Hstores.
    destruct (_save_all_results _ _ _ _ _) as [db' total]. cbn [fst snd] in *.
    split; [reflexivity|]. rewrite Hstores. subst entries.
    destruct (filter (attempted scrapers) (db_stores db)) as [|first rest] eqn:Eatt.
    + reflexivity.
    + destruct (collect_first_key (task_result scrapers now) store_name first rest)
        as [v [d ->]].
      unfold first_saved. cbn [find fst].
      assert (In first (db_stores db)) as Hfirst.
      { assert (In first (filter (attempted scrapers) (db_stores db))) as H
            by (rewrite Eatt; now left).
        apply filter_In in H. tauto. }
      destruct (find_store stores' (store_name first)) eqn:Ef.
      * cbn. now destruct (commit_raises (store_name first)).
      * exfalso.
        pose proof (find_store_keys stores' (db_stores db) (store_name first)
                      (keys_after_task scrapers now (db_stores db))) as Hk.
        rewrite Ef in Hk.
        destruct (find_store (db_stores db) (store_name first)) eqn:Ef0;
          [discriminate|].
        now apply (find_store_in _ _ Hfirst).
Qed.

Lemma adapter_outcome_attempted scrapers store o :
  adapter_outcome scrapers store = Some o -> attempted scrapers store = true.
Proof.
  unfold adapter_outcome, attempted.
  destruct (store_is_active store); [|discriminate].
  destruct (resolve scrapers store); [reflexivity | discriminate].
Qed.

Lemma task_result_returned scrapers now store products :
  adapter_outcome scrapers store = Some (Returned products) ->
  task_result scrapers now store = products
  /\ store_status (after_task scrapers now store) = "idle".
Proof.
  unfold adapter_outcome, task_result, after_task, _scrape_store_safe.
  destruct (store_is_active store); [|discriminate].
  destruct (resolve scrapers store) as [scraper_class|]; [|discriminate].
  simpl. intros H. injection H as H. rewrite H. auto.
Qed.

Lemma task_result_raised scrapers now store error :
  adapter_outcome scrapers store = Some (Raised error) ->
  task_result scrapers now store = []
  /\ store_status (after_task scrapers now store) = "offline".
Proof.
  unfold adapter_outcome, task_result, after_task, _scrape_store_safe.
  destruct (store_is_active store); [|discriminate].
  destruct (resolve scrapers store) as [scraper_class|]; [|discriminate].
  simpl. intros H. injection H as H. rewrite H. auto.
Qed.





End Tables.

End ScraperManagerFacts.

(** ** The session and the loop of [process_scraped_data] *)

Module SessionFacts.
Import PyStr DataProcessor Ledger.

Section Tables.
Context {tables : Unicode}.

Lemma flush_flush s : Session.flush (Session.flush s) = Session.flush s.
Proof. unfold Session.flush; simpl. now rewrite !app_nil_r. Qed.

Lemma view_flush s : view (Session.flush s) = view s.
Proof. unfold view; simpl. now rewrite !app_nil_r. Qed.

Lemma view_begin db : view (Session.begin db) = (db_prices db, db_price_history db).
Proof. unfold view; simpl. now rewrite !app_nil_r. Qed.

Lemma commit_view s :
  Session.commit s =
  mkDatabase (Session.stores s) (Session.products s) (fst (view s)) (snd (view s)).
Proof. reflexivity. Qed.

Lemma update_first_app f g a b :
  update_first f g (a ++ b) =
  match update_first f g a with
  | Some rows => Some (rows ++ b)
  | None => option_map (app a) (update_first f g b)
  end.
Proof.
  induction a as [|r a IH]; simpl.
  - destruct (update_first f g b); reflexivity.
  - destruct (f r); [reflexivity|]. rewrite IH.
    destruct (update_first f g a); simpl; [reflexivity|].
    destruct (update_first f g b); reflexivity.
Qed.

Lemma update_first_absent f g rows :
  (forall r, In r rows -> f r = false) -> update_first f g rows = None.
Proof.
  induction rows as [|r rows IH]; intros H; simpl; [reflexivity|].
  rewrite (H r) by now left. rewrite IH; [reflexivity|].
  intros r' Hr'. apply H. now right.
Qed.

Lemma matched_invalid products item :
  invalid item = true -> matched products item = None.
Proof. unfold matched. now intros ->. Qed.

Lemma matched_valid products item :
  invalid item = false ->
  matched products item = _find_matching_product products (pd_name item).
Proof. unfold matched. now intros ->. Qed.

(** The loop with a session that flushes before each query. *)
Lemma process_loop_autoflush now store_id items :
  forall s,
    let s' := process_loop true now store_id s items in
    view s' = fold_left (apply_item now store_id)
                        (processed (Session.products s) items) (view s)
    /\ Session.products s' = Session.products s
    /\ Session.stores s' = Session.stores s.
Proof.
  induction items as [|item rest IH]; intros s; simpl; [auto|].
  unfold process_item.
  destruct (invalid item) eqn:Einv.
  - rewrite (matched_invalid _ _ Einv). apply IH.
  - rewrite (matched_valid _ _ Einv). simpl Session.before_query.
    change (Session.products (Session.flush s)) with (Session.products s).
    destruct (_find_matching_product (Session.products s) (pd_name item))
      as [db_product|] eqn:Ematch.
    + rewrite flush_flush.
      match goal with
      | |- context [process_loop true now store_id ?t rest] =>
          destruct (IH t) as [Hv [Hp Hs]];
          assert (view t = apply_item now store_id (view s) (db_product, item)
                  /\ Session.products t = Session.products s
                  /\ Session.stores t = Session.stores s) as [Ht [Htp Hts]]
      end.
      { unfold apply_item, view. simpl.
        destruct (update_first _ _ (Session.prices s ++ Session.new_prices s));
          simpl; rewrite ?app_nil_r; auto. }
      rewrite Hv, Hp, Hs, Ht, Htp, Hts. auto.
    + destruct (IH (Session.flush s)) as [Hv [Hp Hs]].
      rewrite Hv, Hp, Hs, view_flush. auto.
Qed.

(** The loop with a session that does not flush, on a batch whose
    processed items are reconciled with distinct catalog entries. *)
Lemma process_loop_no_autoflush now store_id items :
  forall s,
    distinct_matches (Session.products s) items ->
    (forall row x, In row (Session.new_prices s) ->
                   In x (processed (Session.products s) items) ->
                   for_pair (product_id (fst x)) store_id row = false) ->
    let s' := process_loop false now store_id s items in
    view s' = fold_left (apply_item now store_id)
                        (processed (Session.products s) items) (view s)
    /\ Session.products s' = Session.products s
    /\ Session.stores s' = Session.stores s.
Proof.
  unfold distinct_matches.
  induction items as [|item rest IH]; intros s Hnd Hnew; simpl; [auto|].
  simpl in Hnd, Hnew. unfold process_item.
  destruct (invalid item) eqn:Einv.
  - rewrite (matched_invalid _ _ Einv) in *. now apply IH.
  - rewrite (matched_valid _ _ Einv) in *. simpl Session.before_query.
    destruct (_find_matching_product (Session.products s) (pd_name item))
      as [db_product|] eqn:Ematch; [|now apply IH].
    simpl in Hnd. apply NoDup_cons_iff in Hnd. destruct Hnd as [Hfresh Hnd].
    assert (update_first (for_pair (product_id db_product) store_id)
                         (update_price item) (Session.new_prices s) = None) as Hpend.
    { apply update_first_absent. intros row Hrow.
      apply (Hnew row (db_product, item) Hrow). now left. }
    match goal with
    | |- context [process_loop false now store_id ?t rest] =>
        assert (view t = apply_item now store_id (view s) (db_product, item)
                /\ Session.products t = Session.products s
                /\ Session.stores t = Session.stores s
                /\ forall row x, In row (Session.new_prices t) ->
                                 In x (processed (Session.products s) rest) ->
                                 for_pair (product_id (fst x)) store_id row = false)
          as [Ht [Htp [Hts Htn]]];
        [| destruct (IH t) as [Hv [Hp Hs]];
           [now rewrite Htp | now rewrite Htp |
            rewrite Hv, Hp, Hs, Ht, Htp, Hts; auto] ]
    end.
    unfold apply_item, view. simpl. rewrite update_first_app, Hpend.
    destruct (update_first _ _ (Session.prices s)) as [rows|]; simpl.
    + rewrite <- app_assoc. repeat split; auto.
      intros row x Hrow Hx. apply (Hnew row x Hrow). now right.
    + rewrite <- !app_assoc. repeat split; auto.
      intros row x Hrow Hx. apply in_app_or in Hrow.
      destruct Hrow as [Hrow | [<- | []]].
      * apply (Hnew row x Hrow). now right.
      * unfold for_pair, new_price. simpl.
        destruct (Z.eqb_spec (product_id db_product) (product_id (fst x))) as [E|];
          [|reflexivity].
        exfalso. apply Hfresh. rewrite E.
        apply (in_map (fun x => product_id (fst x))). exact Hx.
Qed.

Lemma process_loop_view autoflush now store_id db items :
  sees_own_rows autoflush (db_products db) items ->
  let s' := process_loop autoflush now store_id (Session.begin db) items in
  view s' = fold_left (apply_item now store_id)
                      (processed (db_products db) items)
                      (db_prices db, db_price_history db)
  /\ Session.products s' = db_products db
  /\ Session.stores s' = db_stores db.
Proof.
  intros Hsees. rewrite <- view_begin.
  destruct autoflush.
  - apply (process_loop_autoflush now store_id items (Session.begin db)).
  - destruct Hsees as [H | H]; [discriminate|].
    apply (process_loop_no_autoflush now store_id items (Session.begin db) H).
    intros row x [].
Qed.

Lemma process_scraped_data_committed autoflush now db store_id items :
  sees_own_rows autoflush (db_products db) items ->
  let ledger := fold_left (apply_item now store_id)
                          (processed (db_products db) items)
                          (db_prices db, db_price_history db) in
  process_scraped_data autoflush false now db store_id items =
  mkDatabase (db_stores db) (db_products db) (fst ledger) (snd ledger).
Proof.
  intros Hsees. simpl. unfold process_scraped_data.
  destruct items as [|item rest]; [destruct db; reflexivity|].
  destruct (process_loop_view autoflush now store_id db (item :: rest) Hsees)
    as [Hv [Hp Hs]].
  rewrite commit_view, Hv, Hp, Hs. reflexivity.
Qed.

Lemma process_scraped_data_rolled_back autoflush now db store_id items :
  process_scraped_data autoflush true now db store_id items = db.
Proof. destruct items; reflexivity. Qed.

End Tables.

End SessionFacts.

(** ** The upsert and the ledger invariant *)

Create HintDb ledger discriminated.

Module LedgerFacts.
Import PyStr DataProcessor Ledger SessionFacts.

Section Tables.
Context {tables : Unicode}.

Lemma for_pair_update_price p s item row :
  for_pair p s (update_price item row) = for_pair p s row.
Proof. reflexivity. Qed.

Lemma for_pair_overwrite p s store_id x row :
  for_pair p s (overwrite store_id x row) = for_pair p s row.
Proof. unfold overwrite. destruct (for_pair _ _ row); reflexivity. Qed.

Lemma filter_map_same {A} (f : A -> bool) (h : A -> A) l :
  (forall a, f (h a) = f a) ->
  List.length (filter f (map h l)) = List.length (filter f l).
Proof.
  intros H. induction l as [|a l IH]; simpl; [reflexivity|].
  rewrite H. destruct (f a); simpl; now rewrite IH.
Qed.

Lemma filter_none {A} (f : A -> bool) l :
  existsb f l = false -> filter f l = [].
Proof.
  induction l as [|a l IH]; simpl; [reflexivity|].
  destruct (f a); simpl; [discriminate | exact IH].
Qed.

Lemma filter_some {A} (f : A -> bool) l :
  existsb f l = true -> (1 <= List.length (filter f l))%nat.
Proof.
  induction l as [|a l IH]; simpl; [discriminate|].
  destruct (f a); simpl; [lia | exact IH].
Qed.

(** On a table with at most one row for the pair, [first()] followed by
    the assignments is the overwrite of the specification. *)
Lemma update_first_unique f g rows :
  (List.length (filter f rows) <= 1)%nat ->
  update_first f g rows =
  if existsb f rows then Some (map (fun r => if f r then g r else r) rows)
  else None.
Proof.
  induction rows as [|r rows IH]; simpl; [reflexivity|].
  destruct (f r) eqn:E; simpl; intros Hlen.
  - f_equal. f_equal. symmetry.
    assert (filter f rows = []) as Hnone
        by (destruct (filter f rows); [reflexivity | simpl in Hlen; lia]).
    clear IH Hlen. induction rows as [|r' rows IH]; simpl; [reflexivity|].
    simpl in Hnone. destruct (f r'); [discriminate|]. now rewrite IH.
  - rewrite (IH Hlen). destruct (existsb f rows); reflexivity.
Qed.

Lemma apply_item_upsert now store_id rows records x :
  unique_pairs rows ->
  apply_item now store_id (rows, records) x =
  (upsert store_id rows x, records ++ [record now store_id x]).
Proof.
  intros Hu. unfold apply_item, upsert. simpl.
  rewrite (update_first_unique _ _ _ (Hu (product_id (fst x)) store_id)).
  destruct (existsb _ rows); reflexivity.
Qed.

Lemma count_upsert_own store_id rows x :
  count_prices (product_id (fst x)) store_id (upsert store_id rows x) =
  Nat.max 1 (count_prices (product_id (fst x)) store_id rows).
Proof.
  unfold count_prices, upsert.
  destruct (existsb _ rows) eqn:E.
  - rewrite filter_map_same by (intros; apply for_pair_overwrite).
    apply filter_some in E. lia.
  - rewrite filter_app, (filter_none _ _ E). simpl.
    unfold for_pair at 1. simpl. now rewrite !Z.eqb_refl.
Qed.

Lemma count_upsert_other p s store_id rows x :
  for_pair p s (new_price (fst x) store_id (snd x)) = false ->
  count_prices p s (upsert store_id rows x) = count_prices p s rows.
Proof.
  intros Hne. unfold count_prices, upsert.
  destruct (existsb _ rows) eqn:E.
  - apply filter_map_same. intros; apply for_pair_overwrite.
  - rewrite filter_app. simpl. rewrite Hne. simpl.
    rewrite length_app. simpl. lia.
Qed.

Lemma for_pair_new_price p s store_id x :
  for_pair p s (new_price (fst x) store_id (snd x)) = true ->
  p = product_id (fst x) /\ s = store_id.
Proof.
  unfold for_pair, new_price. simpl. intros H.
  apply andb_true_iff in H. destruct H as [H1 H2].
  apply Z.eqb_eq in H1, H2. auto.
Qed.

Lemma count_upsert_le p s store_id rows x :
  (count_prices p s rows <= count_prices p s (upsert store_id rows x))%nat.
Proof.
  destruct (for_pair p s (new_price (fst x) store_id (snd x))) eqn:E.
  - apply for_pair_new_price in E. destruct E as [-> ->].
    rewrite count_upsert_own. lia.
  - rewrite (count_upsert_other _ _ _ _ _ E). lia.
Qed.

Lemma unique_pairs_upsert store_id rows x :
  unique_pairs rows -> unique_pairs (upsert store_id rows x).
Proof.
  intros Hu p s. fold (count_prices p s (upsert store_id rows x)).
  destruct (for_pair p s (new_price (fst x) store_id (snd x))) eqn:E.
  - apply for_pair_new_price in E. destruct E as [-> ->].
    rewrite count_upsert_own.
    pose proof (Hu (product_id (fst x)) store_id) as H.
    unfold count_prices. lia.
  - rewrite (count_upsert_other _ _ _ _ _ E). apply Hu.
Qed.

Lemma unique_pairs_fold store_id l rows :
  unique_pairs rows -> unique_pairs (fold_left (upsert store_id) l rows).
Proof.
  revert rows; induction l as [|x l IH]; intros rows Hu; simpl; [exact Hu|].
  apply IH. now apply unique_pairs_upsert.
Qed.

#[local] Hint Resolve unique_pairs_upsert unique_pairs_fold : ledger.

(** The loop on the tables: a fold of upserts on the current prices, one
    record appended per processed item. *)
Lemma fold_apply_item now store_id l rows records :
  unique_pairs rows ->
  fold_left (apply_item now store_id) l (rows, records) =
  (fold_left (upsert store_id) l rows, records ++ map (record now store_id) l).
Proof.
  revert rows records; induction l as [|x l IH]; intros rows records Hu; simpl.
  - now rewrite app_nil_r.
  - rewrite (apply_item_upsert _ _ _ _ _ Hu).
    rewrite IH by auto with ledger.
    now rewrite <- app_assoc.
Qed.

Lemma process_scraped_data_upserts autoflush now db store_id items :
  sees_own_rows autoflush (db_products db) items ->
  unique_pairs (db_prices db) ->
  let l := processed (db_products db) items in
  process_scraped_data autoflush false now db store_id items =
  mkDatabase (db_stores db) (db_products db)
             (fold_left (upsert store_id) l (db_prices db))
             (db_price_history db ++ map (record now store_id) l).
Proof.
  intros Hsees Hu. simpl.
  rewrite (process_scraped_data_committed _ _ _ _ _ Hsees).
  now rewrite (fold_apply_item _ _ _ _ _ Hu).
Qed.

Lemma count_fold_ge p s store_id l rows :
  (count_prices p s rows <= count_prices p s (fold_left (upsert store_id) l rows))%nat.
Proof.
  revert rows; induction l as [|x l IH]; intros rows; simpl; [lia|].
  pose proof (count_upsert_le p s store_id rows x). specialize (IH (upsert store_id rows x)).
  lia.
Qed.

(** After the fold every processed pair has exactly one row. *)
Lemma count_fold_processed store_id l rows x :
  unique_pairs rows -> In x l ->
  count_prices (product_id (fst x)) store_id (fold_left (upsert store_id) l rows) = 1%nat.
Proof.
  intros Hu Hin.
  pose proof (unique_pairs_fold store_id l rows Hu (product_id (fst x)) store_id) as Hle.
  fold (count_prices (product_id (fst x)) store_id (fold_left (upsert store_id) l rows)) in Hle.
  enough (1 <= count_prices (product_id (fst x)) store_id
                            (fold_left (upsert store_id) l rows))%nat by lia.
  clear Hu Hle. revert rows; induction l as [|y l IH]; intros rows; [destruct Hin|].
  simpl. destruct Hin as [-> | Hin]; [|now apply IH].
  pose proof (count_fold_ge (product_id (fst x)) store_id store_id l
                            (upsert store_id rows x)) as H.
  rewrite count_upsert_own in H. lia.
Qed.

End Tables.

End LedgerFacts.

(** ** The ledger invariant is kept *)

Module InvariantFacts.
Import PyStr DataProcessor Ledger SessionFacts LedgerFacts.

Section Tables.
Context {tables : Unicode}.

Lemma last_record_app p s records r :
  last_record p s (records ++ [r]) =
  if of_pair p s r then Some r else last_record p s records.
Proof.
  unfold last_record. rewrite filter_app. simpl.
  destruct (of_pair p s r).
  - rewrite map_app. simpl. now rewrite last_last.
  - now rewrite app_nil_r.
Qed.

Lemma of_pair_record now store_id x row :
  of_pair (price_product_id row) (price_store_id row) (record now store_id x) =
  for_pair (product_id (fst x)) store_id row.
Proof.
  unfold of_pair, for_pair, record, history_entry. simpl.
  now rewrite (Z.eqb_sym (product_id (fst x))), (Z.eqb_sym store_id).
Qed.

Lemma covered_untouched now store_id x rows records row :
  covered rows records -> In row rows ->
  for_pair (product_id (fst x)) store_id row = false ->
  exists r, last_record (price_product_id row) (price_store_id row)
                        (records ++ [record now store_id x]) = Some r
            /\ same_values row r.
Proof.
  intros Hc Hin Hf. rewrite last_record_app, of_pair_record, Hf. now apply Hc.
Qed.

Lemma covered_upsert now store_id rows records x :
  covered rows records ->
  covered (upsert store_id rows x) (records ++ [record now store_id x]).
Proof.
  intros Hc row' Hin. unfold upsert in Hin.
  destruct (existsb (for_pair (product_id (fst x)) store_id) rows) eqn:E.
  - apply in_map_iff in Hin. destruct Hin as [row [<- Hin]].
    unfold overwrite.
    destruct (for_pair (product_id (fst x)) store_id row) eqn:Ef.
    + exists (record now store_id x). split; [|split; reflexivity].
      rewrite last_record_app.
      change (price_product_id (update_price (snd x) row)) with (price_product_id row).
      change (price_store_id (update_price (snd x) row)) with (price_store_id row).
      now rewrite of_pair_record, Ef.
    + now apply (covered_untouched now store_id x rows records row Hc Hin).
  - apply in_app_or in Hin. destruct Hin as [Hin | [<- | []]].
    + apply (covered_untouched now store_id x rows records row' Hc Hin).
      destruct (for_pair (product_id (fst x)) store_id row') eqn:Ef; [|reflexivity].
      assert (existsb (for_pair (product_id (fst x)) store_id) rows = true) as Hex
          by (apply existsb_exists; eauto).
      congruence.
    + exists (record now store_id x). split; [|split; reflexivity].
      rewrite last_record_app, of_pair_record.
      unfold for_pair, new_price. simpl. now rewrite !Z.eqb_refl.
Qed.

#[local] Hint Resolve unique_pairs_upsert unique_pairs_fold covered_upsert : ledger.

Lemma covered_fold now store_id l rows records :
  covered rows records ->
  covered (fold_left (upsert store_id) l rows)
          (records ++ map (record now store_id) l).
Proof.
  revert rows records; induction l as [|x l IH]; intros rows records Hc; simpl.
  - now rewrite app_nil_r.
  - replace (records ++ record now store_id x :: map (record now store_id) l)
      with ((records ++ [record now store_id x]) ++ map (record now store_id) l)
      by now rewrite <- app_assoc.
    apply IH. auto with ledger.
Qed.

#[local] Hint Resolve covered_fold : ledger.

(** C2, as the code has it. A run of [process_scraped_data] whose
    queries see the rows of the run keeps the ledger invariant: there is
    at most one current price per (product, store) pair, and its price
    and availability are those of the most recent history record of the
    pair. (The record's timestamp is the time of its insertion, not the
    capture time held by the current price.) *)
Theorem process_scraped_data_keeps_ledger_consistent :
  forall autoflush commit_raises now db store_id items,
    sees_own_rows autoflush (db_products db) items ->
    consistent db ->
    consistent (process_scraped_data autoflush commit_raises now db store_id items).
Proof.
  intros autoflush commit_raises now db store_id items Hsees [Hu Hc].
  destruct commit_raises.
  - rewrite process_scraped_data_rolled_back. now split.
  - rewrite (process_scraped_data_upserts _ _ _ _ _ Hsees Hu).
    split; simpl; auto with ledger.
Qed.

End Tables.

End InvariantFacts.

(** ** Processing a batch twice *)

Module IdempotenceFacts.
Import PyStr DataProcessor Ledger SessionFacts LedgerFacts.

Section Tables.
Context {tables : Unicode}.

#[local] Hint Resolve unique_pairs_upsert unique_pairs_fold : ledger.

Lemma update_price_overwrite item store_id x row :
  update_price item (overwrite store_id x row) = update_price item row.
Proof. unfold overwrite. destruct (for_pair _ _ row); reflexivity. Qed.

Lemma update_price_overwrite_all item store_id l row :
  update_price item (overwrite_all store_id l row) = update_price item row.
Proof.
  unfold overwrite_all. revert row; induction l as [|x l IH]; intros row; simpl.
  - reflexivity.
  - rewrite IH. apply update_price_overwrite.
Qed.

Lemma for_pair_overwrite_all p s store_id l row :
  for_pair p s (overwrite_all store_id l row) = for_pair p s row.
Proof.
  unfold overwrite_all. revert row; induction l as [|x l IH]; intros row; simpl.
  - reflexivity.
  - rewrite IH. apply for_pair_overwrite.
Qed.

Lemma overwrite_all_snoc store_id l x row :
  overwrite_all store_id (l ++ [x]) row =
  overwrite store_id x (overwrite_all store_id l row).
Proof. unfold overwrite_all. now rewrite fold_left_app. Qed.

Lemma existsb_map_same {A} (f : A -> bool) (h : A -> A) l :
  (forall a, f (h a) = f a) -> existsb f (map h l) = existsb f l.
Proof.
  intros H. induction l as [|a l IH]; simpl; [reflexivity|]. now rewrite H, IH.
Qed.

Lemma existsb_of_count {A} (f : A -> bool) l :
  (1 <= List.length (filter f l))%nat -> existsb f l = true.
Proof.
  induction l as [|a l IH]; simpl; [lia|].
  destruct (f a); simpl; [reflexivity | exact IH].
Qed.

(** When every pair of the batch has its row, the batch overwrites. *)
Lemma fold_upsert_present store_id l :
  forall rows,
    (forall x, In x l -> existsb (for_pair (product_id (fst x)) store_id) rows = true) ->
    fold_left (upsert store_id) l rows = map (overwrite_all store_id l) rows.
Proof.
  induction l as [|x l IH]; intros rows Hpresent; simpl.
  - unfold overwrite_all. simpl. now rewrite map_id.
  - unfold upsert at 2. rewrite (Hpresent x) by now left.
    rewrite IH.
    + rewrite map_map. reflexivity.
    + intros y Hy. rewrite existsb_map_same by (intros; apply for_pair_overwrite).
      apply Hpresent. now right.
Qed.

Lemma present_after_fold store_id l rows x :
  In x l ->
  existsb (for_pair (product_id (fst x)) store_id)
          (fold_left (upsert store_id) l rows) = true.
Proof.
  intros Hin. apply existsb_of_count.
  revert rows; induction l as [|y l IH]; intros rows; [destruct Hin|].
  simpl. destruct Hin as [-> | Hin]; [|now apply IH].
  pose proof (count_fold_ge (product_id (fst x)) store_id store_id l
                            (upsert store_id rows x)) as H.
  rewrite count_upsert_own in H. unfold count_prices in H. lia.
Qed.

(** The rows a batch leaves are not changed by its overwrites. *)
Lemma overwrite_all_fixed store_id l :
  forall rows row,
    In row (fold_left (upsert store_id) l rows) ->
    overwrite_all store_id l row = row.
Proof.
  induction l as [|x l IH] using rev_ind; intros rows row Hin; [reflexivity|].
  rewrite fold_left_app in Hin. simpl in Hin.
  rewrite overwrite_all_snoc.
  set (rows' := fold_left (upsert store_id) l rows) in *.
  unfold upsert in Hin.
  destruct (existsb (for_pair (product_id (fst x)) store_id) rows') eqn:E.
  - apply in_map_iff in Hin. destruct Hin as [row' [<- Hin]].
    destruct (for_pair (product_id (fst x)) store_id row') eqn:Ef.
    + assert (overwrite store_id x row' = update_price (snd x) row') as ->
          by (unfold overwrite; now rewrite Ef).
      unfold overwrite.
      rewrite for_pair_overwrite_all, for_pair_update_price, Ef.
      now rewrite update_price_overwrite_all.
    + assert (overwrite store_id x row' = row') as Hov
          by (unfold overwrite; now rewrite Ef).
      now rewrite Hov, (IH rows row' Hin).
  - apply in_app_or in Hin. destruct Hin as [Hin | [<- | []]].
    + rewrite (IH rows row Hin). unfold overwrite.
      destruct (for_pair (product_id (fst x)) store_id row) eqn:Ef; [|reflexivity].
      assert (existsb (for_pair (product_id (fst x)) store_id) rows' = true) as Hex
          by (apply existsb_exists; eauto).
      congruence.
    + unfold overwrite. rewrite for_pair_overwrite_all.
      unfold for_pair at 1, new_price at 1. simpl. rewrite !Z.eqb_refl. simpl.
      now rewrite update_price_overwrite_all.
Qed.

(** The upserts of a batch, applied again, leave the rows as they are. *)
Lemma fold_upsert_twice store_id l rows :
  fold_left (upsert store_id) l (fold_left (upsert store_id) l rows) =
  fold_left (upsert store_id) l rows.
Proof.
  rewrite fold_upsert_present by (intros x Hx; now apply present_after_fold).
  rewrite <- (map_id (fold_left (upsert store_id) l rows)) at 2.
  apply map_ext_in. intros row Hrow. now apply (overwrite_all_fixed store_id l rows).
Qed.

Lemma count_records_app p s a b :
  count_records p s (a ++ b) = (count_records p s a + count_records p s b)%nat.
Proof. unfold count_records. now rewrite filter_app, length_app. Qed.

Lemma count_records_absent now store_id l p :
  ~ In p (map (fun x => product_id (fst x)) l) ->
  count_records p store_id (map (record now store_id) l) = 0%nat.
Proof.
  unfold count_records. induction l as [|y l IH]; intros Hn; simpl; [reflexivity|].
  simpl in Hn. unfold of_pair at 1. simpl.
  destruct (Z.eqb_spec (product_id (fst y)) p) as [E|]; [tauto|].
  simpl. apply IH. tauto.
Qed.

(** A batch with distinct matches appends one record for each pair. *)
Lemma count_records_distinct now store_id l x :
  NoDup (map (fun x => product_id (fst x)) l) -> In x l ->
  count_records (product_id (fst x)) store_id (map (record now store_id) l) = 1%nat.
Proof.
  induction l as [|y l IH]; intros Hnd Hin; [destruct Hin|].
  simpl in Hnd. apply NoDup_cons_iff in Hnd. destruct Hnd as [Hfresh Hnd].
  change (map (record now store_id) (y :: l))
    with ([record now store_id y] ++ map (record now store_id) l).
  rewrite count_records_app.
  destruct Hin as [-> | Hin].
  - rewrite (count_records_absent now store_id l _ Hfresh).
    unfold count_records, of_pair. simpl. now rewrite !Z.eqb_refl.
  - rewrite (IH Hnd Hin). unfold count_records at 1, of_pair. simpl.
    destruct (Z.eqb_spec (product_id (fst y)) (product_id (fst x))) as [E|];
      [|reflexivity].
    exfalso. apply Hfresh. rewrite E.
    apply (in_map (fun x => product_id (fst x))). exact Hin.
Qed.

(** C3, as the code has it. On a table with at most one row per pair,
    with queries that see the rows of the run, [process_scraped_data]
    upserts the current price of every processed item (overwrite in
    place when the pair has a row, insert otherwise) and appends one
    history record per processed item. Processing the same batch a
    second time leaves the current prices as the first run left them,
    exactly one row per matched pair, and again appends one record per
    processed item: one per pair when no two items of the batch are
    matched to the same product. *)
Theorem process_scraped_data_twice :
  forall autoflush now now' db store_id items,
    let l := processed (db_products db) items in
    let once := process_scraped_data autoflush false now db store_id items in
    let twice := process_scraped_data autoflush false now' once store_id items in
    sees_own_rows autoflush (db_products db) items ->
    unique_pairs (db_prices db) ->
    db_prices once = fold_left (upsert store_id) l (db_prices db)
    /\ db_price_history once = db_price_history db ++ map (record now store_id) l
    /\ db_prices twice = db_prices once
    /\ db_price_history twice = db_price_history once ++ map (record now' store_id) l
    /\ (forall x, In x l ->
                  count_prices (product_id (fst x)) store_id (db_prices twice) = 1%nat)
    /\ (distinct_matches (db_products db) items ->
        forall x, In x l ->
          count_records (product_id (fst x)) store_id (db_price_history twice) =
          (count_records (product_id (fst x)) store_id (db_price_history once) + 1)%nat
          /\ count_records (product_id (fst x)) store_id (db_price_history once) =
             (count_records (product_id (fst x)) store_id (db_price_history db) + 1)%nat).
Proof.
  intros autoflush now now' db store_id items l once twice Hsees Hu.
  assert (once = mkDatabase (db_stores db) (db_products db)
                            (fold_left (upsert store_id) l (db_prices db))
                            (db_price_history db ++ map (record now store_id) l))
    as Honce by (apply process_scraped_data_upserts; assumption).
  assert (twice = mkDatabase (db_stores db) (db_products db)
                             (fold_left (upsert store_id) l (db_prices once))
                             (db_price_history once ++ map (record now' store_id) l))
    as Htwice.
  { unfold twice. rewrite Honce.
    rewrite process_scraped_data_upserts; simpl;
      [reflexivity | exact Hsees | auto with ledger]. }
  assert (db_prices twice = db_prices once) as Hsame.
  { rewrite Htwice, Honce. simpl. apply fold_upsert_twice. }
  split; [now rewrite Honce|]. split; [now rewrite Honce|].
  split; [exact Hsame|]. split; [now rewrite Htwice|]. split.
  - intros x Hx. rewrite Hsame, Honce. simpl. now apply count_fold_processed.
  - intros Hd x Hx. rewrite Htwice, Honce. simpl.
    rewrite !count_records_app.
    rewrite !(count_records_distinct _ store_id l x Hd Hx). lia.
Qed.

End Tables.

End IdempotenceFacts.

(** ** Dropped items *)

Module DropFacts.
Import PyStr DataProcessor Ledger SessionFacts.

Section Tables.
Context {tables : Unicode}.

Lemma truthy_false s : truthy s = false <-> s = EmptyString.
Proof. destruct s; simpl; split; congruence. Qed.

(** An item is not kept exactly when its name is empty, its price is
    not positive or the catalog has no match for its name. *)
Lemma kept_false products item :
  kept products item = false <->
  pd_name item = EmptyString \/ (pd_price item <= 0)%Q
  \/ _find_matching_product products (pd_name item) = None.
Proof.
  unfold kept, matched, invalid.
  destruct (truthy (pd_name item)) eqn:Et; simpl.
  - destruct (Qle_bool (pd_price item) 0) eqn:Ep.
    + apply Qle_bool_iff in Ep. tauto.
    + assert (~ (pd_price item <= 0)%Q) as Hp
          by (intros H; apply Qle_bool_iff in H; congruence).
      assert (pd_name item <> EmptyString) as Hn
          by (intros H; apply truthy_false in H; congruence).
      destruct (_find_matching_product products (pd_name item)); split;
        try congruence; try tauto.
      intros [H | [H | H]]; [tauto | tauto | discriminate].
  - apply truthy_false in Et. tauto.
Qed.

Lemma processed_filter products items :
  processed products (filter (kept products) items) = processed products items.
Proof.
  induction items as [|item rest IH]; simpl; [reflexivity|].
  unfold kept at 1. destruct (matched products item) eqn:E; simpl.
  - now rewrite E, IH.
  - exact IH.
Qed.

Lemma process_item_products autoflush now store_id s item :
  Session.products (process_item autoflush now store_id s item) = Session.products s.
Proof.
  unfold process_item. destruct (invalid item); [reflexivity|].
  destruct autoflush; simpl;
    destruct (_find_matching_product _ _); try reflexivity;
    destruct (update_first _ _ _); reflexivity.
Qed.

(** Without autoflush a dropped item leaves the session as it is. *)
Lemma process_loop_filter_no_autoflush now store_id products items :
  forall s, Session.products s = products ->
    process_loop false now store_id s (filter (kept products) items) =
    process_loop false now store_id s items.
Proof.
  induction items as [|item rest IH]; intros s Hp; simpl; [reflexivity|].
  unfold kept at 1, matched.
  destruct (invalid item) eqn:Einv; simpl.
  - assert (process_item false now store_id s item = s) as ->
        by (unfold process_item; now rewrite Einv).
    now apply IH.
  - destruct (_find_matching_product products (pd_name item)) eqn:Em; simpl.
    + apply IH. now rewrite process_item_products.
    + assert (process_item false now store_id s item = s) as ->
          by (unfold process_item; rewrite Einv; simpl; now rewrite Hp, Em).
      now apply IH.
Qed.

Lemma commit_begin db : Session.commit (Session.begin db) = db.
Proof. destruct db. unfold Session.commit, Session.begin. simpl. now rewrite !app_nil_r. Qed.

Lemma process_scraped_data_commit autoflush now db store_id items :
  process_scraped_data autoflush false now db store_id items =
  Session.commit (process_loop autoflush now store_id (Session.begin db) items).
Proof. destruct items; simpl; [now rewrite commit_begin | reflexivity]. Qed.

(** A batch and the batch without its dropped items leave the same
    database. *)
Lemma process_scraped_data_filter autoflush commit_raises now db store_id items :
  process_scraped_data autoflush commit_raises now db store_id items =
  process_scraped_data autoflush commit_raises now db store_id
                       (filter (kept (db_products db)) items).
Proof.
  destruct commit_raises; [now rewrite !process_scraped_data_rolled_back|].
  rewrite !process_scraped_data_commit.
  destruct autoflush.
  - rewrite !commit_view.
    destruct (process_loop_autoflush now store_id items (Session.begin db))
      as [Hv [Hp Hs]].
    destruct (process_loop_autoflush now store_id
                (filter (kept (db_products db)) items) (Session.begin db))
      as [Hv' [Hp' Hs']].
    cbv zeta in *. rewrite Hv, Hp, Hs, Hv', Hp', Hs'.
    simpl Session.products. now rewrite processed_filter.
  - now rewrite process_loop_filter_no_autoflush.
Qed.

Lemma kept_dropped products item :
  kept products item = false <-> dropped products item.
Proof. apply kept_false. Qed.

Lemma process_scraped_data_without_item
      autoflush commit_raises now db store_id before item after :
  dropped (db_products db) item ->
  process_scraped_data autoflush commit_raises now db store_id
                       (before ++ item :: after) =
  process_scraped_data autoflush commit_raises now db store_id (before ++ after).
Proof.
  intros Hdrop. apply kept_dropped in Hdrop.
  rewrite (process_scraped_data_filter _ _ _ _ _ (before ++ item :: after)).
  rewrite (process_scraped_data_filter _ _ _ _ _ (before ++ after)).
  rewrite !filter_app. simpl. now rewrite Hdrop.
Qed.

Lemma process_scraped_data_all_dropped autoflush commit_raises now db store_id items :
  (forall item, In item items -> dropped (db_products db) item) ->
  process_scraped_data autoflush commit_raises now db store_id items = db.
Proof.
  intros Hall. rewrite process_scraped_data_filter.
  replace (filter (kept (db_products db)) items) with (@nil ProductData);
    [reflexivity|].
  symmetry. induction items as [|item rest IH]; simpl; [reflexivity|].
  assert (kept (db_products db) item = false) as ->
      by (apply kept_dropped, Hall; now left).
  apply IH. intros item' Hin. apply Hall. now right.
Qed.

End Tables.

End DropFacts.

(** ** Saving the results of a store *)

Module SaveFacts.
Import PyStr DataProcessor ScraperManager SessionFacts DropFacts.

(** The price rows of a session, flushed or pending. *)
Abbreviation rows s := (Session.prices s ++ Session.new_prices s).

Section Tables.
Context {tables : Unicode}.

Lemma rows_before_query autoflush s :
  rows (Session.before_query autoflush s) = rows s.
Proof. destruct autoflush; simpl; [now rewrite !app_nil_r | reflexivity]. Qed.

Lemma products_before_query autoflush s :
  Session.products (Session.before_query autoflush s) = Session.products s.
Proof. destruct autoflush; reflexivity. Qed.

Lemma next_id_fresh products p :
  In p products -> (product_id p < next_id products)%Z.
Proof.
  unfold next_id. induction products as [|q products IH]; intros Hin; [destruct Hin|].
  cbn [map fold_right]. destruct Hin as [-> | Hin]; [lia|]. specialize (IH Hin). lia.
Qed.

Lemma NoDup_ids_snoc products q :
  NoDup (map product_id products) ->
  product_id q = next_id products ->
  NoDup (map product_id (products ++ [q])).
Proof.
  intros Hnd Hq. rewrite map_app. simpl.
  apply NoDup_app; [exact Hnd | constructor; [intros [] | constructor] |].
  intros id Hin [<- | []]. apply in_map_iff in Hin.
  destruct Hin as [p [Hid Hp]]. apply next_id_fresh in Hp. lia.
Qed.

Lemma same_id_same_product products p q :
  NoDup (map product_id products) -> In p products -> In q products ->
  product_id p = product_id q -> p = q.
Proof.
  induction products as [|r products IH]; intros Hnd Hp Hq Heq; [destruct Hp|].
  simpl in Hnd. apply NoDup_cons_iff in Hnd. destruct Hnd as [Hfresh Hnd].
  destruct Hp as [-> | Hp], Hq as [-> | Hq]; auto.
  - exfalso. apply Hfresh. rewrite Heq. now apply in_map.
  - exfalso. apply Hfresh. rewrite <- Heq. now apply in_map.
Qed.

Lemma find_product_some products name p :
  find_product products name = Some p -> In p products /\ product_name p = name.
Proof.
  unfold find_product. intros H. apply find_some in H.
  destruct H as [Hin Heq]. apply String.eqb_eq in Heq. auto.
Qed.

Lemma find_product_app products extra name p :
  find_product products name = Some p ->
  find_product (products ++ extra) name = Some p.
Proof.
  unfold find_product. induction products as [|q products IH]; simpl; [discriminate|].
  destruct (String.eqb (product_name q) name); auto.
Qed.

Lemma find_product_snoc products name q :
  find_product products name = None -> product_name q = name ->
  find_product (products ++ [q]) name = Some q.
Proof.
  unfold find_product. intros Hnone Hq.
  induction products as [|r products IH]; simpl in *.
  - rewrite Hq, String.eqb_refl. reflexivity.
  - destruct (String.eqb (product_name r) name); [discriminate | auto].
Qed.

Lemma in_delete_prices p s r l :
  In r l -> for_pair p s r = false -> In r (delete_prices p s l).
Proof. intros Hin Hf. apply filter_In. split; [exact Hin | now rewrite Hf]. Qed.

Section Saving.

Variables (autoflush : bool) (raises : ProductData -> bool) (store : Store).

(** The body of the inner [try], step by step. *)
Lemma save_item_eq s saved_count product_data :
  let s1 := Session.before_query autoflush s in
  let found := find_product (Session.products s1) (pd_name product_data) in
  let product :=
    match found with
    | Some product => product
    | None => new_product (next_id (Session.products s1)) product_data
    end in
  let s2 :=
    match found with
    | Some _ => s1
    | None => Session.flush (Session.set_products s1 (Session.products s1 ++ [product]))
    end in
  let s3 := Session.before_query autoflush s2 in
  let s4 := Session.set_prices s3
              (delete_prices (product_id product) (store_id store) (Session.prices s3)) in
  save_item autoflush raises store (s, saved_count) product_data =
  if raises product_data then (s4, saved_count)
  else (Session.add_price s4 (build_price product store product_data), S saved_count).
Proof.
  simpl. unfold save_item.
  destruct (find_product _ (pd_name product_data)); reflexivity.
Qed.

(** Product keys stay distinct. *)
Lemma save_item_ids s saved_count product_data :
  NoDup (map product_id (Session.products s)) ->
  NoDup (map product_id
             (Session.products
                (fst (save_item autoflush raises store (s, saved_count) product_data)))).
Proof.
  intros Hnd. rewrite save_item_eq. rewrite products_before_query.
  destruct (find_product (Session.products s) (pd_name product_data)) eqn:Ef;
    destruct (raises product_data); simpl; rewrite ?products_before_query; simpl;
    rewrite ?products_before_query; auto;
    now apply NoDup_ids_snoc.
Qed.

Lemma save_loop_ids products :
  forall s saved_count,
    NoDup (map product_id (Session.products s)) ->
    NoDup (map product_id
               (Session.products
                  (fst (save_loop autoflush raises store (s, saved_count) products)))).
Proof.
  induction products as [|product_data rest IH]; intros s saved_count Hnd;
    cbn [save_loop].
  - exact Hnd.
  - pose proof (save_item_ids s saved_count product_data Hnd) as H.
    destruct (save_item autoflush raises store (s, saved_count) product_data) as [s' n'].
    now apply IH.
Qed.

(** An item that does not raise leaves its row. *)
Lemma save_item_adds s saved_count product_data :
  raises product_data = false ->
  let s' := fst (save_item autoflush raises store (s, saved_count) product_data) in
  exists product,
    find_product (Session.products s') (pd_name product_data) = Some product
    /\ In (build_price product store product_data) (rows s').
Proof.
  intros Hr. cbv zeta. rewrite save_item_eq, Hr. rewrite products_before_query.
  destruct (find_product (Session.products s) (pd_name product_data)) as [p|] eqn:Ef;
    simpl; rewrite ?products_before_query; simpl; rewrite ?products_before_query.
  - exists p. split; [exact Ef|]. rewrite app_assoc. apply in_or_app. right. now left.
  - eexists. split; [now apply find_product_snoc|].
    rewrite app_assoc. apply in_or_app. right. now left.
Qed.

(** An item with another name leaves the row of a product in place. *)
Lemma save_item_keeps s saved_count product_data name p r :
  NoDup (map product_id (Session.products s)) ->
  find_product (Session.products s) name = Some p ->
  price_product_id r = product_id p ->
  In r (rows s) ->
  pd_name product_data <> name ->
  let s' := fst (save_item autoflush raises store (s, saved_count) product_data) in
  In r (rows s') /\ find_product (Session.products s') name = Some p.
Proof.
  intros Hnd Hfind Hid Hin Hname. cbv zeta. rewrite save_item_eq.
  rewrite products_before_query.
  destruct (find_product_some _ _ _ Hfind) as [Hp Hpn].
  set (q := match find_product (Session.products s) (pd_name product_data) with
            | Some product => product
            | None => new_product (next_id (Session.products s)) product_data
            end).
  assert (for_pair (product_id q) (store_id store) r = false) as Hother.
  { unfold for_pair. rewrite Hid.
    destruct (Z.eqb_spec (product_id p) (product_id q)) as [E|]; [|reflexivity].
    exfalso. subst q.
    destruct (find_product (Session.products s) (pd_name product_data)) as [q|] eqn:Eq.
    - destruct (find_product_some _ _ _ Eq) as [Hq Hqn].
      apply (same_id_same_product _ _ _ Hnd Hp Hq) in E. subst q. congruence.
    - simpl in E. apply next_id_fresh in Hp. lia. }
  assert (forall s0, rows s0 = rows s ->
            In r (delete_prices (product_id q) (store_id store) (Session.prices s0)
                  ++ Session.new_prices s0)) as Hkept.
  { intros s0 Hs0. rewrite <- Hs0 in Hin. apply in_app_or in Hin. apply in_or_app.
    destruct Hin as [Hin | Hin]; [left | now right].
    now apply in_delete_prices. }
  destruct (find_product (Session.products s) (pd_name product_data)) as [q'|] eqn:Eq;
    destruct (raises product_data); simpl; rewrite ?products_before_query; simpl;
    rewrite ?products_before_query; rewrite ?app_assoc.
  - split; [|exact Hfind]. apply Hkept. now rewrite !rows_before_query.
  - split; [|exact Hfind]. apply in_or_app. left.
    apply Hkept. now rewrite !rows_before_query.
  - split; [|now apply find_product_app].
    match goal with
    | |- In r (delete_prices _ _ (Session.prices ?t) ++ Session.new_prices ?t) =>
        apply (Hkept t)
    end.
    rewrite rows_before_query. simpl. rewrite app_nil_r. apply rows_before_query.
  - split; [|now apply find_product_app]. apply in_or_app. left.
    match goal with
    | |- In r (delete_prices _ _ (Session.prices ?t) ++ Session.new_prices ?t) =>
        apply (Hkept t)
    end.
    rewrite rows_before_query. simpl. rewrite app_nil_r. apply rows_before_query.
Qed.

Lemma save_loop_keeps name p r after :
  forall s saved_count,
    NoDup (map product_id (Session.products s)) ->
    find_product (Session.products s) name = Some p ->
    price_product_id r = product_id p ->
    In r (rows s) ->
    (forall later, In later after -> pd_name later <> name) ->
    let s' := fst (save_loop autoflush raises store (s, saved_count) after) in
    In r (rows s') /\ find_product (Session.products s') name = Some p.
Proof.
  induction after as [|product_data rest IH];
    intros s saved_count Hnd Hfind Hid Hin Hnames; cbn [save_loop]; [auto|].
  destruct (save_item_keeps s saved_count product_data
                            name p r Hnd Hfind Hid Hin) as [Hin' Hfind'];
    [apply Hnames; now left|].
  pose proof (save_item_ids s saved_count product_data Hnd) as Hnd'.
  destruct (save_item autoflush raises store (s, saved_count) product_data) as [s' n'].
  apply IH; auto. intros later Hl. apply Hnames. now right.
Qed.

Lemma save_loop_app acc before after :
  save_loop autoflush raises store acc (before ++ after) =
  save_loop autoflush raises store (save_loop autoflush raises store acc before) after.
Proof.
  revert acc; induction before as [|x before IH]; intros acc; simpl; auto.
Qed.

(** The count is the number of items that did not raise. *)
Lemma save_loop_count products :
  forall s saved_count,
    snd (save_loop autoflush raises store (s, saved_count) products) =
    (saved_count
     + List.length (filter (fun product_data => negb (raises product_data)) products))%nat.
Proof.
  induction products as [|product_data rest IH]; intros s saved_count;
    cbn [save_loop]; [simpl; lia|].
  rewrite save_item_eq.
  destruct (raises product_data) eqn:E; rewrite IH; simpl; rewrite E; simpl; lia.
Qed.

End Saving.

End Tables.

End SaveFacts.

Module BatchTheorems.
Import PyStr DataProcessor Ledger ScraperManager SessionFacts DropFacts SaveFacts.

Section Tables.
Context {tables : Unicode}.

Lemma save_store_results_committed autoflush raises products store
  (db : Session.handle) :
  _save_store_results autoflush raises false products store db =
  (Session.clean
     (Session.commit
        (fst (save_loop autoflush raises store (Session.resume db, 0%nat) products))),
   snd (save_loop autoflush raises store (Session.resume db, 0%nat) products)).
Proof. unfold _save_store_results. now destruct (save_loop _ _ _ _ _). Qed.

Lemma save_store_results_rolled_back autoflush raises products store
  (db : Session.handle) :
  fst (_save_store_results autoflush raises true products store db)
  = Session.rollback db.
Proof. unfold _save_store_results. now destruct (save_loop _ _ _ _ _). Qed.

(** The database a batch that commits leaves. *)
Lemma save_store_results_db autoflush raises products store (db : Session.handle) :
  Session.durable (fst (_save_store_results autoflush raises false products store db))
  = Session.commit
      (fst (save_loop autoflush raises store (Session.resume db, 0%nat) products)).
Proof. now rewrite save_store_results_committed. Qed.

(** An item saved without exception, the last of its name in the batch,
    has its price row in the database the call leaves, whatever its
    name and its price. *)
Lemma save_store_results_row autoflush raises store (db : Session.handle)
  before item after :
  NoDup (map product_id (db_products db)) ->
  raises item = false ->
  (forall later, In later after -> pd_name later <> pd_name item) ->
  let result :=
    _save_store_results autoflush raises false (before ++ item :: after) store db in
  exists product,
    find_product (db_products (fst result)) (pd_name item) = Some product
    /\ In (build_price product store item) (db_prices (fst result)).
Proof.
  intros Hnd Hr Hlater result. subst result.
  rewrite save_store_results_db.
  rewrite save_loop_app. cbn [save_loop].
  pose proof (save_loop_ids autoflush raises store before (Session.resume db) 0%nat Hnd)
    as Hnd1.
  destruct (save_loop autoflush raises store (Session.resume db, 0%nat) before)
    as [s1 n1]. cbn [fst] in Hnd1.
  destruct (save_item_adds autoflush raises store s1 n1 item Hr)
    as [product [Hfind Hin]].
  pose proof (save_item_ids autoflush raises store s1 n1 item Hnd1) as Hnd2.
  destruct (save_item autoflush raises store (s1, n1) item) as [s2 n2].
  cbn [fst] in *.
  destruct (save_loop_keeps autoflush raises store (pd_name item) product
              (build_price product store item) after s2 n2 Hnd2 Hfind
              eq_refl Hin Hlater) as [Hin' Hfind'].
  exists product. split; [exact Hfind' | exact Hin'].
Qed.

(** C7, as the code has it. In [process_scraped_data] an item with an
    empty name, a price that is not positive or no catalog match is
    dropped: the batch leaves the database that the batch without the
    item leaves, so the item gives no current price and no history
    record and the other items are processed as they are without it; a
    batch of such items leaves the database as it was.
    [_save_store_results] does not filter: an item saved without
    exception, the last of its name in the batch, gets its price row,
    for the product found or created by its name, whatever its name and
    its price; a price of zero is stored as 0.0. *)
Theorem dropped_items_leave_no_row :
  (forall autoflush commit_raises now db store_id before item after,
      dropped (db_products db) item ->
      process_scraped_data autoflush commit_raises now db store_id
                           (before ++ item :: after) =
      process_scraped_data autoflush commit_raises now db store_id (before ++ after))
  /\ (forall autoflush commit_raises now db store_id items,
        (forall item, In item items -> dropped (db_products db) item) ->
        process_scraped_data autoflush commit_raises now db store_id items = db)
  /\ (forall autoflush raises store db before item after,
        NoDup (map product_id (db_products db)) ->
        raises item = false ->
        (forall later, In later after -> pd_name later <> pd_name item) ->
        let result :=
          _save_store_results autoflush raises false (before ++ item :: after)
                              store db in
        exists product,
          find_product (db_products (fst result)) (pd_name item) = Some product
          /\ In (build_price product store item) (db_prices (fst result))
          /\ ((pd_price item == 0)%Q ->
              price_price (build_price product store item) = 0%Q)).
Proof.
  split; [exact process_scraped_data_without_item|].
  split; [exact process_scraped_data_all_dropped|].
  intros autoflush raises store db before item after Hnd Hr Hlater result.
  destruct (save_store_results_row autoflush raises store db before item after
                                   Hnd Hr Hlater) as [product [Hfind Hin]].
  exists product. split; [exact Hfind|]. split; [exact Hin|].
  intros Hzero. cbn. unfold float_or_zero.
  apply Qeq_bool_iff in Hzero. now rewrite Hzero.
Qed.

(** C8, as the code has it. In [_save_store_results] an exception
    raised while one item is saved is caught for that item alone: the
    count returned is the number of items that did not raise, and every
    item that did not raise and whose name no later item of the batch
    bears has its price row in the database the call leaves. The rows
    become durable with the one commit that ends the batch: when that
    commit raises, the whole batch is rolled back, here as in
    [process_scraped_data]. *)
Theorem save_store_results_isolates_item :
  forall autoflush raises products store db,
    NoDup (map product_id (db_products db)) ->
    let result := _save_store_results autoflush raises false products store db in
    snd result =
      List.length (filter (fun product_data => negb (raises product_data)) products)
    /\ (forall before item after,
          products = before ++ item :: after ->
          raises item = false ->
          (forall later, In later after -> pd_name later <> pd_name item) ->
          exists product,
            find_product (db_products (fst result)) (pd_name item) = Some product
            /\ In (build_price product store item) (db_prices (fst result)))
    /\ fst (_save_store_results autoflush raises true products store db) = db
    /\ (forall now store_id items,
          process_scraped_data autoflush true now db store_id items = db).
Proof.
  intros autoflush raises products store db Hnd result. subst result.
  split; [|split; [|split]].
  - rewrite save_store_results_committed. cbn [snd]. apply save_loop_count.
  - intros before item after -> Hr Hlater.
    now apply (save_store_results_row autoflush raises store db).
  - apply save_store_results_rolled_back.
  - intros. apply process_scraped_data_rolled_back.
Qed.

End Tables.

End BatchTheorems.

(** ** The price change *)

Module PriceServiceFacts.
Import PriceService.

Local Open Scope Z_scope.

Lemma latest_none records : latest records = None <-> records = [].
Proof.
  destruct records as [|r rest]; simpl; [tauto|].
  split; [|discriminate].
  destruct (latest rest) as [other|]; [|discriminate].
  destruct (history_recorded_at r <? history_recorded_at other); discriminate.
Qed.

(** [latest] returns a record of the list that no record is newer than. *)
Lemma latest_some records r :
  latest records = Some r ->
  In r records
  /\ forall r', In r' records -> history_recorded_at r' <= history_recorded_at r.
Proof.
  revert r; induction records as [|r0 rest IH]; intros r; simpl; [discriminate|].
  destruct (latest rest) as [other|] eqn:E.
  - destruct (IH other eq_refl) as [Hin Hmax].
    destruct (Z.ltb_spec (history_recorded_at r0) (history_recorded_at other))
      as [Hlt | Hge]; intros H; injection H as <-.
    + split; [now right|]. intros r' [<- | Hr']; [lia | now apply Hmax].
    + split; [now left|]. intros r' [<- | Hr']; [lia|].
      specialize (Hmax r' Hr'). lia.
  - apply latest_none in E. subst rest.
    intros H; injection H as <-. split; [now left|].
    intros r' [<- | []]. lia.
Qed.

Lemma day_is_24_hours : timedelta_days 1 = timedelta_hours 24.
Proof. reflexivity. Qed.

Lemma recorded_before_spec utcnow price r :
  recorded_before (price_product_id price) (price_store_id price)
                  (utcnow - timedelta_days 1) r = true <->
  history_product_id r = price_product_id price
  /\ history_store_id r = price_store_id price
  /\ history_recorded_at r < utcnow - timedelta_hours 24.
Proof.
  unfold recorded_before. rewrite day_is_24_hours.
  rewrite !andb_true_iff, !Z.eqb_eq, Z.ltb_lt. tauto.
Qed.

(** The query returns a most recent record older than a day, if any. *)
Lemma previous_price_obj_some utcnow history price previous :
  previous_price_obj utcnow history price = Some previous ->
  most_recent_older utcnow history price previous.
Proof.
  unfold previous_price_obj, most_recent_older. intros H.
  apply latest_some in H. destruct H as [Hin Hmax].
  apply filter_In in Hin. destruct Hin as [Hin Hold].
  apply recorded_before_spec in Hold.
  split; [exact Hin|]. split; [exact Hold|].
  intros r Hr Hr_old. apply Hmax. apply filter_In. split; [exact Hr|].
  now apply recorded_before_spec.
Qed.

Lemma previous_price_obj_none utcnow history price :
  previous_price_obj utcnow history price = None ->
  forall r, ~ most_recent_older utcnow history price r.
Proof.
  unfold previous_price_obj, most_recent_older. intros H r [Hin [Hold _]].
  apply latest_none in H.
  assert (In r (filter (recorded_before (price_product_id price) (price_store_id price)
                                        (utcnow - timedelta_days 1)) history)) as Hr
      by (apply filter_In; split; [exact Hin | now apply recorded_before_spec]).
  rewrite H in Hr. destruct Hr.
Qed.

Local Open Scope Q_scope.

Lemma round2_zero : round2 0 == 0.
Proof. vm_compute. reflexivity. Qed.

(** The worked example: 20.00 thirty-six hours ago, 25.00 now. *)
Lemma change_from_20_to_25 utcnow product_id store_id current :
  price_product_id current = product_id ->
  price_store_id current = store_id ->
  price_price current = 25 ->
  let history :=
    [mkPriceHistory product_id store_id 20 true (utcnow - timedelta_hours 36)%Z] in
  _format_price_with_change utcnow history current == 25.
Proof.
  intros <- <- Hprice. cbv zeta.
  unfold _format_price_with_change, previous_price_obj. cbn [filter].
  match goal with
  | |- context [recorded_before ?p ?s ?y ?r] =>
      assert (recorded_before p s y r = true) as ->
  end.
  { apply recorded_before_spec. cbn. repeat split.
    unfold timedelta_hours. lia. }
  cbn [latest]. unfold change_percent. cbn [history_price].
  rewrite Hprice. vm_compute. reflexivity.
Qed.

(** The price change of C4 at both call sites. The percentage is
    computed from the most
    recent history record of the pair strictly older than 24 hours: it
    is 0 when there is no such record or when the price of that record
    is not positive, and (current - previous) / previous * 100
    otherwise, which [PriceService._format_price_with_change] rounds to
    2 decimal places and the prices API returns as it is. From 20.00
    thirty-six hours ago to 25.00 now the service reports 25.00. *)
Theorem price_change_percent_spec :
  forall utcnow history price,
    _format_price_with_change utcnow history price ==
      round2 (get_prices_price_change_percent utcnow history price)
    /\ ((forall r, ~ most_recent_older utcnow history price r) ->
        _format_price_with_change utcnow history price == 0
        /\ get_prices_price_change_percent utcnow history price == 0)
    /\ ((exists r, most_recent_older utcnow history price r) ->
        exists previous,
          previous_price_obj utcnow history price = Some previous
          /\ most_recent_older utcnow history price previous
          /\ (history_price previous <= 0 ->
              _format_price_with_change utcnow history price == 0
              /\ get_prices_price_change_percent utcnow history price == 0)
          /\ (0 < history_price previous ->
              let change :=
                (price_price price - history_price previous)
                / history_price previous * 100 in
              _format_price_with_change utcnow history price == round2 change
              /\ get_prices_price_change_percent utcnow history price == change))
    /\ (price_price price = 25 ->
        _format_price_with_change
          utcnow
          [mkPriceHistory (price_product_id price) (price_store_id price) 20 true
                          (utcnow - timedelta_hours 36)%Z]
          price == 25).
Proof.
  intros utcnow history price.
  unfold _format_price_with_change, get_prices_price_change_percent.
  split; [reflexivity|]. split; [|split].
  - intros Hnone.
    destruct (previous_price_obj utcnow history price) as [previous|] eqn:E.
    + exfalso. apply (Hnone previous). now apply previous_price_obj_some.
    + simpl. split; [apply round2_zero | reflexivity].
  - intros [r Hr].
    destruct (previous_price_obj utcnow history price) as [previous|] eqn:E.
    + exists previous. split; [reflexivity|].
      split; [now apply previous_price_obj_some|]. unfold change_percent. split.
      * intros Hle. apply Qle_bool_iff in Hle. rewrite Hle.
        split; [apply round2_zero | reflexivity].
      * intros Hlt.
        assert (Qle_bool (history_price previous) 0 = false) as ->.
        { destruct (Qle_bool (history_price previous) 0) eqn:Ele; [|reflexivity].
          apply Qle_bool_iff in Ele. exfalso. apply (Qlt_not_le _ _ Hlt Ele). }
        split; reflexivity.
    + exfalso. exact (previous_price_obj_none _ _ _ E r Hr).
  - intros Hprice.
    now apply (change_from_20_to_25 utcnow (price_product_id price)
                                    (price_store_id price) price).
Qed.

End PriceServiceFacts.

(** ** The functions on small inputs *)

Module Evaluations.
Import PyStr PyDict DataProcessor Ledger ScraperManager PriceService Examples.
Import CategoryClassifier.

(** The examples are strs of ASCII characters: the tables are
    [ascii_range]. *)

#[local] Existing Instance ascii_range.

Example split_trailing_comma : split "," "tomato, roma," = ["tomato"; " roma"; ""].
Proof. reflexivity. Qed.

Example split_empty_string : split "," "" = [""].
Proof. reflexivity. Qed.

Example strip_both_sides : strip "  Roma Tomato " = "Roma Tomato".
Proof. reflexivity. Qed.

Example lower_mixed_case : lower "Cherry Tomato Pack 500g" = "cherry tomato pack 500g".
Proof. reflexivity. Qed.

Example empty_string_in_any : contains "" "cucumber" = true.
Proof. reflexivity. Qed.

Example match_is_case_insensitive :
  _find_matching_product catalog "ROMA 1kg" = Some tomatoes.
Proof. reflexivity. Qed.

Example no_match_for_widget :
  _find_matching_product catalog "Unknown Widget" = None.
Proof. reflexivity. Qed.

Example word_boundary_needed : re_search_word "kale" "kaleidoscope" = false.
Proof. reflexivity. Qed.

Example classify_lettuce : classify category_keywords "Batavia Lettuce" = Some "B".
Proof. reflexivity. Qed.

Example classify_default : classify category_keywords "Unknown Widget" = Some "A".
Proof. reflexivity. Qed.

Example round2_half_to_even : (round2 (1 # 8) == 12 # 100)%Q.
Proof. vm_compute. reflexivity. Qed.

Example round2_third : (round2 (100 # 3) == 3333 # 100)%Q.
Proof. vm_compute. reflexivity. Qed.

Example no_old_history_no_change :
  (_format_price_with_change T [recorded 20 12] (price_at_T 25) == 0)%Q.
Proof. vm_compute. reflexivity. Qed.

(** The scenario of the specification: the cucumber gets its current
    price and one record, the widget gets nothing. *)
Example cucumber_and_widget :
  let db := process_scraped_data true false 500 db0 7
                                 [organic_cucumber; unknown_widget] in
  db_prices db = [new_price cucumbers 7 organic_cucumber]
  /\ db_price_history db = [history_entry 500 cucumbers 7 organic_cucumber].
Proof. split; reflexivity. Qed.

(** The same batch through the orchestrator's own save: a product is
    created for each name, no record is written. *)
Example cucumber_and_widget_saved :
  let result := _save_store_results true never_raises false
                                    [organic_cucumber; unknown_widget] store_S db0 in
  map product_name (db_products (fst result))
  = ["Cucumbers"; "Tomatoes"; "Organic Cucumber"; "Unknown Widget"]
  /\ List.length (db_prices (fst result)) = 2%nat
  /\ db_price_history (fst result) = []
  /\ snd result = 2%nat.
Proof. repeat split; reflexivity. Qed.

Example one_store_fails :
  let result := scrape_all_stores scrapers true never_raises commits 55 db0 in
  fst result = [("S", []); ("T", [organic_cucumber; unknown_widget]); ("U", [])]
  /\ map store_status (db_stores (snd result)) = ["offline"; "idle"; "idle"].
Proof. split; reflexivity. Qed.

End Evaluations.

(** ** The properties on concrete batches *)

Module Checks.
Import PyStr PyDict DataProcessor Ledger ScraperManager PriceService Examples.
Import CategoryClassifier MoreExamples.

(** The examples are strs of ASCII characters: the tables are
    [ascii_range]. *)

#[local] Existing Instance ascii_range.


(** C2 fails as stated. After [process_scraped_data] the current price
    holds the capture time of the item and the record the time of its
    insertion; after [_save_store_results] the current price has no
    history record at all. *)
Lemma snapshot_differs_from_latest_record :
  snapshot_equals_latest_record
    (process_scraped_data true false 500 db0 7 [organic_cucumber]) = false
  /\ snapshot_equals_latest_record
       (fst (_save_store_results true never_raises false [organic_cucumber]
                                 store_S db0)) = false.
Proof. split; vm_compute; reflexivity. Qed.

(** C3 fails as stated. Two items of one batch reconciled with the same
    product: one invocation appends two records for the pair. *)
Lemma two_items_of_one_pair_append_two_records :
  count_records 1 7 (db_price_history db0) = 0%nat
  /\ count_records 1 7
       (db_price_history
          (process_scraped_data true false 500 db0 7
                                [organic_cucumber; baby_cucumber])) = 2%nat
  /\ count_prices 1 7
       (db_prices
          (process_scraped_data true false 500 db0 7
                                [organic_cucumber; baby_cucumber])) = 1%nat.
Proof. repeat split; vm_compute; reflexivity. Qed.

(** C4 at a failing input. The percentage is to be rounded to 2 decimal
    places, as [PriceService._format_price_with_change] does. From 3.00
    thirty-six hours ago to 4.00 now the service reports 33.33; the
    prices API reports 100/3, which is not rounded. *)
Lemma prices_api_percent_is_not_rounded :
  (_format_price_with_change T [recorded 3 36] (price_at_T 4) == 3333 # 100)%Q
  /\ (get_prices_price_change_percent T [recorded 3 36] (price_at_T 4) == 100 # 3)%Q
  /\ ~ (get_prices_price_change_percent T [recorded 3 36] (price_at_T 4)
        == round2 (get_prices_price_change_percent T [recorded 3 36] (price_at_T 4)))%Q.
Proof.
  split; [vm_compute; reflexivity|]. split; [vm_compute; reflexivity|].
  vm_compute. discriminate.
Qed.

(** Without autoflush the queries of [process_scraped_data] do not see
    the rows added earlier in the run: two items reconciled with the
    same product leave two current prices for the pair. *)
Lemma no_autoflush_two_rows_for_one_pair :
  ~ sees_own_rows false (db_products db0) [organic_cucumber; baby_cucumber]
  /\ count_prices 1 7
       (db_prices
          (process_scraped_data false false 500 db0 7
                                [organic_cucumber; baby_cucumber])) = 2%nat.
Proof.
  split; [|vm_compute; reflexivity].
  intros [H | H]; [discriminate|].
  unfold distinct_matches in H. vm_compute in H.
  apply NoDup_cons_iff in H. destruct H as [H _]. apply H. now left.
Qed.

(** C7 fails as stated. [_save_store_results] leaves a price row for an
    item whose price is zero and whose name matches no catalog entry. *)
Lemma save_store_results_keeps_invalid_item :
  invalid free_widget = true
  /\ _find_matching_product catalog (pd_name free_widget) = None
  /\ db_prices (fst (_save_store_results true never_raises false [free_widget]
                                         store_S db0))
     = [build_price (new_product 3 free_widget) store_S free_widget].
Proof. repeat split; vm_compute; reflexivity. Qed.

(** C8 fails as stated. When the commit of a batch of two pairs raises,
    neither pair is written; [_save_store_results] then still returns
    the count of both. *)
Lemma failed_commit_loses_every_pair :
  process_scraped_data true true 500 db0 7 [organic_cucumber; cherry_tomato] = db0
  /\ List.length
       (db_prices (process_scraped_data true false 500 db0 7
                                        [organic_cucumber; cherry_tomato])) = 2%nat
  /\ _save_store_results true never_raises true [organic_cucumber; cherry_tomato]
                         store_S db0 = (Session.clean db0, 2%nat).
Proof. repeat split; vm_compute; reflexivity. Qed.


End Checks.

(** ** The theorems at concrete inputs *)

Module Witnesses.
Import PyStr PyDict DataProcessor Ledger ScraperManager PriceService Examples.
Import CategoryClassifier.

(** The examples are strs of ASCII characters: the tables are
    [ascii_range]. *)

#[local] Existing Instance ascii_range.

Lemma find_matching_product_first_match_witness :
  _find_matching_product catalog "Organic Cucumber" = Some cucumbers
  /\ (exists before after,
         catalog = before ++ cucumbers :: after
         /\ has_matching_keyword cucumbers "Organic Cucumber"
         /\ forall q, In q before -> ~ has_matching_keyword q "Organic Cucumber")
  /\ (forall s, split "," (lower s) = map lower (split "," s))
  /\ (forall s, strip (lower s) = lower (strip s))
  /\ has_stored_keyword cucumbers "Organic Cucumber".
Proof.
  destruct (MatchFacts.find_matching_product_first_match
              ascii_range catalog "Organic Cucumber")
    as [Hsome [_ Hstored]].
  destruct (Hsome cucumbers) as [Hfirst _].
  pose proof (Hfirst eq_refl) as Hsplit.
  destruct Hsplit as [before [after [Hcat [Hk Hnone]]]].
  refine (conj eq_refl (conj _ (conj PyStrFacts.split_lower
           (conj MatchFacts.strip_lower _)))).
  - exists before, after. auto.
  - apply (Hstored PyStrFacts.split_lower MatchFacts.strip_lower cucumbers). exact Hk.
Defined.


Lemma classify_B_before_A_witness :
  dict_get example_keywords "A" = Some ["tomato"]
  /\ dict_get example_keywords "B" = Some ["cherry tomato"]
  /\ some_word_match ["cherry tomato"] (lower "Cherry Tomato Pack 500g")
  /\ classify example_keywords "Cherry Tomato Pack 500g" = Some "B".
Proof.
  assert (some_word_match ["cherry tomato"] (lower "Cherry Tomato Pack 500g")) as Hm
      by (apply ClassifierFacts.keyword_loop_spec; reflexivity).
  destruct ClassifierFacts.classify_B_before_A as [Hcases _].
  destruct (Hcases ascii_range example_keywords ["tomato"] ["cherry tomato"]
                   "Cherry Tomato Pack 500g" eq_refl eq_refl) as [HB _].
  exact (conj eq_refl (conj eq_refl (conj Hm (HB Hm)))).
Defined.



Lemma process_scraped_data_keeps_ledger_consistent_witness :
  sees_own_rows true (db_products db0) [organic_cucumber; baby_cucumber; unknown_widget]
  /\ consistent db0
  /\ consistent (process_scraped_data true false 500 db0 7
                   [organic_cucumber; baby_cucumber; unknown_widget]).
Proof.
  assert (sees_own_rows true (db_products db0)
                        [organic_cucumber; baby_cucumber; unknown_widget]) as H1
      by (left; reflexivity).
  assert (consistent db0) as H2.
  { split; [intros p s; simpl; lia | intros row []]. }
  exact (conj H1 (conj H2
    (InvariantFacts.process_scraped_data_keeps_ledger_consistent
       true false 500 db0 7 [organic_cucumber; baby_cucumber; unknown_widget] H1 H2))).
Defined.

Lemma process_scraped_data_twice_witness :
  sees_own_rows true (db_products db0) [organic_cucumber; baby_cucumber; cherry_tomato]
  /\ unique_pairs (db_prices db0)
  /\ db_prices
       (process_scraped_data true false 900
          (process_scraped_data true false 500 db0 7
                                [organic_cucumber; baby_cucumber; cherry_tomato])
          7 [organic_cucumber; baby_cucumber; cherry_tomato])
     = db_prices
         (process_scraped_data true false 500 db0 7
                               [organic_cucumber; baby_cucumber; cherry_tomato]).
Proof.
  assert (sees_own_rows true (db_products db0)
                        [organic_cucumber; baby_cucumber; cherry_tomato]) as H1
      by (left; reflexivity).
  assert (unique_pairs (db_prices db0)) as H2 by (intros p s; simpl; lia).
  destruct (IdempotenceFacts.process_scraped_data_twice
              true 500 900 db0 7 [organic_cucumber; baby_cucumber; cherry_tomato]
              H1 H2) as [_ [_ [Hsame _]]].
  exact (conj H1 (conj H2 Hsame)).
Defined.

Lemma dropped_items_leave_no_row_witness :
  dropped (db_products db0) unknown_widget
  /\ process_scraped_data true false 500 db0 7
       ([organic_cucumber] ++ unknown_widget :: [cherry_tomato])
     = process_scraped_data true false 500 db0 7
         ([organic_cucumber] ++ [cherry_tomato]).
Proof.
  assert (dropped (db_products db0) unknown_widget) as H1
      by (right; right; reflexivity).
  destruct BatchTheorems.dropped_items_leave_no_row as [Hdrop _].
  exact (conj H1
    (Hdrop true false 500%Z db0 7%Z [organic_cucumber] unknown_widget
           [cherry_tomato] H1)).
Defined.

Lemma save_store_results_isolates_item_witness :
  NoDup (map product_id (db_products db0))
  /\ snd (_save_store_results true widget_raises false
            [organic_cucumber; unknown_widget; cherry_tomato] store_S db0) = 2%nat
  /\ exists product,
       find_product
         (db_products
            (fst (_save_store_results true widget_raises false
                    [organic_cucumber; unknown_widget; cherry_tomato] store_S db0)))
         (pd_name organic_cucumber) = Some product
       /\ In (build_price product store_S organic_cucumber)
             (db_prices
                (fst (_save_store_results true widget_raises false
                        [organic_cucumber; unknown_widget; cherry_tomato]
                        store_S db0))).
Proof.
  assert (NoDup (map product_id (db_products db0))) as H1.
  { repeat constructor; simpl; intuition discriminate. }
  destruct (BatchTheorems.save_store_results_isolates_item
              true widget_raises [organic_cucumber; unknown_widget; cherry_tomato]
              store_S db0 H1) as [Hcount [Hrows _]].
  split; [exact H1|]. split; [exact Hcount|].
  apply (Hrows [] organic_cucumber [unknown_widget; cherry_tomato]);
    [reflexivity | reflexivity |].
  intros later [<- | [<- | []]]; discriminate.
Defined.

Lemma price_change_percent_spec_witness :
  price_price (price_at_T 25) = 25%Q
  /\ (_format_price_with_change T [recorded 20 36] (price_at_T 25) == 25)%Q.
Proof.
  destruct (PriceServiceFacts.price_change_percent_spec T [recorded 20 36] (price_at_T 25))
    as [_ [_ [_ Hexample]]].
  exact (conj eq_refl (Hexample eq_refl)).
Defined.

End Witnesses.

(** * Further properties of the code *)

(** ** One store at a time *)

Module SingleStoreFacts.
Import PyStr PyDict ScraperManager ScraperManagerMore ScrapingTasks.
Import ScraperManagerFacts.

Section Tables.
Context {tables : Unicode}.

Lemma find_store_by_id_some stores id store :
  find_store_by_id stores id = Some store -> In store stores /\ store_id store = id.
Proof.
  unfold find_store_by_id. intros H. apply find_some in H.
  destruct H as [Hin Hid]. apply Z.eqb_eq in Hid. auto.
Qed.

Lemma find_write_store stores id store store' :
  find_store_by_id stores id = Some store -> store_id store' = id ->
  find_store_by_id (write_store id store' stores) id = Some store'.
Proof.
  unfold find_store_by_id. intros Hfind Hid.
  induction stores as [|s stores IH]; simpl in *; [discriminate|].
  destruct (Z.eqb_spec (store_id s) id) as [E|E]; simpl.
  - rewrite Hid, Z.eqb_refl. reflexivity.
  - apply Z.eqb_neq in E. rewrite E. auto.
Qed.

Lemma write_store_twice stores id a b :
  store_id a = id ->
  write_store id b (write_store id a stores) = write_store id b stores.
Proof.
  intros Hid. induction stores as [|s stores IH]; simpl; [reflexivity|].
  destruct (Z.eqb_spec (store_id s) id) as [E|E]; simpl.
  - now rewrite Hid, Z.eqb_refl.
  - apply Z.eqb_neq in E. now rewrite E, IH.
Qed.

Lemma write_store_other stores id store' i store :
  nth_error stores i = Some store -> store_id store <> id ->
  nth_error (write_store id store' stores) i = Some store.
Proof.
  revert i; induction stores as [|s stores IH]; intros i Hi Hne; [destruct i; discriminate|].
  simpl. destruct (Z.eqb_spec (store_id s) id) as [E|E].
  - destruct i; simpl in *; [congruence | exact Hi].
  - destruct i; simpl in *; [exact Hi | now apply IH].
Qed.

Lemma resolve_set_status scrapers status store :
  resolve scrapers (set_status status store) = resolve scrapers store.
Proof. reflexivity. Qed.

Lemma update_store_write stores id f store :
  find_store_by_id stores id = Some store ->
  update_store id f stores = write_store id (f store) stores.
Proof.
  unfold find_store_by_id.
  induction stores as [|s stores IH]; cbn; [discriminate|].
  destruct (store_id s =? id)%Z.
  - intros H. now injection H as ->.
  - intros H. now rewrite (IH H).
Qed.

Lemma write_store_same stores id store :
  find_store_by_id stores id = Some store -> write_store id store stores = stores.
Proof.
  unfold find_store_by_id.
  induction stores as [|s stores IH]; cbn; [reflexivity|].
  destruct (store_id s =? id)%Z.
  - intros H. now injection H as ->.
  - intros H. now rewrite (IH H).
Qed.

Lemma scrape_single_store_run
      scrapers autoflush raises commit_raises now later db id store scraper_class :
  find_store_by_id (db_stores db) id = Some store ->
  store_is_active store = true ->
  resolve scrapers store = Some scraper_class ->
  let result :=
    scrape_single_store scrapers autoflush raises commit_raises now later db id in
  db_stores (snd result)
  = write_store id (snd (single_outcome scraper_class commit_raises now later store))
                (db_stores db)
  /\ fst result = fst (single_outcome scraper_class commit_raises now later store).
Proof.
  intros Hfind Hactive Hresolve. cbv zeta.
  unfold scrape_single_store, single_outcome.
  rewrite Hfind, Hactive, Hresolve. cbn [negb].
  destruct (find_store_by_id_some _ _ _ Hfind) as [_ Hid].
  unfold except_clause, assign, commit_stores.
  cbn [Session.clean Session.rollback Session.durable Session.held
       set_stores db_stores].
  destruct (commit_raises CommitScraping).
  - rewrite (update_store_write _ _ _ _ Hfind).
    destruct (commit_raises CommitOffline); cbn [fst snd set_stores db_stores];
      [now rewrite write_store_same | split; reflexivity].
  - rewrite (update_store_write _ _ _ _ Hfind).
    assert (find_store_by_id
              (write_store id (set_status "scraping" store) (db_stores db)) id
            = Some (set_status "scraping" store)) as Hfind1
        by now apply (find_write_store _ _ store).
    destruct (_scrape_store_safe scraper_class now (set_status "scraping" store))
      as [store' products] eqn:Esafe.
    assert (store_id store' = id) as Hid'.
    { unfold _scrape_store_safe in Esafe.
      destruct (scraper_class (set_status "scraping" store));
        injection Esafe as <- _; exact Hid. }
    rewrite (update_store_write _ _ _ _ Hfind1), write_store_twice by exact Hid.
    match goal with
    | |- context [_save_store_results ?a ?r ?c ?p ?s ?d] =>
        destruct (save_store_results_stores a r c p s d) as [Hst Hheld];
        destruct (_save_store_results a r c p s d) as [db' saved]
    end.
    cbn [fst snd Session.held Session.durable db_stores set_stores] in *.
    rewrite Hheld, Hst.
    assert (find_store_by_id
              (if commit_raises CommitSave
               then write_store id (set_status "scraping" store) (db_stores db)
               else write_store id store' (db_stores db)) id
            = Some (if commit_raises CommitSave
                    then set_status "scraping" store else store')) as Hfind2
        by (destruct (commit_raises CommitSave);
            now apply (find_write_store _ _ store)).
    rewrite !(update_store_write _ _ _ _ Hfind2).
    assert (forall row,
               write_store id row
                 (if commit_raises CommitSave
                  then write_store id (set_status "scraping" store) (db_stores db)
                  else write_store id store' (db_stores db))
               = write_store id row (db_stores db)) as Htwice
        by (intros row; destruct (commit_raises CommitSave);
            now apply write_store_twice).
    destruct (commit_raises CommitIdle);
      [destruct (commit_raises CommitOffline)|];
      cbn [fst snd set_stores db_stores Session.durable Session.clean];
      rewrite ?Htwice; split; try reflexivity.
    rewrite Hst. now destruct (commit_raises CommitSave).
Qed.

Lemma single_outcome_id scraper_class commit_raises now later store :
  store_id (snd (single_outcome scraper_class commit_raises now later store))
  = store_id store.
Proof.
  unfold single_outcome, _scrape_store_safe.
  destruct (commit_raises CommitScraping), (commit_raises CommitIdle),
    (commit_raises CommitOffline), (commit_raises CommitSave),
    (scraper_class (set_status "scraping" store)); reflexivity.
Qed.

(** X1. For a store that is there, is active and has a scraper:
    when the commits of its two status writes succeed,
    [scrape_single_store] leaves it in status "idle" with
    [last_scraped] set and returns what [_scrape_store_safe] returned,
    the empty list when the adapter raised; when one of the two raises,
    the [except] clause leaves it "offline" and the call returns the
    empty list, or the exception leaves the call when the commit of the
    clause raises as well. No other row of the store table changes. *)
Theorem scrape_single_store_ends_idle :
  forall scrapers autoflush raises commit_raises now later db id store scraper_class,
    find_store_by_id (db_stores db) id = Some store ->
    store_is_active store = true ->
    resolve scrapers store = Some scraper_class ->
    let result :=
      scrape_single_store scrapers autoflush raises commit_raises now later db id in
    let status_commit_raises :=
      commit_raises CommitScraping || commit_raises CommitIdle in
    (status_commit_raises = false ->
     (exists store',
         find_store_by_id (db_stores (snd result)) id = Some store'
         /\ store_status store' = "idle"
         /\ store_last_scraped store' = Some later)
     /\ fst result
        = Returns match scraper_class (set_status "scraping" store) with
                  | Returned products => products
                  | Raised _ => []
                  end)
    /\ (status_commit_raises = true -> commit_raises CommitOffline = false ->
        (exists store',
            find_store_by_id (db_stores (snd result)) id = Some store'
            /\ store_status store' = "offline")
        /\ fst result = Returns [])
    /\ (status_commit_raises = true -> commit_raises CommitOffline = true ->
        fst result = Raises)
    /\ (forall i other, nth_error (db_stores db) i = Some other ->
                        store_id other <> id ->
                        nth_error (db_stores (snd result)) i = Some other).
Proof.
  intros scrapers autoflush raises commit_raises now later db id store scraper_class
         Hfind Hactive Hresolve result status_commit_raises.
  destruct (scrape_single_store_run scrapers autoflush raises commit_raises now later
              db id store scraper_class Hfind Hactive Hresolve) as [Hstores Hlist].
  fold result in Hstores, Hlist.
  destruct (find_store_by_id_some _ _ _ Hfind) as [_ Hid].
  assert (find_store_by_id (db_stores (snd result)) id
          = Some (snd (single_outcome scraper_class commit_raises now later store)))
    as Hrow.
  { rewrite Hstores. apply (find_write_store _ _ store); [exact Hfind|].
    now rewrite single_outcome_id. }
  subst status_commit_raises. rewrite Hrow, Hlist. unfold single_outcome.
  split; [|split; [|split]].
  - intros Hok. apply orb_false_iff in Hok. destruct Hok as [-> ->].
    split; [eexists; split; [reflexivity | split; reflexivity]|].
    cbn [fst]. unfold _scrape_store_safe.
    now destruct (scraper_class (set_status "scraping" store)).
  - intros Hfail ->.
    destruct (commit_raises CommitScraping);
      [|cbn in Hfail; rewrite Hfail];
      (split; [eexists; split; reflexivity | reflexivity]).
  - intros Hfail ->.
    destruct (commit_raises CommitScraping);
      [|cbn in Hfail; rewrite Hfail]; reflexivity.
  - intros i other Hi Hne. rewrite Hstores. now apply write_store_other.
Qed.

Lemma scrape_single_store_guard
      scrapers autoflush raises commit_raises now later db id :
  (find_store_by_id (db_stores db) id = None
   \/ exists store, find_store_by_id (db_stores db) id = Some store
                    /\ (store_is_active store = false
                        \/ resolve scrapers store = None)) ->
  scrape_single_store scrapers autoflush raises commit_raises now later db id
  = (Returns [], db).
Proof.
  unfold scrape_single_store.
  intros [-> | [store [-> [-> | Hres]]]]; try reflexivity.
  destruct (store_is_active store); simpl; [now rewrite Hres | reflexivity].
Qed.

(** X2. The number [scrape_store_task] returns is 0 exactly when the
    store is missing, is inactive or has no scraper, or when, for a
    store that can be scraped, the commit of one of its two status
    writes raised, its adapter raised or its adapter found nothing; in
    the first three cases the database is left as it was. *)
Theorem scrape_store_task_zero :
  forall scrapers autoflush raises commit_raises now later db id,
    let guarded :=
      find_store_by_id (db_stores db) id = None
      \/ exists store, find_store_by_id (db_stores db) id = Some store
                       /\ (store_is_active store = false
                           \/ resolve scrapers store = None) in
    let empty_handed :=
      exists store scraper_class,
        find_store_by_id (db_stores db) id = Some store
        /\ store_is_active store = true
        /\ resolve scrapers store = Some scraper_class
        /\ (commit_raises CommitScraping = true
            \/ commit_raises CommitIdle = true
            \/ (exists error,
                   scraper_class (set_status "scraping" store) = Raised error)
            \/ scraper_class (set_status "scraping" store) = Returned []) in
    (fst (scrape_store_task scrapers autoflush raises commit_raises now later db id)
     = 0%nat <-> guarded \/ empty_handed)
    /\ (guarded ->
        scrape_store_task scrapers autoflush raises commit_raises now later db id
        = (0%nat, db)).
Proof.
  intros scrapers autoflush raises commit_raises now later db id guarded empty_handed.
  assert (guarded ->
          scrape_store_task scrapers autoflush raises commit_raises now later db id
          = (0%nat, db)) as Hguard.
  { intros Hg. unfold scrape_store_task.
    now rewrite (scrape_single_store_guard _ _ _ _ _ _ _ _ Hg). }
  assert (forall store scraper_class,
             find_store_by_id (db_stores db) id = Some store ->
             store_is_active store = true ->
             resolve scrapers store = Some scraper_class ->
             fst (scrape_store_task scrapers autoflush raises commit_raises
                                    now later db id)
             = match fst (single_outcome scraper_class commit_raises now later store)
               with
               | Returns products_data => List.length products_data
               | Raises => 0%nat
               end) as Hcount.
  { intros store scraper_class Hfind Hactive Hres.
    destruct (scrape_single_store_run scrapers autoflush raises commit_raises now later
                db id store scraper_class Hfind Hactive Hres) as [_ Hlist].
    unfold scrape_store_task.
    destruct (scrape_single_store _ _ _ _ _ _ _ _) as [result db'].
    cbn [fst] in *. now subst result. }
  split; [|exact Hguard]. split.
  - intros Hzero.
    destruct (find_store_by_id (db_stores db) id) as [store|] eqn:Hfind;
      [|left; now left].
    destruct (store_is_active store) eqn:Hactive;
      [|left; right; exists store; auto].
    destruct (resolve scrapers store) as [scraper_class|] eqn:Hres;
      [|left; right; exists store; auto].
    right. exists store, scraper_class. repeat split; auto.
    rewrite (Hcount store scraper_class eq_refl Hactive Hres) in Hzero.
    unfold single_outcome, _scrape_store_safe in Hzero.
    destruct (commit_raises CommitScraping); [now left|].
    destruct (commit_raises CommitIdle); [right; now left|].
    right; right. cbn [fst snd] in Hzero.
    destruct (scraper_class (set_status "scraping" store)) as [error|products].
    + left. now exists error.
    + right. destruct products; [reflexivity | discriminate].
  - intros [Hg | [store [scraper_class [Hfind [Hactive [Hres Hout]]]]]].
    + now rewrite (Hguard Hg).
    + rewrite (Hcount store scraper_class Hfind Hactive Hres).
      unfold single_outcome, _scrape_store_safe.
      destruct Hout as [-> | [-> | [[error ->] | ->]]];
        repeat match goal with
               | |- context [if ?b then _ else _] => destruct b
               end; reflexivity.
Qed.

End Tables.

End SingleStoreFacts.

(** ** The scraper endpoints and the store statuses *)

Module ScraperApiFacts.
Import PyStr PyDict ScraperManager ScraperManagerMore ScrapingTasks ScraperApi.
Import ScraperManagerFacts SingleStoreFacts.

Section Tables.
Context {tables : Unicode}.

Lemma after_task_inactive scrapers now stores :
  filter store_is_active stores = [] ->
  map (after_task scrapers now) stores = stores.
Proof.
  induction stores as [|store rest IH]; simpl; [reflexivity|].
  destruct (store_is_active store) eqn:Ea; [discriminate|].
  intros H. unfold after_task at 1. rewrite Ea. now rewrite IH.
Qed.

(** The store table a batch leaves, whether a store is attempted or not. *)
Lemma scrape_all_stores_table scrapers autoflush raises commit_raises now db :
  db_stores (snd (scrape_all_stores scrapers autoflush raises commit_raises now db))
  = if statuses_committed scrapers commit_raises (db_stores db)
    then map (after_task scrapers now) (db_stores db)
    else db_stores db.
Proof.
  now destruct (scrape_all_stores_spec scrapers autoflush raises commit_raises now db).
Qed.

Lemma after_task_status scrapers now store :
  store_status (after_task scrapers now store) =
  if store_is_active store then
    match resolve scrapers store with
    | Some scraper_class =>
        match scraper_class store with
        | Returned _ => "idle"
        | Raised _ => "offline"
        end
    | None => store_status store
    end
  else store_status store.
Proof.
  unfold after_task, _scrape_store_safe.
  destruct (store_is_active store); [|reflexivity].
  destruct (resolve scrapers store) as [scraper_class|]; [|reflexivity].
  destruct (scraper_class store); reflexivity.
Qed.

(** X3. [trigger_scraping] for one store marks it "scraping" before it
    is known to have a scraper. When the scraper does not resolve, the
    task it adds leaves the store in "scraping". When it resolves, the
    task resets the status to "idle" if the commits of its two status
    writes succeed, and its [except] clause sets "offline" if one of
    them raises and the commit of the clause does not. *)
Theorem trigger_then_scrape_store :
  forall scrapers autoflush raises commit_raises store_commit_raises now later
         db id store,
    id <> 0%Z ->
    find_store_by_id (db_stores db) id = Some store ->
    store_is_active store = true ->
    let status_commit_raises :=
      store_commit_raises CommitScraping || store_commit_raises CommitIdle in
    exists message db1,
      trigger_scraping db (Some id)
      = Response (TriggeredStore message id, db1, ScrapeStoreTask id)
      /\ find_store_by_id (db_stores db1) id = Some (set_status "scraping" store)
      /\ (resolve scrapers store = None ->
          run_task scrapers autoflush raises commit_raises store_commit_raises
                   now later db1 (ScrapeStoreTask id) = db1)
      /\ (resolve scrapers store <> None ->
          exists store',
            find_store_by_id
              (db_stores (run_task scrapers autoflush raises commit_raises
                                   store_commit_raises now later
                                   db1 (ScrapeStoreTask id))) id = Some store'
            /\ (status_commit_raises = false -> store_status store' = "idle")
            /\ (status_commit_raises = true ->
                store_commit_raises CommitOffline = false ->
                store_status store' = "offline")).
Proof.
  intros scrapers autoflush raises commit_raises store_commit_raises now later
         db id store Hid Hfind Hactive status_commit_raises.
  destruct (find_store_by_id_some _ _ _ Hfind) as [_ Hkey].
  eexists. eexists. split.
  { unfold trigger_scraping. apply Z.eqb_neq in Hid. rewrite Hid, Hfind, Hactive.
    reflexivity. }
  set (db1 := set_stores db (write_store id (set_status "scraping" store) (db_stores db))).
  assert (find_store_by_id (db_stores db1) id = Some (set_status "scraping" store))
    as Hfind1 by (apply (find_write_store _ _ store); [exact Hfind | exact Hkey]).
  split; [exact Hfind1|]. split.
  - intros Hnone. unfold run_task, scrape_store_task.
    rewrite scrape_single_store_guard; [reflexivity|].
    right. exists (set_status "scraping" store). split; [exact Hfind1|].
    right. exact Hnone.
  - intros Hsome.
    destruct (resolve scrapers store) as [scraper_class|] eqn:Hres; [|congruence].
    unfold run_task, scrape_store_task.
    match goal with
    | |- context [scrape_single_store ?s ?a ?r ?c ?n ?l ?d ?i] =>
        destruct (scrape_single_store_run s a r c n l d i
                    (set_status "scraping" store) scraper_class Hfind1 Hactive Hres)
          as [Hstores _];
        destruct (scrape_single_store s a r c n l d i) as [products db2]
    end.
    cbn [fst snd] in *.
    eexists. rewrite Hstores. split.
    + apply (find_write_store _ _ (set_status "scraping" store)); [exact Hfind1|].
      rewrite single_outcome_id. exact Hkey.
    + subst status_commit_raises. unfold single_outcome. split.
      * intros Hok. apply orb_false_iff in Hok. destruct Hok as [-> ->]. reflexivity.
      * intros Hfail ->.
        destruct (store_commit_raises CommitScraping);
          [|cbn in Hfail; rewrite Hfail]; reflexivity.
Qed.

Lemma nth_error_mark_active stores i store :
  nth_error stores i = Some store ->
  nth_error (mark_active_scraping stores) i =
  Some (if store_is_active store then set_status "scraping" store else store).
Proof. intros H. unfold mark_active_scraping. now rewrite nth_error_map, H. Qed.

Lemma attempted_mark_active scrapers stores :
  filter (attempted scrapers) (mark_active_scraping stores)
  = map (set_status "scraping") (filter (attempted scrapers) stores).
Proof.
  unfold mark_active_scraping.
  induction stores as [|store stores IH]; [reflexivity|]. cbn [map filter].
  destruct (store_is_active store) eqn:Ea.
  - change (attempted scrapers (set_status "scraping" store))
      with (attempted scrapers store).
    destruct (attempted scrapers store); cbn [map]; now rewrite IH.
  - assert (attempted scrapers store = false) as ->
        by (unfold attempted; now rewrite Ea).
    exact IH.
Qed.

Lemma statuses_committed_mark_active scrapers commit_raises stores :
  statuses_committed scrapers commit_raises (mark_active_scraping stores)
  = statuses_committed scrapers commit_raises stores.
Proof.
  unfold statuses_committed. rewrite attempted_mark_active.
  now destruct (filter (attempted scrapers) stores).
Qed.

(** X4. [trigger_scraping] for all stores marks every active store
    "scraping". After the task it adds, an inactive store is as it was
    and an active store without a scraper is still "scraping". A store
    that was attempted is "idle" or "offline", as its adapter returned
    or raised, when the commit that ends the first saved batch, which
    writes the statuses, succeeds; when that commit raises, it is still
    "scraping". *)
Theorem trigger_then_scrape_all :
  forall scrapers autoflush raises commit_raises store_commit_raises now later db,
    filter store_is_active (db_stores db) <> [] ->
    exists message db1,
      trigger_scraping db None
      = Response (TriggeredAll message
                               (List.length (filter store_is_active (db_stores db))),
                  db1, ScrapeAllStoresTask)
      /\ forall i store,
           nth_error (db_stores db) i = Some store ->
           exists store',
             nth_error
               (db_stores (run_task scrapers autoflush raises commit_raises
                                    store_commit_raises now later
                                    db1 ScrapeAllStoresTask)) i = Some store'
             /\ (store_is_active store = false -> store' = store)
             /\ (store_is_active store = true -> resolve scrapers store = None ->
                 store' = set_status "scraping" store)
             /\ (store_is_active store = true ->
                 forall scraper_class,
                   resolve scrapers store = Some scraper_class ->
                   store_status store' =
                   if statuses_committed scrapers commit_raises (db_stores db)
                   then match scraper_class (set_status "scraping" store) with
                        | Returned _ => "idle"
                        | Raised _ => "offline"
                        end
                   else "scraping").
Proof.
  intros scrapers autoflush raises commit_raises store_commit_raises now later db
         Hactive.
  eexists. eexists. split.
  { unfold trigger_scraping.
    destruct (filter store_is_active (db_stores db)) eqn:E; [congruence|].
    reflexivity. }
  intros i store Hi. unfold run_task, scrape_all_stores_task.
  match goal with
  | |- context [scrape_all_stores ?s ?a ?r ?c ?n ?d] =>
      pose proof (scrape_all_stores_table s a r c n d) as Htable;
      destruct (scrape_all_stores s a r c n d) as [results db2]
  end.
  cbn [fst snd] in *. cbn [set_stores db_stores] in Htable.
  rewrite statuses_committed_mark_active in Htable. rewrite Htable.
  destruct (statuses_committed scrapers commit_raises (db_stores db)).
  - rewrite nth_error_map, (nth_error_mark_active _ _ _ Hi). cbn [option_map].
    eexists. split; [reflexivity|].
    destruct (store_is_active store) eqn:Ea.
    + split; [discriminate|]. split.
      * intros _ Hnone. unfold after_task. rewrite resolve_set_status.
        change (store_is_active (set_status "scraping" store))
          with (store_is_active store).
        now rewrite Ea, Hnone.
      * intros _ scraper_class Hres. rewrite after_task_status, resolve_set_status.
        change (store_is_active (set_status "scraping" store))
          with (store_is_active store).
        now rewrite Ea, Hres.
    + split; [|split; discriminate].
      intros _. unfold after_task. now rewrite Ea.
  - rewrite (nth_error_mark_active _ _ _ Hi).
    eexists. split; [reflexivity|].
    destruct (store_is_active store); repeat split; try discriminate; reflexivity.
Qed.

Lemma with_status_cons status store stores :
  with_status status (store :: stores) =
  ((if String.eqb (store_status store) status then 1 else 0)
   + with_status status stores)%nat.
Proof.
  unfold with_status. simpl.
  destruct (String.eqb (store_status store) status); reflexivity.
Qed.

(** X5. After [stop_scraping] no store is "scraping": the stores that
    were are "idle", their number is the one returned, every other
    store is as it was, and a second call changes nothing. *)
Theorem stop_scraping_resets :
  forall db,
    let affected := fst (stop_scraping db) in
    let db' := snd (stop_scraping db) in
    affected = with_status "scraping" (db_stores db)
    /\ with_status "scraping" (db_stores db') = 0%nat
    /\ with_status "idle" (db_stores db')
       = (with_status "idle" (db_stores db) + affected)%nat
    /\ (forall i store,
           nth_error (db_stores db) i = Some store ->
           nth_error (db_stores db') i =
           Some (if String.eqb (store_status store) "scraping"
                 then set_status "idle" store else store))
    /\ stop_scraping db' = (0%nat, db').
Proof.
  intros db. cbv zeta. unfold stop_scraping. cbn [fst snd set_stores db_stores].
  fold (with_status "scraping" (db_stores db)).
  set (reset := fun store : Store =>
                  if String.eqb (store_status store) "scraping"
                  then set_status "idle" store else store).
  assert (forall stores, with_status "scraping" (map reset stores) = 0%nat) as Hnone.
  { induction stores as [|s stores IH]; [reflexivity|].
    cbn [map]. rewrite with_status_cons, IH. unfold reset.
    destruct (String.eqb (store_status s) "scraping") eqn:E; cbn; [reflexivity|].
    now rewrite E. }
  assert (forall stores, map reset (map reset stores) = map reset stores) as Hidem.
  { intros stores. rewrite map_map. apply map_ext. intros s. unfold reset.
    destruct (String.eqb (store_status s) "scraping") eqn:E; cbn; [reflexivity|].
    now rewrite E. }
  split; [reflexivity|]. split; [apply Hnone|]. split; [|split].
  - induction (db_stores db) as [|s stores IH]; [reflexivity|].
    cbn [map]. rewrite !with_status_cons, IH. unfold reset at 1.
    destruct (String.eqb_spec (store_status s) "scraping") as [E|E].
    + cbn. rewrite E. cbn. lia.
    + destruct (String.eqb (store_status s) "idle"); lia.
  - intros i store Hi. now rewrite nth_error_map, Hi.
  - fold (with_status "scraping" (map reset (db_stores db))).
    rewrite Hnone, Hidem. reflexivity.
Qed.

Lemma known_status_cases status :
  known_status status = true ->
  status = "idle" \/ status = "scraping" \/ status = "online" \/ status = "offline".
Proof.
  unfold known_status. rewrite !orb_true_iff, !String.eqb_eq. tauto.
Qed.

(** X6. When every status is one of "idle", "scraping", "online" and
    "offline", the four counters of [get_scraping_status] add up to
    [total_stores]. *)
Theorem get_scraping_status_partition :
  forall db,
    all_known db ->
    let status := get_scraping_status db in
    (scraping status + online status + offline status + idle status)%nat
    = total_stores status.
Proof.
  intros db Hknown. cbv zeta. unfold get_scraping_status. cbn.
  unfold all_known in Hknown.
  induction (db_stores db) as [|s stores IH]; [reflexivity|].
  rewrite !with_status_cons. cbn [List.length].
  assert (known_status (store_status s) = true) as Hs by (apply Hknown; now left).
  specialize (IH (fun store H => Hknown store (or_intror H))).
  destruct (known_status_cases _ Hs) as [-> | [-> | [-> | ->]]]; cbn; lia.
Qed.

Lemma all_known_map (f : Store -> Store) db stores :
  all_known db ->
  db_stores db = stores ->
  (forall store, known_status (store_status store) = true ->
                 known_status (store_status (f store)) = true) ->
  forall store, In store (map f stores) -> known_status (store_status store) = true.
Proof.
  intros Hknown <- Hf store Hin. apply in_map_iff in Hin.
  destruct Hin as [s [<- Hs]]. apply Hf. now apply Hknown.
Qed.

Lemma in_write_store id store' stores s :
  In s (write_store id store' stores) -> s = store' \/ In s stores.
Proof.
  induction stores as [|x stores IH]; simpl; [tauto|].
  destruct (store_id x =? id)%Z; simpl; intuition.
Qed.

(** X7. The statuses stay within "idle", "scraping", "online" and
    "offline": [trigger_scraping], [stop_scraping], [scrape_all_stores]
    and [scrape_single_store] write no other status. *)
Theorem statuses_stay_known :
  forall scrapers autoflush raises commit_raises now later db,
    all_known db ->
    (forall store_id_ response db' task,
        trigger_scraping db store_id_ = Response (response, db', task) ->
        all_known db')
    /\ all_known (snd (stop_scraping db))
    /\ all_known (snd (scrape_all_stores scrapers autoflush raises commit_raises now db))
    /\ (forall commit_raises' id,
           all_known (snd (scrape_single_store scrapers autoflush raises commit_raises'
                                               now later db id))).
Proof.
  intros scrapers autoflush raises commit_raises now later db Hknown.
  split; [|split; [|split]].
  - intros store_id_ response db' task. unfold trigger_scraping.
    destruct (match store_id_ with
              | Some id => if (id =? 0)%Z then None else Some id
              | None => None
              end) as [id|].
    + destruct (find_store_by_id (db_stores db) id) as [store|]; [|discriminate].
      destruct (store_is_active store); cbn [negb]; [|discriminate].
      intros H. injection H as _ <- _. intros s Hs.
      apply in_write_store in Hs. destruct Hs as [-> | Hs]; [reflexivity|].
      now apply Hknown.
    + destruct (filter store_is_active (db_stores db)); [discriminate|].
      intros H. injection H as _ <- _.
      unfold all_known, mark_active_scraping. cbn [set_stores db_stores].
      apply (all_known_map _ db _ Hknown eq_refl).
      intros store Hs. destruct (store_is_active store); [reflexivity | exact Hs].
  - unfold stop_scraping, all_known. cbn [snd set_stores db_stores].
    apply (all_known_map _ db _ Hknown eq_refl).
    intros store Hs.
    destruct (String.eqb (store_status store) "scraping"); [reflexivity | exact Hs].
  - unfold all_known. rewrite scrape_all_stores_table.
    destruct (statuses_committed scrapers commit_raises (db_stores db));
      [|exact Hknown].
    apply (all_known_map _ db _ Hknown eq_refl).
    intros store Hs. rewrite after_task_status.
    destruct (store_is_active store); [|exact Hs].
    destruct (resolve scrapers store) as [scraper_class|]; [|exact Hs].
    destruct (scraper_class store); reflexivity.
  - intros commit_raises' id.
    destruct (find_store_by_id (db_stores db) id) as [store|] eqn:Hfind.
    + destruct (store_is_active store) eqn:Hactive.
      * destruct (resolve scrapers store) as [scraper_class|] eqn:Hres.
        -- destruct (scrape_single_store_run scrapers autoflush raises commit_raises'
                      now later db id store scraper_class Hfind Hactive Hres)
             as [Hstores _].
           assert (known_status (store_status store) = true) as Hstore
               by (apply Hknown; now apply (find_store_by_id_some _ id)).
           intros s Hs. rewrite Hstores in Hs. apply in_write_store in Hs.
           destruct Hs as [-> | Hs]; [|now apply Hknown].
           unfold single_outcome, _scrape_store_safe.
           destruct (commit_raises' CommitScraping), (commit_raises' CommitIdle),
             (commit_raises' CommitOffline), (commit_raises' CommitSave),
             (scraper_class (set_status "scraping" store));
             try reflexivity; exact Hstore.
        -- rewrite scrape_single_store_guard; [exact Hknown|].
           right. exists store. auto.
      * rewrite scrape_single_store_guard; [exact Hknown|].
        right. exists store. auto.
    + rewrite scrape_single_store_guard; [exact Hknown | now left].
Qed.

End Tables.

End ScraperApiFacts.

(** ** The search across stores and the summaries of the tasks *)

Module SummaryFacts.
Import PyStr PyDict PyDictFacts ScraperManager ScraperManagerMore ScrapingTasks.
Import ScraperManagerFacts.

Section Tables.
Context {tables : Unicode}.

Lemma search_tasks_spec scrapers product_name stores :
  search_tasks scrapers product_name stores =
  (map store_name (filter (searched scrapers) stores),
   map (fun store => inr (search_result scrapers product_name store))
       (filter (searched scrapers) stores)).
Proof.
  induction stores as [|store rest IH]; simpl; [reflexivity|].
  rewrite IH.
  destruct (store_is_active store) eqn:Ea;
    [destruct (resolve_in scrapers store) as [scraper_class|] eqn:Er|].
  - assert (searched scrapers store = true) as ->
        by (unfold searched; now rewrite Ea, Er).
    simpl.
    assert (search_result scrapers product_name store
            = _search_product_in_store scraper_class store product_name) as ->
        by (unfold search_result; now rewrite Er).
    reflexivity.
  - assert (searched scrapers store = false) as ->
        by (unfold searched; now rewrite Ea, Er).
    reflexivity.
  - assert (searched scrapers store = false) as ->
        by (unfold searched; now rewrite Ea).
    reflexivity.
Qed.

Lemma dict_set_keys_present {V} (d : list (string * V)) k v :
  In k (map fst d) -> map fst (dict_set d k v) = map fst d.
Proof.
  induction d as [|[k0 v0] d IH]; simpl; [tauto|].
  destruct (String.eqb_spec k0 k) as [E|E]; simpl; [reflexivity|].
  intros [H | H]; [contradiction|]. now rewrite IH.
Qed.

(** A dictionary has each key once. *)
Lemma dict_set_nodup {V} (d : list (string * V)) k v :
  NoDup (map fst d) -> NoDup (map fst (dict_set d k v)).
Proof.
  intros Hnd. destruct (in_dec string_dec k (map fst d)) as [Hin | Hout].
  - now rewrite dict_set_keys_present.
  - rewrite dict_set_keys_new by exact Hout.
    apply NoDup_app; [exact Hnd | repeat constructor; intros [] |].
    intros x Hx [<- | []]. contradiction.
Qed.

Lemma collect_nodup store_names results :
  forall d, NoDup (map fst d) -> NoDup (map fst (collect store_names results d)).
Proof.
  revert results; induction store_names as [|name names IH];
    intros [|[e|r] results] d Hnd; simpl; auto using @dict_set_nodup.
Qed.

Lemma total_of_from results n :
  fold_left (fun total entry => (total + List.length (snd entry))%nat) results n =
  (n + list_sum (map (fun entry : string * list ProductData => List.length (snd entry))
                     results))%nat.
Proof.
  revert n; induction results as [|e results IH]; intros n; simpl; [lia|].
  rewrite IH. lia.
Qed.

Lemma counts_of_from (results : list (string * list ProductData)) :
  forall counts,
    NoDup (map fst counts ++ map fst results) ->
    fold_left (fun counts entry => dict_set counts (fst entry) (List.length (snd entry)))
              results counts =
    counts ++ map (fun entry => (fst entry, List.length (snd entry))) results.
Proof.
  induction results as [|e results IH]; intros counts Hnd; simpl.
  - now rewrite app_nil_r.
  - assert (~ In (fst e) (map fst counts)) as Hout.
    { intros Hin. apply NoDup_remove_2 in Hnd. apply Hnd.
      apply in_or_app. now left. }
    assert (dict_set counts (fst e) (List.length (snd e))
            = counts ++ [(fst e, List.length (snd e))]) as Hset.
    { clear - Hout. induction counts as [|[k v] counts IHc]; simpl; [reflexivity|].
      simpl in Hout. destruct (String.eqb_spec k (fst e)) as [E|E]; [tauto|].
      rewrite IHc by tauto. reflexivity. }
    rewrite Hset, IH.
    + now rewrite <- app_assoc.
    + rewrite map_app. simpl. rewrite <- app_assoc. exact Hnd.
Qed.

Lemma dict_set_fresh {V} (d : list (string * V)) k v :
  ~ In k (map fst d) -> dict_set d k v = d ++ [(k, v)].
Proof.
  induction d as [|[k0 v0] d IH]; simpl; intros Hout; [reflexivity|].
  destruct (String.eqb_spec k0 k); [tauto|]. rewrite IH by tauto. reflexivity.
Qed.

(** With distinct keys the collecting loop lists the results in order. *)
Lemma collect_distinct {A} (f : A -> list ProductData) (g : A -> string) l :
  forall d,
    NoDup (map g l) ->
    (forall k, In k (map g l) -> ~ In k (map fst d)) ->
    collect (map g l) (map (fun a => inr (f a)) l) d
    = d ++ map (fun a => (g a, f a)) l.
Proof.
  induction l as [|a l IH]; intros d Hnd Hd; simpl.
  - now rewrite app_nil_r.
  - simpl in Hnd. apply NoDup_cons_iff in Hnd. destruct Hnd as [Ha Hnd].
    rewrite dict_set_fresh by (apply Hd; now left).
    rewrite IH; [now rewrite <- app_assoc | exact Hnd |].
    intros k Hk. rewrite map_app. simpl. intros Hin.
    apply in_app_or in Hin. destruct Hin as [Hin | [<- | []]].
    + apply (Hd k); [now right | exact Hin].
    + contradiction.
Qed.

(** The summary of a dictionary of results. *)
Lemma summarize_spec results :
  NoDup (map fst results) ->
  summary_stores (summarize results) = List.length results
  /\ summary_results (summarize results)
     = map (fun entry => (fst entry, List.length (snd entry))) results
  /\ summary_total (summarize results)
     = list_sum (map snd (summary_results (summarize results))).
Proof.
  intros Hnd. unfold summarize, total_of, counts_of. cbn.
  rewrite total_of_from, (counts_of_from results []) by exact Hnd.
  split; [reflexivity|]. split; [reflexivity|].
  cbn. rewrite map_map. reflexivity.
Qed.

Lemma scrape_all_stores_keys_nodup scrapers autoflush raises commit_raises now db :
  NoDup (map fst (fst (scrape_all_stores scrapers autoflush raises commit_raises now db))).
Proof.
  unfold scrape_all_stores.
  destruct (filter store_is_active (db_stores db)); [constructor|].
  destruct (run_tasks scrapers now (db_stores db)) as [[stores' names] results].
  destruct (_save_all_results _ _ _ _ _) as [db' total]. cbn [fst].
  apply collect_nodup. constructor.
Qed.

(** X8. The summary [scrape_all_stores_task] returns is consistent:
    ["stores_scraped"] is the number of entries of ["results"] and
    ["total_products"] is the sum of its counts. When the attempted
    stores have distinct names there is one entry per attempted store,
    with the length of the list its adapter returned, and 0 for a store
    whose adapter raised, which is counted among the stores scraped. *)
Theorem scrape_all_stores_task_summary :
  forall scrapers autoflush raises commit_raises now db,
    let summary :=
      fst (scrape_all_stores_task scrapers autoflush raises commit_raises now db) in
    let attempted_stores := filter (attempted scrapers) (db_stores db) in
    summary_stores summary = List.length (summary_results summary)
    /\ summary_total summary = list_sum (map snd (summary_results summary))
    /\ (NoDup (map store_name attempted_stores) ->
        summary_results summary
        = map (fun store => (store_name store,
                             List.length (task_result scrapers now store)))
              attempted_stores
        /\ forall store error,
             In store attempted_stores ->
             adapter_outcome scrapers store = Some (Raised error) ->
             dict_get (summary_results summary) (store_name store) = Some 0%nat).
Proof.
  intros scrapers autoflush raises commit_raises now db. cbv zeta.
  unfold scrape_all_stores_task.
  pose proof (scrape_all_stores_keys_nodup scrapers autoflush raises commit_raises now db)
    as Hkeys.
  destruct (scrape_all_stores scrapers autoflush raises commit_raises now db)
    as [results db'] eqn:Erun. cbn [fst] in *.
  destruct (summarize_spec results Hkeys) as [Hn [Hr Ht]].
  split; [now rewrite Hn, Hr, length_map|]. split; [exact Ht|].
  intros Hnd.
  assert (map (fun entry : string * list ProductData =>
                 (fst entry, List.length (snd entry))) results
          = map (fun store => (store_name store,
                               List.length (task_result scrapers now store)))
                (filter (attempted scrapers) (db_stores db))) as Hmap.
  { destruct (scrape_all_stores_spec scrapers autoflush raises commit_raises now db)
      as [Hres _].
    cbv zeta in Hres. rewrite Erun in Hres. cbn [fst] in Hres.
    rewrite (collect_distinct (task_result scrapers now) store_name) in Hres;
      [| exact Hnd | intros k _ []].
    cbn [app] in Hres. rewrite Hres, map_map. reflexivity. }
  split; [now rewrite Hr|].
  intros store error Hin Hraised. rewrite Hr, Hmap.
  destruct (task_result_raised scrapers now store error Hraised) as [Hempty _].
  clear - Hin Hnd Hempty.
  induction (filter (attempted scrapers) (db_stores db)) as [|a l IH];
    [destruct Hin|].
  simpl in Hnd. apply NoDup_cons_iff in Hnd. destruct Hnd as [Ha Hnd].
  cbn [map dict_get]. destruct Hin as [-> | Hin].
  - now rewrite String.eqb_refl, Hempty.
  - destruct (String.eqb_spec (store_name a) (store_name store)) as [E|E].
    + exfalso. apply Ha. rewrite E. now apply in_map.
    + now apply IH.
Qed.

(** X9. With distinct names among the stores searched,
    [search_product_across_stores] has one entry per active store whose
    scraper resolves: the list the search returned, or the empty list
    when the search raised. A store that is inactive or has no scraper
    has no entry unless a searched store bears its name. *)
Theorem search_product_across_stores_entries :
  forall scrapers db product_name,
    let results := search_product_across_stores scrapers db product_name in
    let searched_stores := filter (searched scrapers) (db_stores db) in
    NoDup (map store_name searched_stores) ->
    map fst results = map store_name searched_stores
    /\ (forall store scraper_class,
           In store searched_stores ->
           resolve_in scrapers store = Some scraper_class ->
           dict_get results (store_name store) =
           Some match scraper_class store product_name with
                | Returned found => found
                | Raised _ => []
                end)
    /\ (forall name, ~ In name (map store_name searched_stores) ->
                     dict_get results name = None).
Proof.
  intros scrapers db product_name results searched_stores Hnd.
  subst results searched_stores. unfold search_product_across_stores.
  rewrite search_tasks_spec. split; [|split].
  - rewrite collect_keys; [reflexivity | exact Hnd | intros k _ []].
  - intros store scraper_class Hin Hres.
    rewrite (collect_get (search_result scrapers product_name) store_name)
      by assumption.
    unfold search_result, _search_product_in_store. now rewrite Hres.
  - intros name Hout.
    now rewrite (collect_other (search_result scrapers product_name) store_name).
Qed.

End Tables.

End SummaryFacts.

(** ** What [process_scraped_data] touches *)

Module ProcessFrameFacts.
Import PyStr DataProcessor Ledger SessionFacts DropFacts.

Section Tables.
Context {tables : Unicode}.

Lemma view_before_query autoflush s :
  view (Session.before_query autoflush s) = view s.
Proof. destruct autoflush; [apply view_flush | reflexivity]. Qed.

Lemma update_first_frame (keep : Price -> bool) f g rows rows' :
  (forall r, f r = true -> keep r = false) ->
  (forall r, keep (g r) = keep r) ->
  update_first f g rows = Some rows' ->
  filter keep rows' = filter keep rows.
Proof.
  intros Hf Hg. revert rows'; induction rows as [|r rows IH]; intros rows';
    simpl; [discriminate|].
  destruct (f r) eqn:E.
  - intros H. injection H as <-. simpl. now rewrite Hg, (Hf r E).
  - destruct (update_first f g rows) as [t|]; [|discriminate].
    intros H. injection H as <-. simpl. now rewrite (IH t eq_refl).
Qed.

Lemma for_pair_not_other p store_id r :
  for_pair p store_id r = true -> of_other_store store_id r = false.
Proof.
  unfold for_pair, of_other_store. intros H.
  apply andb_true_iff in H. destruct H as [_ H]. now rewrite H.
Qed.

(** One item: the catalog, the stores and the prices of the other stores
    stay; a processed item appends its record. *)
Lemma process_item_frame autoflush now store_id s item :
  let s' := process_item autoflush now store_id s item in
  Session.products s' = Session.products s
  /\ Session.stores s' = Session.stores s
  /\ filter (of_other_store store_id) (fst (view s'))
     = filter (of_other_store store_id) (fst (view s))
  /\ snd (view s')
     = snd (view s)
       ++ match matched (Session.products s) item with
          | Some product => [history_entry now product store_id item]
          | None => []
          end.
Proof.
  cbv zeta. unfold process_item.
  destruct (invalid item) eqn:Einv.
  - rewrite (matched_invalid _ _ Einv). now rewrite app_nil_r.
  - rewrite (matched_valid _ _ Einv).
    pose proof (view_before_query autoflush s) as Hv.
    assert (Session.products (Session.before_query autoflush s) = Session.products s)
      as Hp by (destruct autoflush; reflexivity).
    assert (Session.stores (Session.before_query autoflush s) = Session.stores s)
      as Hs by (destruct autoflush; reflexivity).
    rewrite Hp.
    destruct (_find_matching_product (Session.products s) (pd_name item))
      as [db_product|].
    + assert (Session.before_query autoflush (Session.before_query autoflush s)
              = Session.before_query autoflush s) as ->
          by (destruct autoflush; [apply flush_flush | reflexivity]).
      set (t := Session.before_query autoflush s) in *.
      rewrite <- Hv. unfold view.
      destruct (update_first _ _ (Session.prices t)) as [rows|] eqn:Eup; cbn.
      * rewrite !filter_app.
        rewrite (update_first_frame (of_other_store store_id)
                   (for_pair (product_id db_product) store_id)
                   (update_price item) _ _
                   (for_pair_not_other (product_id db_product) store_id)
                   (fun r => eq_refl) Eup).
        now rewrite <- app_assoc.
      * rewrite !filter_app. cbn. unfold of_other_store at 3. cbn.
        rewrite Z.eqb_refl. cbn. rewrite app_nil_r, <- app_assoc. auto.
    + rewrite Hv, app_nil_r. auto.
Qed.

Lemma process_loop_frame autoflush now store_id items :
  forall s,
    let s' := process_loop autoflush now store_id s items in
    Session.products s' = Session.products s
    /\ Session.stores s' = Session.stores s
    /\ filter (of_other_store store_id) (fst (view s'))
       = filter (of_other_store store_id) (fst (view s))
    /\ snd (view s')
       = snd (view s) ++ records_of now store_id (Session.products s) items.
Proof.
  unfold records_of.
  induction items as [|item rest IH]; intros s; cbn [process_loop processed map].
  - now rewrite app_nil_r.
  - destruct (process_item_frame autoflush now store_id s item) as [Hp [Hs [Hf Hh]]].
    destruct (IH (process_item autoflush now store_id s item)) as [Hp' [Hs' [Hf' Hh']]].
    cbv zeta in *. rewrite Hp', Hs', Hf', Hh', Hp, Hs, Hf, Hh.
    destruct (matched (Session.products s) item); cbn [map];
      rewrite <- ?app_assoc; auto.
Qed.

(** X10. [process_scraped_data] never writes the catalog or the store
    table, and never touches the current prices of another store,
    whatever the batch, the session setting and the outcome of the
    commit. *)
Theorem process_scraped_data_frame :
  forall autoflush commit_raises now db store_id items,
    let db' := process_scraped_data autoflush commit_raises now db store_id items in
    db_products db' = db_products db
    /\ db_stores db' = db_stores db
    /\ filter (of_other_store store_id) (db_prices db')
       = filter (of_other_store store_id) (db_prices db).
Proof.
  intros autoflush commit_raises now db store_id items. cbv zeta.
  destruct commit_raises; [now rewrite process_scraped_data_rolled_back|].
  rewrite process_scraped_data_commit, commit_view.
  cbn [db_products db_stores db_prices].
  destruct (process_loop_frame autoflush now store_id items (Session.begin db))
    as [Hp [Hs [Hf _]]].
  cbv zeta in *. rewrite Hp, Hs, Hf, view_begin. auto.
Qed.

(** X11. The history is append-only under [process_scraped_data]: when
    the commit succeeds the records that were there stay, in their
    order, and one record is appended per processed item, in the order
    of the batch, with the price and the availability of the item;
    when the commit raises the history is as it was. This holds whether
    or not the session flushes before a query. *)
Theorem process_scraped_data_appends_history :
  forall autoflush now db store_id items,
    db_price_history (process_scraped_data autoflush false now db store_id items)
    = db_price_history db ++ records_of now store_id (db_products db) items
    /\ List.length (records_of now store_id (db_products db) items)
       = List.length (filter (kept (db_products db)) items)
    /\ db_price_history (process_scraped_data autoflush true now db store_id items)
       = db_price_history db.
Proof.
  intros autoflush now db store_id items. split; [|split].
  - rewrite process_scraped_data_commit, commit_view. cbn [db_price_history].
    destruct (process_loop_frame autoflush now store_id items (Session.begin db))
      as [_ [_ [_ Hh]]].
    cbv zeta in Hh. now rewrite Hh, view_begin.
  - unfold records_of. rewrite length_map.
    induction items as [|item rest IH]; [reflexivity|].
    cbn [processed filter]. unfold kept at 1.
    destruct (matched (db_products db) item); cbn [List.length]; now rewrite IH.
  - now rewrite process_scraped_data_rolled_back.
Qed.

End Tables.

End ProcessFrameFacts.

(** ** What [_save_store_results] touches *)

Module SaveFrameFacts.
Import PyStr PyStrFacts DataProcessor MatchFacts Ledger ScraperManager.
Import SessionFacts SaveFacts BatchTheorems ProcessFrameFacts.

Section Tables.
Context {tables : Unicode}.

Lemma filter_other_delete product_id store_id l :
  filter (of_other_store store_id) (delete_prices product_id store_id l)
  = filter (of_other_store store_id) l.
Proof.
  unfold delete_prices. induction l as [|r l IH]; [reflexivity|]. cbn [filter].
  destruct (for_pair product_id store_id r) eqn:E; cbn [negb filter].
  - now rewrite (for_pair_not_other _ _ _ E).
  - destruct (of_other_store store_id r); now rewrite IH.
Qed.

Lemma build_price_not_other product store item :
  of_other_store (store_id store) (build_price product store item) = false.
Proof. unfold of_other_store. cbn. now rewrite Z.eqb_refl. Qed.

Lemma history_before_query autoflush s :
  Session.price_history (Session.before_query autoflush s)
  ++ Session.new_history (Session.before_query autoflush s)
  = Session.price_history s ++ Session.new_history s.
Proof. destruct autoflush; cbn; [now rewrite app_nil_r | reflexivity]. Qed.

Section Frame.

Variables (autoflush : bool) (raises : ProductData -> bool) (store : Store).

Lemma save_item_frame s saved_count product_data :
  let s' := fst (save_item autoflush raises store (s, saved_count) product_data) in
  Session.stores s' = Session.stores s
  /\ snd (view s') = snd (view s)
  /\ Session.products s'
     = Session.products s ++ created_products (Session.products s) [product_data]
  /\ filter (of_other_store (store_id store)) (rows s')
     = filter (of_other_store (store_id store)) (rows s).
Proof.
  cbv zeta. rewrite save_item_eq. rewrite products_before_query.
  cbn [created_products].
  assert (forall t, Session.stores (Session.before_query autoflush t) = Session.stores t)
    as Hst by (intros t; destruct autoflush; reflexivity).
  assert (forall t p, filter (of_other_store (store_id store))
                        (delete_prices p (store_id store) (Session.prices t)
                         ++ Session.new_prices t)
                      = filter (of_other_store (store_id store)) (rows t)) as Hdel
    by (intros t p; now rewrite !filter_app, filter_other_delete).
  destruct (find_product (Session.products s) (pd_name product_data)) as [q|];
    destruct (raises product_data); cbn [fst];
    unfold view; cbn [Session.stores Session.products Session.prices
                      Session.price_history Session.new_prices Session.new_history
                      Session.set_prices Session.add_price snd];
    rewrite ?Hst, ?products_before_query, ?history_before_query.
  - rewrite app_nil_r, Hdel, !rows_before_query. auto.
  - rewrite app_nil_r, app_assoc, filter_app, Hdel, !rows_before_query.
    cbn [filter]. rewrite build_price_not_other, app_nil_r. auto.
  - rewrite Hdel, rows_before_query. cbn. rewrite !app_nil_r.
    rewrite ?Hst, ?products_before_query, history_before_query.
    fold (rows (Session.before_query autoflush s)). rewrite rows_before_query. auto.
  - rewrite app_assoc, filter_app, Hdel, rows_before_query.
    cbn [filter]. rewrite build_price_not_other. cbn. rewrite !app_nil_r.
    rewrite ?Hst, ?products_before_query, history_before_query.
    fold (rows (Session.before_query autoflush s)). rewrite rows_before_query. auto.
Qed.

Lemma save_loop_frame products :
  forall s saved_count,
    let s' := fst (save_loop autoflush raises store (s, saved_count) products) in
    Session.stores s' = Session.stores s
    /\ snd (view s') = snd (view s)
    /\ Session.products s'
       = Session.products s ++ created_products (Session.products s) products
    /\ filter (of_other_store (store_id store)) (rows s')
       = filter (of_other_store (store_id store)) (rows s).
Proof.
  induction products as [|product_data rest IH]; intros s saved_count;
    cbn [save_loop].
  - cbn. now rewrite app_nil_r.
  - destruct (save_item_frame s saved_count product_data) as [Hs [Hh [Hp Hf]]].
    destruct (save_item autoflush raises store (s, saved_count) product_data)
      as [s1 n1].
    destruct (IH s1 n1) as [Hs' [Hh' [Hp' Hf']]].
    cbv zeta in *. cbn [fst] in *. rewrite Hs', Hh', Hp', Hf', Hs, Hh, Hp, Hf.
    cbn [created_products].
    destruct (find_product (Session.products s) (pd_name product_data));
      rewrite <- ?app_assoc; cbn [app]; rewrite ?app_nil_r; auto.
Qed.

End Frame.

Lemma find_product_app_cases products extra name :
  find_product (products ++ extra) name =
  match find_product products name with
  | Some p => Some p
  | None => find_product extra name
  end.
Proof.
  unfold find_product. induction products as [|q products IH]; cbn; [reflexivity|].
  now destruct (String.eqb (product_name q) name).
Qed.

(** A created entry is named after an item of the batch whose name the
    catalog did not hold, and is keyed above every entry before it. *)
Lemma created_products_spec products :
  forall catalog product,
    In product (created_products catalog products) ->
    exists product_data,
      In product_data products
      /\ find_product catalog (pd_name product_data) = None
      /\ product_name product = pd_name product_data
      /\ product_keywords product = lower (pd_name product_data)
      /\ product_is_active product = true
      /\ (forall q, In q catalog -> (product_id q < product_id product)%Z).
Proof.
  induction products as [|product_data rest IH]; intros catalog product Hin;
    [destruct Hin|].
  cbn [created_products] in Hin.
  destruct (find_product catalog (pd_name product_data)) as [q|] eqn:Ef.
  - destruct (IH catalog product Hin) as [x [Hx H]]. exists x. split; [now right | exact H].
  - destruct Hin as [<- | Hin].
    + exists product_data. repeat split; auto; [now left|].
      intros q Hq. cbn. now apply next_id_fresh.
    + destruct (IH _ product Hin) as [x [Hx [Hnone [Hn [Hk [Ha Hid]]]]]].
      exists x. repeat split; auto; [now right | |].
      * rewrite find_product_app_cases in Hnone.
        destruct (find_product catalog (pd_name x)); [discriminate | reflexivity].
      * intros q Hq. apply Hid. apply in_or_app. now left.
Qed.

(** Every name of the batch that the catalog did not hold has its entry
    among the created ones. *)
Lemma created_products_complete products :
  forall catalog product_data,
    In product_data products ->
    find_product catalog (pd_name product_data) = None ->
    exists product,
      In product (created_products catalog products)
      /\ product_keywords product = lower (pd_name product_data).
Proof.
  induction products as [|first rest IH]; intros catalog product_data Hin Hnone;
    [destruct Hin|].
  cbn [created_products].
  destruct (String.eqb_spec (pd_name first) (pd_name product_data)) as [E | E].
  - rewrite E, Hnone. eexists. split; [now left|]. cbn. now rewrite E.
  - destruct Hin as [-> | Hin]; [congruence|].
    destruct (find_product catalog (pd_name first)) as [q|].
    + exact (IH catalog product_data Hin Hnone).
    + destruct (IH (catalog ++ [new_product (next_id catalog) first]) product_data Hin)
        as [product [Hp Hk]].
      * rewrite find_product_app_cases, Hnone. unfold find_product. cbn.
        destruct (String.eqb_spec (pd_name first) (pd_name product_data));
          [congruence | reflexivity].
      * exists product. split; [now right | exact Hk].
Qed.

Lemma view_resume (db : Session.handle) :
  view (Session.resume db) = (db_prices db, db_price_history db).
Proof. unfold view; cbn. now rewrite !app_nil_r. Qed.

(** The catalog a batch that commits leaves. *)
Lemma save_store_results_products autoflush raises products store
  (db : Session.handle) :
  db_products (fst (_save_store_results autoflush raises false products store db))
  = db_products db ++ created_products (db_products db) products.
Proof.
  rewrite save_store_results_db, commit_view. cbn [db_products].
  destruct (save_loop_frame autoflush raises store products (Session.resume db) 0%nat)
    as [_ [_ [Hp _]]].
  exact Hp.
Qed.

(** The current prices of the other stores stay. *)
Lemma save_store_results_other_stores autoflush raises commit_raises products store
  (db : Session.handle) :
  filter (of_other_store (store_id store))
         (db_prices (fst (_save_store_results autoflush raises commit_raises
                                              products store db)))
  = filter (of_other_store (store_id store)) (db_prices db).
Proof.
  destruct commit_raises; [now rewrite save_store_results_rolled_back|].
  rewrite save_store_results_db, commit_view. cbn [db_prices].
  destruct (save_loop_frame autoflush raises store products (Session.resume db) 0%nat)
    as [_ [_ [_ Hf]]].
  cbv zeta in Hf. unfold view. cbn [fst]. rewrite Hf. cbn. now rewrite app_nil_r.
Qed.

(** The history stays. *)
Lemma save_store_results_history autoflush raises commit_raises products store
  (db : Session.handle) :
  db_price_history (fst (_save_store_results autoflush raises commit_raises
                                             products store db))
  = db_price_history db.
Proof.
  destruct commit_raises; [now rewrite save_store_results_rolled_back|].
  rewrite save_store_results_db, commit_view. cbn [db_price_history].
  destruct (save_loop_frame autoflush raises store products (Session.resume db) 0%nat)
    as [_ [Hh _]].
  cbv zeta in Hh. now rewrite Hh, view_resume.
Qed.

(** X12. [_save_store_results] only appends to the catalog, one entry
    per name it did not hold, named after the item with the lowered
    name as its keywords; it never writes the history and it leaves the
    current prices of every other store as they were, whatever the
    batch, the exceptions of its items and the outcome of the commit.
    It assigns to no store, but its commit and its rollback are those
    of the session of the caller: the commit writes the store rows the
    session holds, the rollback discards them, and either way the
    session holds no write afterwards. *)
Theorem save_store_results_frame :
  forall autoflush raises commit_raises products store (db : Session.handle),
    let db' := fst (_save_store_results autoflush raises commit_raises
                                        products store db) in
    db_stores db' = (if commit_raises then db_stores db else Session.held db)
    /\ Session.held db' = db_stores db'
    /\ db_price_history db' = db_price_history db
    /\ filter (of_other_store (store_id store)) (db_prices db')
       = filter (of_other_store (store_id store)) (db_prices db)
    /\ exists created,
         db_products db' = db_products db ++ created
         /\ (commit_raises = false ->
             created = created_products (db_products db) products)
         /\ forall product, In product created ->
              exists product_data,
                In product_data products
                /\ find_product (db_products db) (pd_name product_data) = None
                /\ product_name product = pd_name product_data
                /\ product_keywords product = lower (pd_name product_data)
                /\ product_is_active product = true
                /\ (forall q, In q (db_products db) ->
                      (product_id q < product_id product)%Z).
Proof.
  intros autoflush raises commit_raises products store db. cbv zeta.
  destruct (ScraperManagerFacts.save_store_results_stores
              autoflush raises commit_raises products store db) as [Hs Hh].
  split; [exact Hs|]. split; [exact Hh|].
  split; [apply save_store_results_history|].
  split; [apply save_store_results_other_stores|].
  destruct commit_raises.
  - rewrite save_store_results_rolled_back.
    exists []. cbn. rewrite app_nil_r. repeat split; [discriminate | intros ? []].
  - rewrite save_store_results_products.
    exists (created_products (db_products db) products).
    repeat split; auto. apply created_products_spec.
Qed.

End Tables.

End SaveFrameFacts.

(** ** One current price per pair under [_save_store_results] *)

Module SaveUniqueFacts.
Import PyStr PyStrFacts DataProcessor MatchFacts Ledger ScraperManager.
Import SessionFacts SaveFacts BatchTheorems ProcessFrameFacts SaveFrameFacts.
Import ScraperManagerFacts.

Section Tables.
Context {tables : Unicode}.

Lemma count_delete_own product_id store_id l :
  count_prices product_id store_id (delete_prices product_id store_id l) = 0%nat.
Proof.
  unfold count_prices, delete_prices. induction l as [|r l IH]; [reflexivity|].
  cbn [filter]. destruct (for_pair product_id store_id r) eqn:E; cbn [negb filter];
    [exact IH | now rewrite E].
Qed.

Lemma count_delete_le p s product_id store_id l :
  (count_prices p s (delete_prices product_id store_id l) <= count_prices p s l)%nat.
Proof.
  unfold count_prices, delete_prices. induction l as [|r l IH]; [reflexivity|].
  cbn [filter]. destruct (for_pair product_id store_id r); cbn [negb filter];
    destruct (for_pair p s r); cbn [List.length]; lia.
Qed.

Lemma for_pair_eq p s r :
  for_pair p s r = true -> price_product_id r = p /\ price_store_id r = s.
Proof.
  unfold for_pair. intros H. apply andb_true_iff in H. destruct H as [H1 H2].
  apply Z.eqb_eq in H1, H2. auto.
Qed.

Lemma for_pair_build p s product store item :
  for_pair p s (build_price product store item) = true ->
  p = product_id product /\ s = store_id store.
Proof. intros H. apply for_pair_eq in H. cbn in H. destruct H; auto. Qed.

(** With a flush before every query, an item leaves the rows without
    those of its pair, then its own row unless building it raised. *)
Lemma save_item_rows raises store s saved_count product_data :
  exists product,
    rows (fst (save_item true raises store (s, saved_count) product_data))
    = delete_prices (product_id product) (store_id store) (rows s)
      ++ (if raises product_data then []
          else [build_price product store product_data]).
Proof.
  rewrite save_item_eq.
  destruct (find_product _ (pd_name product_data)) as [q|];
    [exists q | exists (new_product (next_id (Session.products s)) product_data)];
    destruct (raises product_data);
    unfold Session.before_query, Session.flush, Session.set_prices,
      Session.add_price, Session.set_products;
    cbn [fst Session.prices Session.new_prices Session.products app];
    rewrite ?app_nil_r; reflexivity.
Qed.

Lemma unique_pairs_save_item raises store s saved_count product_data :
  unique_pairs (rows s) ->
  unique_pairs (rows (fst (save_item true raises store (s, saved_count) product_data))).
Proof.
  intros Hu p st.
  destruct (save_item_rows raises store s saved_count product_data) as [q ->].
  rewrite filter_app, length_app.
  fold (count_prices p st (delete_prices (product_id q) (store_id store) (rows s))).
  destruct (raises product_data); cbn [filter List.length].
  - pose proof (count_delete_le p st (product_id q) (store_id store) (rows s)).
    pose proof (Hu p st). unfold count_prices in *. lia.
  - destruct (for_pair p st (build_price q store product_data)) eqn:E.
    + apply for_pair_build in E. destruct E as [-> ->].
      rewrite count_delete_own. cbn. lia.
    + pose proof (count_delete_le p st (product_id q) (store_id store) (rows s)).
      pose proof (Hu p st). unfold count_prices in *. cbn. lia.
Qed.

Lemma unique_pairs_save_loop raises store products :
  forall s saved_count,
    unique_pairs (rows s) ->
    unique_pairs (rows (fst (save_loop true raises store (s, saved_count) products))).
Proof.
  induction products as [|product_data rest IH]; intros s saved_count Hu;
    cbn [save_loop]; [exact Hu|].
  pose proof (unique_pairs_save_item raises store s saved_count product_data Hu) as H.
  destruct (save_item true raises store (s, saved_count) product_data) as [s1 n1].
  now apply IH.
Qed.

(** X13. When the session flushes before a query, as a session does
    unless it is configured otherwise, [_save_store_results] keeps the
    current prices at one row at most per (product, store) pair,
    whatever the batch holds: names that repeat, items that raise, a
    commit that fails. *)
Theorem save_store_results_keeps_pairs_unique :
  forall raises commit_raises products store db,
    unique_pairs (db_prices db) ->
    unique_pairs
      (db_prices (fst (_save_store_results true raises commit_raises
                                           products store db))).
Proof.
  intros raises commit_raises products store db Hu.
  destruct commit_raises.
  - now rewrite save_store_results_rolled_back.
  - rewrite save_store_results_committed. cbn [fst]. rewrite commit_view.
    cbn [db_prices]. unfold view. cbn [fst].
    apply unique_pairs_save_loop. cbn. now rewrite app_nil_r.
Qed.

(** The count [_save_store_results] returns. *)
Lemma save_store_results_count autoflush raises commit_raises products store
  (db : Session.handle) :
  snd (_save_store_results autoflush raises commit_raises products store db)
  = count_saved raises products.
Proof.
  unfold _save_store_results, count_saved.
  pose proof (save_loop_count autoflush raises store products (Session.resume db) 0%nat)
    as H.
  destruct (save_loop _ _ _ _ _) as [s n]. cbn [snd] in H.
  destruct commit_raises; cbn [snd]; rewrite H; reflexivity.
Qed.

(** The rows a batch writes depend on the store by its key alone, and
    not on the store rows the session holds. *)
Lemma save_item_tables autoflush raises store store' s s' n product_data :
  store_id store = store_id store' ->
  Session.tables s = Session.tables s' ->
  Session.tables (fst (save_item autoflush raises store (s, n) product_data))
  = Session.tables (fst (save_item autoflush raises store' (s', n) product_data))
  /\ snd (save_item autoflush raises store (s, n) product_data)
     = snd (save_item autoflush raises store' (s', n) product_data).
Proof.
  intros Hid H. destruct s as [st pr ps hs nps nhs], s' as [st' pr' ps' hs' nps' nhs'].
  unfold Session.tables in H. cbn in H.
  injection H as -> -> -> -> ->.
  rewrite !save_item_eq. cbv zeta. rewrite !products_before_query.
  cbn [Session.products]. unfold build_price. rewrite Hid.
  destruct (find_product pr' (pd_name product_data));
    destruct (raises product_data); destruct autoflush; split; reflexivity.
Qed.

Lemma save_loop_tables autoflush raises store store' products :
  forall s s' n,
    store_id store = store_id store' ->
    Session.tables s = Session.tables s' ->
    Session.tables (fst (save_loop autoflush raises store (s, n) products))
    = Session.tables (fst (save_loop autoflush raises store' (s', n) products)).
Proof.
  induction products as [|product_data rest IH]; intros s s' n Hid H;
    cbn [save_loop]; [exact H|].
  destruct (save_item_tables autoflush raises store store' s s' n product_data Hid H)
    as [Ht Hn].
  destruct (save_item autoflush raises store (s, n) product_data) as [s1 n1].
  destruct (save_item autoflush raises store' (s', n) product_data) as [s1' n1'].
  cbn [fst snd] in *. subst n1'. now apply IH.
Qed.

Lemma commit_tables s s' :
  Session.tables s = Session.tables s' ->
  same_tables (Session.commit s) (Session.commit s').
Proof.
  destruct s, s'. unfold Session.tables. cbn. intros H.
  injection H as -> -> -> -> ->. repeat split.
Qed.

Lemma save_store_results_tables autoflush raises products store store'
  (db db' : Session.handle) :
  store_id store = store_id store' ->
  same_tables db db' ->
  same_tables (fst (_save_store_results autoflush raises false products store db))
              (fst (_save_store_results autoflush raises false products store' db')).
Proof.
  intros Hid [Hp [Hr Hh]]. rewrite !save_store_results_db.
  apply commit_tables, save_loop_tables; [exact Hid|].
  unfold Session.tables, Session.resume. cbn. now rewrite Hp, Hr, Hh.
Qed.

Lemma save_store_results_keys autoflush raises commit_raises products store
  (db : Session.handle) :
  keys_of (Session.held db) = keys_of (db_stores db) ->
  let db' := fst (_save_store_results autoflush raises commit_raises
                                      products store db) in
  keys_of (Session.held db') = keys_of (Session.held db)
  /\ keys_of (db_stores db') = keys_of (Session.held db).
Proof.
  intros Hk. cbv zeta.
  destruct (save_store_results_stores autoflush raises commit_raises products store db)
    as [Hs Hh].
  rewrite Hh, Hs. destruct commit_raises; auto.
Qed.

Lemma save_all_results_step autoflush raises commit_raises name products rest
  (db : Session.handle) :
  _save_all_results autoflush raises commit_raises ((name, products) :: rest) db
  = match find_store (Session.held db) name with
    | Some store =>
        (fst (_save_all_results autoflush raises commit_raises rest
                (fst (_save_store_results autoflush raises (commit_raises name)
                                          products store db))),
         (snd (_save_store_results autoflush raises (commit_raises name)
                                   products store db)
          + snd (_save_all_results autoflush raises commit_raises rest
                   (fst (_save_store_results autoflush raises (commit_raises name)
                                             products store db))))%nat)
    | None => _save_all_results autoflush raises commit_raises rest db
    end.
Proof.
  cbn [_save_all_results].
  destruct (find_store (Session.held db) name); [|reflexivity].
  destruct (_save_store_results _ _ _ _ _ _) as [db' saved]. cbn [fst snd].
  now destruct (_save_all_results _ _ _ _ _).
Qed.

Lemma save_all_results_tables autoflush raises commit_raises all_results :
  forall db db' : Session.handle,
    same_tables db db' ->
    keys_of (Session.held db) = keys_of (db_stores db) ->
    keys_of (Session.held db') = keys_of (db_stores db') ->
    keys_of (Session.held db) = keys_of (Session.held db') ->
    same_tables
      (fst (_save_all_results autoflush raises commit_raises all_results db))
      (fst (_save_all_results autoflush raises (fun _ => false)
              (filter (fun entry => negb (commit_raises (fst entry))) all_results)
              db'))
    /\ snd (_save_all_results autoflush raises commit_raises all_results db)
       = list_sum
           (map (fun entry =>
                   match find_store (Session.held db) (fst entry) with
                   | Some _ => count_saved raises (snd entry)
                   | None => 0%nat
                   end) all_results).
Proof.
  induction all_results as [|[name products] rest IH];
    intros db db' Hsame Hk Hk' Hkk; [split; [exact Hsame | reflexivity]|].
  rewrite save_all_results_step. cbn [filter fst snd map list_sum].
  pose proof (find_store_keys _ _ name Hkk) as Hfind.
  destruct (find_store (Session.held db) name) as [store|] eqn:Ef.
  - destruct (find_store (Session.held db') name) as [store'|] eqn:Ef';
      [|discriminate].
    cbn in Hfind. injection Hfind as Hid.
    pose proof (save_store_results_count autoflush raises (commit_raises name)
                  products store db) as Hc.
    destruct (save_store_results_keys autoflush raises (commit_raises name)
                products store db Hk) as [Hk1 Hk2].
    cbv zeta in Hk1, Hk2.
    assert (forall entry,
               match find_store
                       (Session.held
                          (fst (_save_store_results autoflush raises
                                  (commit_raises name) products store db)))
                       (fst entry) with
               | Some _ => count_saved raises (snd entry)
               | None => 0%nat
               end
               = match find_store (Session.held db) (fst entry) with
                 | Some _ => count_saved raises (snd entry)
                 | None => 0%nat
                 end) as Hsamefind.
    { intros entry. pose proof (find_store_keys _ _ (fst entry) Hk1) as H.
      destruct (find_store (Session.held (fst _)) (fst entry)),
        (find_store (Session.held db) (fst entry)); try discriminate; reflexivity. }
    cbn [fst snd]. rewrite Hc.
    destruct (commit_raises name) eqn:Ec; cbn [negb].
    + destruct (IH (fst (_save_store_results autoflush raises true products store db))
                   db') as [IH1 IH2].
      * rewrite save_store_results_rolled_back. exact Hsame.
      * now rewrite Hk1, Hk2.
      * exact Hk'.
      * now rewrite Hk1.
      * split; [exact IH1|]. rewrite IH2. unfold list_sum. cbn [fold_right].
        do 2 f_equal. apply map_ext. exact Hsamefind.
    + rewrite save_all_results_step, Ef'. cbn [fst].
      destruct (save_store_results_keys autoflush raises false
                  products store' db' Hk') as [Hk1' Hk2'].
      cbv zeta in Hk1', Hk2'.
      destruct (IH (fst (_save_store_results autoflush raises false products store db))
                   (fst (_save_store_results autoflush raises false products store'
                                             db')))
        as [IH1 IH2].
      * now apply save_store_results_tables.
      * now rewrite Hk1, Hk2.
      * now rewrite Hk1', Hk2'.
      * now rewrite Hk1, Hk1'.
      * split; [exact IH1|]. rewrite IH2. unfold list_sum. cbn [fold_right].
        do 2 f_equal. apply map_ext. exact Hsamefind.
  - destruct (find_store (Session.held db') name) as [store'|] eqn:Ef';
      [discriminate|].
    destruct (IH db db' Hsame Hk Hk' Hkk) as [IH1 IH2].
    destruct (commit_raises name); cbn [negb];
      rewrite ?save_all_results_step, ?Ef'; split; auto.
Qed.

(** X14. On a session whose store objects are the rows of the store
    table, with the keys and names of the table, [_save_all_results]
    isolates the batches of the stores from each other: the catalog,
    the current prices and the history it leaves are those it would
    leave had the stores whose commit raises not been in the results at
    all. The total it returns still counts
    the items of those stores: it is the number of items, over every
    store of the results found in the store table, whose price row was
    built without exception. The store rows are not isolated: the
    session is one, and the writes it holds when it is passed are
    written when the commit of the first batch succeeds, and discarded
    for every store when that commit raises. *)
Theorem save_all_results_isolates_store :
  forall autoflush raises commit_raises all_results (db : Session.handle),
    keys_of (Session.held db) = keys_of (db_stores db) ->
    let left := _save_all_results autoflush raises commit_raises all_results db in
    let skipped :=
      _save_all_results autoflush raises (fun _ => false)
        (filter (fun entry => negb (commit_raises (fst entry))) all_results) db in
    db_products (fst left) = db_products (fst skipped)
    /\ db_prices (fst left) = db_prices (fst skipped)
    /\ db_price_history (fst left) = db_price_history (fst skipped)
    /\ db_stores (fst left)
       = match first_saved all_results (Session.held db) with
         | Some name => if commit_raises name then db_stores db else Session.held db
         | None => db_stores db
         end
    /\ snd left
       = list_sum
           (map (fun entry =>
                   match find_store (Session.held db) (fst entry) with
                   | Some _ => count_saved raises (snd entry)
                   | None => 0%nat
                   end) all_results).
Proof.
  intros autoflush raises commit_raises all_results db Hk. cbv zeta.
  destruct (save_all_results_tables autoflush raises commit_raises all_results
              db db) as [[Hp [Hr Hh]] Hcount]; auto; [repeat split|].
  destruct (save_all_results_stores autoflush raises commit_raises all_results db)
    as [Hstores _].
  repeat split; assumption.
Qed.

End Tables.

End SaveUniqueFacts.

(** ** A saved name and the reconciler's match *)

Module CatalogMatchFacts.
Import PyStr PyStrFacts DataProcessor MatchFacts Ledger ScraperManager.
Import SessionFacts SaveFacts BatchTheorems SaveFrameFacts.

(** In this module the tables are [ascii_range]. *)

#[local] Existing Instance ascii_range.

Lemma append_assoc3 (a b c : string) : ((a ++ b) ++ c = a ++ b ++ c)%string.
Proof. induction a as [|x a IH]; cbn; [reflexivity | now rewrite IH]. Qed.

(** The first segment of a split is a prefix of the string. *)
Lemma split_first_prefix sep s k rest :
  split sep s = k :: rest -> exists v, s = (k ++ v)%string.
Proof.
  revert k rest; induction s as [|c s IH]; intros k rest; cbn.
  - intros H. injection H as <- _. now exists EmptyString.
  - destruct (Ascii.eqb c sep).
    + intros H. injection H as <- _. now exists (String c s).
    + destruct (split sep s) as [|w ws] eqn:E.
      * now destruct (split_nonempty sep s).
      * intros H. injection H as <- _.
        destruct (IH w ws eq_refl) as [v ->]. now exists v.
Qed.

Lemma lstrip_suffix s : exists u, s = (u ++ lstrip s)%string.
Proof.
  induction s as [|c s [u IH]]; cbn; [now exists EmptyString|].
  destruct (is_space c).
  - exists (String c u). cbn. now rewrite <- IH.
  - now exists EmptyString.
Qed.

Lemma rstrip_prefix s : exists v, s = (rstrip s ++ v)%string.
Proof.
  induction s as [|c s [v IH]]; cbn; [now exists EmptyString|].
  destruct (rstrip s) as [|a t].
  - cbn in IH. destruct (is_space c).
    + now exists (String c s).
    + exists v. cbn. now rewrite <- IH.
  - exists v. change (String c s = String c (String a t ++ v)%string).
    now rewrite <- IH.
Qed.

Lemma strip_substring s : exists u v, s = (u ++ strip s ++ v)%string.
Proof.
  change (strip s) with (rstrip (lstrip s)). destruct (lstrip_suffix s) as [u Hu].
  destruct (rstrip_prefix (lstrip s)) as [v Hv].
  exists u, v. now rewrite <- Hv.
Qed.

(** An entry whose keywords are the lowered name is matched by the
    name. *)
Lemma lowered_name_matches p scraped_name :
  product_keywords p = lower scraped_name -> has_matching_keyword p scraped_name.
Proof.
  intros Hk. unfold has_matching_keyword, lowered_keywords, ci_substring.
  rewrite Hk, lower_idem.
  destruct (split "," (lower scraped_name)) as [|k rest] eqn:E;
    [now destruct (split_nonempty "," (lower scraped_name))|].
  exists (strip k). split; [now left|].
  destruct (split_first_prefix _ _ _ _ E) as [v Hv].
  destruct (strip_substring k) as [a [b Hab]].
  exists a, (b ++ v)%string. rewrite Hv. rewrite Hab at 1.
  now rewrite !append_assoc3.
Qed.

Lemma first_keyword_empty p :
  product_keywords p = EmptyString -> In EmptyString (keywords_of p).
Proof. intros H. unfold keywords_of. rewrite H. now left. Qed.

Lemma some_match_found products p scraped_name :
  In p products -> has_matching_keyword p scraped_name ->
  exists q, _find_matching_product products scraped_name = Some q.
Proof.
  intros Hin Hm. pose proof (find_matching_product_split products scraped_name) as H.
  destruct (_find_matching_product products scraped_name) as [q|]; [now exists q|].
  destruct (H p Hin Hm).
Qed.

(** X15. A name [_save_store_results] has saved is a name
    [_find_matching_product] matches: after a batch that commits, every
    item of the batch whose name the catalog did not hold is reconciled
    with some catalog entry. An item with the empty name leaves an entry
    with the empty keyword, and from then on every scraped name is
    matched. *)
Theorem saved_name_is_matched :
  forall autoflush raises products store db product_data,
    In product_data products ->
    find_product (db_products db) (pd_name product_data) = None ->
    let db' := fst (_save_store_results autoflush raises false products store db) in
    (exists p, _find_matching_product (db_products db') (pd_name product_data) = Some p)
    /\ (pd_name product_data = EmptyString ->
        forall scraped_name,
        exists p, _find_matching_product (db_products db') scraped_name = Some p).
Proof.
  intros autoflush raises products store db product_data Hin Hnone. cbv zeta.
  rewrite save_store_results_products.
  destruct (created_products_complete products (db_products db) product_data Hin Hnone)
    as [p [Hcreated Hk]].
  assert (In p (db_products db ++ created_products (db_products db) products)) as Hp'
    by (apply in_or_app; now right).
  split.
  - apply (some_match_found _ p); [exact Hp' | now apply lowered_name_matches].
  - intros Hempty scraped_name. apply (some_match_found _ p); [exact Hp'|].
    apply empty_keyword_matches, first_keyword_empty. now rewrite Hk, Hempty.
Qed.

End CatalogMatchFacts.

(** ** What the classifier's result depends on *)

Module ClassifierMoreFacts.
Import PyStr PyStrFacts PyDict PyDictFacts CategoryClassifier ClassifierFacts.

(** In this module the tables are [ascii_range]. *)

#[local] Existing Instance ascii_range.

Lemma lower_char_not_upper c : is_upper (lower_char c) = false.
Proof. each_char c. Qed.

Lemma has_upper_lower s : has_upper (lower s) = false.
Proof.
  change (lower s) with (ascii_lower s).
  induction s as [|c s IH]; cbn; [reflexivity|].
  now rewrite lower_char_not_upper, IH.
Qed.

Lemma has_upper_app u v : has_upper (u ++ v) = has_upper u || has_upper v.
Proof.
  induction u as [|c u IH]; cbn; [reflexivity|]. now rewrite IH, orb_assoc.
Qed.

(** A keyword with an upper-case letter is found in no lowered text. *)
Lemma upper_keyword_no_match keyword product_name :
  has_upper keyword = true -> re_search_word keyword (lower product_name) = false.
Proof.
  intros Hu. destruct (re_search_word keyword (lower product_name)) eqn:E;
    [|reflexivity].
  apply re_search_word_spec in E. destruct E as [u [v [Heq _]]].
  pose proof (has_upper_lower product_name) as Hl.
  rewrite Heq, !has_upper_app, Hu, orb_true_r in Hl. discriminate.
Qed.

Lemma keyword_loop_lower_only keywords product_name :
  keyword_loop (filter (fun k => negb (has_upper k)) keywords) (lower product_name)
  = keyword_loop keywords (lower product_name).
Proof.
  induction keywords as [|k keywords IH]; [reflexivity|]. cbn [filter keyword_loop].
  destruct (has_upper k) eqn:E; cbn [negb].
  - now rewrite (upper_keyword_no_match k product_name E).
  - cbn [keyword_loop]. now rewrite IH.
Qed.

(** X16. The result of [classify] is "A" or "B", it does not depend on
    the case of the letters of the product name, and it does not depend
    on the A keywords: a table with any other A list classifies every
    name the same way. *)
Theorem classify_depends_on_B_only :
  forall self keywords_a keywords_b product_name,
    dict_get self "A" = Some keywords_a ->
    dict_get self "B" = Some keywords_b ->
    (classify self product_name = Some "A" \/ classify self product_name = Some "B")
    /\ classify self (lower product_name) = classify self product_name
    /\ forall other_a,
         classify (dict_set self "A" other_a) product_name
         = classify self product_name.
Proof.
  intros self keywords_a keywords_b product_name HA HB. unfold classify.
  rewrite lower_idem, HB, HA. repeat split.
  - destruct (keyword_loop keywords_b _); [now right|].
    destruct (keyword_loop keywords_a _); now left.
  - intros other_a. rewrite dict_get_set_eq.
    rewrite dict_get_set_ne by discriminate. rewrite HB.
    destruct (keyword_loop keywords_b _); [reflexivity|].
    destruct (keyword_loop keywords_a _), (keyword_loop other_a _); reflexivity.
Qed.

(** X17. [classify] lowers the product name and not the keywords, so a
    keyword that holds an upper-case letter never matches: taking such
    keywords out of the B list changes no result, and a table whose B
    keywords all hold one classifies every name "A". *)
Theorem classify_upper_case_keyword_never_matches :
  forall self keywords_a keywords_b product_name,
    dict_get self "A" = Some keywords_a ->
    dict_get self "B" = Some keywords_b ->
    (forall keyword, In keyword keywords_b -> has_upper keyword = true ->
                     re_search_word keyword (lower product_name) = false)
    /\ classify (dict_set self "B" (filter (fun k => negb (has_upper k)) keywords_b))
                product_name
       = classify self product_name
    /\ (forallb has_upper keywords_b = true ->
        classify self product_name = Some "A").
Proof.
  intros self keywords_a keywords_b product_name HA HB. split; [|split].
  - intros keyword _. apply upper_keyword_no_match.
  - unfold classify. rewrite dict_get_set_eq.
    rewrite dict_get_set_ne by discriminate.
    now rewrite HB, HA, keyword_loop_lower_only.
  - intros Hall. unfold classify. rewrite HB, HA.
    rewrite <- keyword_loop_lower_only.
    assert (filter (fun k => negb (has_upper k)) keywords_b = []) as ->.
    { clear HB. induction keywords_b as [|k l IH]; [reflexivity|].
      cbn in Hall. apply andb_true_iff in Hall. destruct Hall as [Hk Hl].
      cbn [filter]. rewrite Hk. cbn [negb]. exact (IH Hl). }
    cbn [keyword_loop]. destruct (keyword_loop keywords_a _); reflexivity.
Qed.

End ClassifierMoreFacts.

(** ** The sign and the rounding of the price change *)

Module PercentFacts.
Import PriceService.
Local Open Scope Q_scope.

Lemma round_half_even_close y :
  - (1 # 2) <= inject_Z (round_half_even y) - y <= 1 # 2.
Proof.
  unfold round_half_even.
  pose proof (Qfloor_le y) as Hlo. pose proof (Qlt_floor y) as Hhi.
  rewrite inject_Z_plus in Hhi. change (inject_Z 1) with 1 in Hhi.
  destruct (Qcompare_spec (y - inject_Z (Qfloor y)) (1 # 2)) as [E | E | E].
  - destruct (Z.even (Qfloor y)); rewrite ?inject_Z_plus;
      change (inject_Z 1) with 1; lra.
  - lra.
  - rewrite inject_Z_plus. change (inject_Z 1) with 1. lra.
Qed.

Lemma round_half_even_sign y :
  (0 <= y -> (0 <= round_half_even y)%Z) /\ (y <= 0 -> (round_half_even y <= 0)%Z).
Proof.
  pose proof (round_half_even_close y) as H.
  split; intros Hy.
  - destruct (Z_lt_le_dec (round_half_even y) 0) as [Hn|]; [|assumption].
    assert (inject_Z (round_half_even y) <= inject_Z (-1))
      by (rewrite <- Zle_Qle; lia).
    change (inject_Z (-1)) with (-1) in *. lra.
  - destruct (Z_lt_le_dec 0 (round_half_even y)) as [Hn|]; [|assumption].
    assert (inject_Z 1 <= inject_Z (round_half_even y))
      by (rewrite <- Zle_Qle; lia).
    change (inject_Z 1) with 1 in *. lra.
Qed.

Lemma round2_sign x : (0 <= x -> 0 <= round2 x) /\ (x <= 0 -> round2 x <= 0).
Proof.
  unfold round2, Qdiv. change (/ 100) with (1 # 100).
  destruct (round_half_even_sign (x * 100)) as [Hpos Hneg].
  split; intros Hx.
  - assert (inject_Z 0 <= inject_Z (round_half_even (x * 100)))
      by (rewrite <- Zle_Qle; apply Hpos; lra).
    change (inject_Z 0) with 0 in *. lra.
  - assert (inject_Z (round_half_even (x * 100)) <= inject_Z 0)
      by (rewrite <- Zle_Qle; apply Hneg; lra).
    change (inject_Z 0) with 0 in *. lra.
Qed.

Lemma change_percent_value previous price :
  0 < history_price previous ->
  change_percent (Some previous) price
  = (price_price price - history_price previous) / history_price previous * 100.
Proof.
  intros Hp. unfold change_percent.
  destruct (Qle_bool (history_price previous) 0) eqn:E; [|reflexivity].
  apply Qle_bool_iff in E. lra.
Qed.

Lemma percent_sign a b :
  0 < b ->
  (b <= a -> 0 <= (a - b) / b * 100)
  /\ (a <= b -> (a - b) / b * 100 <= 0)
  /\ (0 < (a - b) / b * 100 <-> b < a).
Proof.
  intros Hb. pose proof (Qinv_lt_0_compat b Hb) as Hi.
  unfold Qdiv. set (c := / b) in *.
  assert (b * c == 1) as Hbc by (subst c; apply Qmult_inv_r; lra).
  repeat split; intros H; nra.
Qed.

(** X18. With a previous record of positive price, the percentage both
    call sites report has the sign of the price change: it is not
    negative when the price has not fallen, not positive when it has not
    risen, and the unrounded one of the prices API is positive exactly
    when the price has risen. *)
Theorem price_change_percent_sign :
  forall utcnow history price previous,
    previous_price_obj utcnow history price = Some previous ->
    0 < history_price previous ->
    let service := _format_price_with_change utcnow history price in
    let api := get_prices_price_change_percent utcnow history price in
    (history_price previous <= price_price price -> 0 <= service /\ 0 <= api)
    /\ (price_price price <= history_price previous -> service <= 0 /\ api <= 0)
    /\ (0 < api <-> history_price previous < price_price price).
Proof.
  intros utcnow history price previous Hprev Hpos. cbv zeta.
  unfold _format_price_with_change, get_prices_price_change_percent.
  rewrite Hprev, (change_percent_value previous price Hpos).
  destruct (percent_sign (price_price price) (history_price previous) Hpos)
    as [Hup [Hdown Hiff]].
  set (x := (price_price price - history_price previous)
            / history_price previous * 100) in *.
  destruct (round2_sign x) as [Hr0 Hr1].
  repeat split; auto; apply Hiff.
Qed.

End PercentFacts.

(** ** From the adapter to the price table *)

Module EndToEndFacts.
Import PyStr PyDict DataProcessor Ledger ScraperManager.
Import ScraperManagerFacts SessionFacts SaveFacts BatchTheorems.
Import ProcessFrameFacts SaveFrameFacts SaveUniqueFacts SummaryFacts.

Section Tables.
Context {tables : Unicode}.

Lemma save_store_results_ids autoflush raises commit_raises products store
  (db : Session.handle) :
  NoDup (map product_id (db_products db)) ->
  NoDup (map product_id
             (db_products (fst (_save_store_results autoflush raises commit_raises
                                                    products store db)))).
Proof.
  intros Hnd. destruct commit_raises.
  - now rewrite save_store_results_rolled_back.
  - rewrite save_store_results_db, commit_view.
    cbn [db_products]. now apply save_loop_ids.
Qed.

Lemma save_all_results_cons autoflush raises commit_raises name products rest
  (db : Session.handle) :
  fst (_save_all_results autoflush raises commit_raises ((name, products) :: rest) db)
  = fst (_save_all_results autoflush raises commit_raises rest
           match find_store (Session.held db) name with
           | Some store =>
               fst (_save_store_results autoflush raises (commit_raises name)
                                        products store db)
           | None => db
           end).
Proof.
  rewrite save_all_results_step.
  now destruct (find_store (Session.held db) name).
Qed.

Lemma save_all_results_app autoflush raises commit_raises pre post :
  forall db : Session.handle,
    fst (_save_all_results autoflush raises commit_raises (pre ++ post) db)
    = fst (_save_all_results autoflush raises commit_raises post
             (fst (_save_all_results autoflush raises commit_raises pre db))).
Proof.
  induction pre as [|[name products] pre IH]; intros db; [reflexivity|].
  cbn [app]. now rewrite !save_all_results_cons, IH.
Qed.

Lemma save_all_results_ids autoflush raises commit_raises all_results :
  forall db : Session.handle,
    NoDup (map product_id (db_products db)) ->
    NoDup (map product_id
               (db_products (fst (_save_all_results autoflush raises commit_raises
                                                    all_results db)))).
Proof.
  induction all_results as [|[name products] rest IH]; intros db Hnd; [exact Hnd|].
  rewrite save_all_results_cons. apply IH.
  destruct (find_store (Session.held db) name); [|exact Hnd].
  now apply save_store_results_ids.
Qed.

(** The keys and the names of the store rows stay, in the session and
    in the database. *)
Lemma save_all_results_keys autoflush raises commit_raises all_results :
  forall db : Session.handle,
    keys_of (Session.held db) = keys_of (db_stores db) ->
    let db' := fst (_save_all_results autoflush raises commit_raises
                                      all_results db) in
    keys_of (Session.held db') = keys_of (Session.held db)
    /\ keys_of (db_stores db') = keys_of (Session.held db).
Proof.
  induction all_results as [|[name products] rest IH]; intros db Hk; cbv zeta;
    [cbn; auto|].
  rewrite save_all_results_cons.
  destruct (find_store (Session.held db) name) as [store|]; [|now apply IH].
  destruct (save_store_results_keys autoflush raises (commit_raises name)
              products store db Hk) as [Hk1 Hk2].
  cbv zeta in Hk1, Hk2.
  destruct (IH (fst (_save_store_results autoflush raises (commit_raises name)
                                         products store db))) as [IH1 IH2];
    [now rewrite Hk1, Hk2|].
  cbv zeta in IH1, IH2. now rewrite IH1, IH2, Hk1.
Qed.

(** A batch of another store keeps a price row and a catalog entry. *)
Lemma save_store_results_keeps autoflush raises commit_raises products store
  (db : Session.handle) r name p :
  In r (db_prices db) ->
  find_product (db_products db) name = Some p ->
  store_id store <> price_store_id r ->
  let db' := fst (_save_store_results autoflush raises commit_raises products store db) in
  In r (db_prices db') /\ find_product (db_products db') name = Some p.
Proof.
  intros Hin Hfind Hne. cbv zeta. split.
  - assert (of_other_store (store_id store) r = true) as Hother.
    { unfold of_other_store. apply negb_true_iff, Z.eqb_neq. congruence. }
    assert (In r (filter (of_other_store (store_id store)) (db_prices db))) as H
        by (apply filter_In; auto).
    rewrite <- (save_store_results_other_stores autoflush raises commit_raises
                  products store db) in H.
    now apply filter_In in H.
  - destruct commit_raises; [now rewrite save_store_results_rolled_back|].
    rewrite save_store_results_products. now apply find_product_app.
Qed.

Lemma save_all_results_keeps autoflush raises commit_raises post r name p :
  forall db : Session.handle,
    keys_of (Session.held db) = keys_of (db_stores db) ->
    In r (db_prices db) ->
    find_product (db_products db) name = Some p ->
    (forall entry st, In entry post ->
                      find_store (Session.held db) (fst entry) = Some st ->
                      store_id st <> price_store_id r) ->
    let db' := fst (_save_all_results autoflush raises commit_raises post db) in
    In r (db_prices db') /\ find_product (db_products db') name = Some p.
Proof.
  induction post as [|[name' products] post IH]; intros db Hk Hin Hfind Hother;
    cbv zeta; [auto|].
  rewrite save_all_results_cons.
  destruct (find_store (Session.held db) name') as [st|] eqn:Est.
  - destruct (save_store_results_keeps autoflush raises (commit_raises name')
                products st db r name p Hin Hfind) as [Hin' Hfind'];
      [apply (Hother (name', products)); [now left | exact Est]|].
    destruct (save_store_results_keys autoflush raises (commit_raises name')
                products st db Hk) as [Hk1 Hk2].
    cbv zeta in Hk1, Hk2.
    apply IH; auto; [now rewrite Hk1, Hk2|].
    intros entry st' He Hst'.
    pose proof (find_store_keys _ _ (fst entry) Hk1) as Hsame.
    rewrite Hst' in Hsame.
    destruct (find_store (Session.held db) (fst entry)) as [st0|] eqn:E0;
      [|discriminate].
    cbn in Hsame. injection Hsame as ->.
    apply (Hother entry st0); [now right | exact E0].
  - apply IH; auto. intros entry st' He. apply Hother. now right.
Qed.

Lemma build_price_key product store store' item :
  store_id store = store_id store' ->
  build_price product store item = build_price product store' item.
Proof. intros H. unfold build_price. now rewrite H. Qed.

(** The row of an item of one entry, after all the entries are saved. *)
Lemma save_all_results_row autoflush raises commit_raises
  pre post name before item after (db : Session.handle) st :
  keys_of (Session.held db) = keys_of (db_stores db) ->
  NoDup (map product_id (db_products db)) ->
  find_store (Session.held db) name = Some st ->
  commit_raises name = false ->
  raises item = false ->
  (forall later, In later after -> pd_name later <> pd_name item) ->
  (forall entry st', In entry post ->
                     find_store (Session.held db) (fst entry) = Some st' ->
                     store_id st' <> store_id st) ->
  let db' := fst (_save_all_results autoflush raises commit_raises
                    (pre ++ (name, before ++ item :: after) :: post) db) in
  exists product,
    find_product (db_products db') (pd_name item) = Some product
    /\ In (build_price product st item) (db_prices db').
Proof.
  intros Hk Hnd Hst Hcommit Hr Hlater Hother. cbv zeta.
  rewrite save_all_results_app, save_all_results_cons.
  pose proof (save_all_results_ids autoflush raises commit_raises pre db Hnd) as Hnd'.
  destruct (save_all_results_keys autoflush raises commit_raises pre db Hk)
    as [Hka Hkb].
  cbv zeta in Hka, Hkb.
  set (db_a := fst (_save_all_results autoflush raises commit_raises pre db)) in *.
  pose proof (find_store_keys _ _ name Hka) as Hsame. rewrite Hst in Hsame.
  destruct (find_store (Session.held db_a) name) as [st_a|] eqn:Est; [|discriminate].
  cbn in Hsame. injection Hsame as Hid.
  rewrite Hcommit.
  destruct (save_store_results_row autoflush raises st_a db_a before item after
              Hnd' Hr Hlater) as [product [Hfind Hin]].
  cbv zeta in Hfind, Hin. exists product.
  rewrite (build_price_key product st st_a item) by (symmetry; exact Hid).
  destruct (save_store_results_keys autoflush raises false
              (before ++ item :: after) st_a db_a) as [Hk1 Hk2];
    [now rewrite Hka, Hkb|].
  cbv zeta in Hk1, Hk2.
  destruct (save_all_results_keeps autoflush raises commit_raises post
              (build_price product st_a item) (pd_name item) product
              (fst (_save_store_results autoflush raises false
                      (before ++ item :: after) st_a db_a))) as [Hin' Hfind'];
    auto; [now rewrite Hk1, Hk2|].
  intros entry st' He Hst'.
  pose proof (find_store_keys _ _ (fst entry) (eq_trans Hk1 Hka)) as Hsame.
  rewrite Hst' in Hsame.
  destruct (find_store (Session.held db) (fst entry)) as [st0|] eqn:E0;
    [|discriminate].
  cbn in Hsame. injection Hsame as ->. cbn [build_price price_store_id].
  rewrite Hid. now apply (Hother entry st0).
Qed.

Lemma after_task_id scrapers now store :
  store_id (after_task scrapers now store) = store_id store
  /\ store_name (after_task scrapers now store) = store_name store.
Proof.
  unfold after_task, _scrape_store_safe.
  destruct (store_is_active store); [|auto].
  destruct (resolve scrapers store) as [scraper_class|]; [|auto].
  destruct (scraper_class store); auto.
Qed.

Lemma find_store_after_task scrapers now stores store :
  NoDup (map store_name stores) -> In store stores ->
  find_store (map (after_task scrapers now) stores) (store_name store)
  = Some (after_task scrapers now store).
Proof.
  unfold find_store. induction stores as [|s stores IH]; intros Hnd Hin;
    [destruct Hin|].
  cbn [map] in Hnd. apply NoDup_cons_iff in Hnd. destruct Hnd as [Hout Hnd].
  cbn [map find]. destruct (after_task_id scrapers now s) as [_ ->].
  destruct Hin as [-> | Hin]; [now rewrite String.eqb_refl|].
  destruct (String.eqb_spec (store_name s) (store_name store)) as [E|];
    [|now apply IH].
  exfalso. apply Hout. rewrite E. now apply in_map.
Qed.

Lemma NoDup_map_filter {A B} (g : A -> B) f (l : list A) :
  NoDup (map g l) -> NoDup (map g (filter f l)).
Proof.
  induction l as [|a l IH]; intros Hnd; [constructor|].
  cbn [map] in Hnd. apply NoDup_cons_iff in Hnd. destruct Hnd as [Hout Hnd].
  cbn [filter]. destruct (f a); [|now apply IH].
  cbn [map]. constructor; [|now apply IH].
  intros Hin. apply Hout. apply in_map_iff in Hin. destruct Hin as [x [<- Hx]].
  apply in_map. apply filter_In in Hx. tauto.
Qed.

Lemma NoDup_map_split {A B} (g : A -> B) (l1 l2 : list A) a x :
  NoDup (map g (l1 ++ a :: l2)) -> In x l2 -> g x <> g a.
Proof.
  rewrite map_app. cbn [map]. intros Hnd Hx E.
  apply NoDup_remove_2 in Hnd. apply Hnd. apply in_or_app. right.
  rewrite <- E. now apply in_map.
Qed.

(** X19. From the adapter to the price table: when product keys, store
    keys and store names are distinct, an item that the adapter of an
    active store returned to [scrape_all_stores], the last of its name
    in the list, has its price row in the database the call leaves,
    under the key of that store, provided that building its row and the
    commit of that store do not raise. What the other stores return,
    and whether their adapters or their commits fail, does not
    matter. *)
Theorem scrape_all_stores_saves_returned_items :
  forall scrapers autoflush raises commit_raises now db store before item after,
    NoDup (map product_id (db_products db)) ->
    NoDup (map store_name (db_stores db)) ->
    NoDup (map store_id (db_stores db)) ->
    In store (db_stores db) ->
    adapter_outcome scrapers store = Some (Returned (before ++ item :: after)) ->
    commit_raises (store_name store) = false ->
    raises item = false ->
    (forall later, In later after -> pd_name later <> pd_name item) ->
    let db' := snd (scrape_all_stores scrapers autoflush raises commit_raises now db) in
    exists product,
      find_product (db_products db') (pd_name item) = Some product
      /\ In (build_price product store item) (db_prices db').
Proof.
  intros scrapers autoflush raises commit_raises now db store before item after
         Hids Hnames Hsids Hin Hout Hcommit Hr Hlater. cbv zeta.
  pose proof (adapter_outcome_attempted _ _ _ Hout) as Hatt.
  destruct (task_result_returned scrapers now store _ Hout) as [Hres _].
  assert (In store (filter (attempted scrapers) (db_stores db))) as Hin'
      by (apply filter_In; auto).
  unfold scrape_all_stores.
  destruct (filter store_is_active (db_stores db)) eqn:Eactive.
  { exfalso. unfold attempted in Hatt. apply andb_true_iff in Hatt.
    assert (In store (filter store_is_active (db_stores db))) as H
        by (apply filter_In; tauto).
    rewrite Eactive in H. destruct H. }
  rewrite run_tasks_spec.
  rewrite (collect_distinct (task_result scrapers now) store_name);
    [| now apply NoDup_map_filter | intros k _ []].
  cbn [app].
  destruct (in_split _ _ Hin') as [l1 [l2 Hsplit]].
  pose proof (NoDup_map_filter store_id (attempted scrapers) _ Hsids) as Hsids'.
  rewrite Hsplit in *. rewrite map_app. cbn [map]. rewrite Hres.
  match goal with
  | |- context [_save_all_results ?a ?r ?c ?l ?d] =>
      destruct (_save_all_results a r c l d) as [db' total] eqn:Esave;
      assert (db' = fst (_save_all_results a r c l d)) as -> by now rewrite Esave
  end.
  cbn [snd].
  destruct (save_all_results_row autoflush raises commit_raises
              (map (fun a => (store_name a, task_result scrapers now a)) l1)
              (map (fun a => (store_name a, task_result scrapers now a)) l2)
              (store_name store) before item after
              (Session.mkHandle db (map (after_task scrapers now) (db_stores db)))
              (after_task scrapers now store))
    as [product [Hfind Hrow]]; auto.
  - apply keys_after_task.
  - now apply find_store_after_task.
  - intros entry st' He Hst'. apply in_map_iff in He.
    destruct He as [x [<- Hx]]. cbn [fst Session.held] in Hst'.
    assert (In x (db_stores db)) as Hxin.
    { assert (In x (filter (attempted scrapers) (db_stores db))) as H
          by (rewrite Hsplit; apply in_or_app; right; now right).
      apply filter_In in H. tauto. }
    rewrite (find_store_after_task scrapers now _ x Hnames Hxin) in Hst'.
    injection Hst' as <-.
    destruct (after_task_id scrapers now x) as [-> _].
    destruct (after_task_id scrapers now store) as [-> _].
    exact (NoDup_map_split store_id l1 l2 store x Hsids' Hx).
  - exists product. split; [exact Hfind|].
    unfold build_price in *.
    destruct (after_task_id scrapers now store) as [E _]. rewrite E in Hrow.
    exact Hrow.
Qed.

End Tables.

End EndToEndFacts.

(** ** The further properties at the examples *)

Module MoreWitnesses.
Import PyStr PyDict DataProcessor Ledger ScraperManager ScraperManagerMore.
Import ScrapingTasks ScraperApi PriceService CategoryClassifier.
Import Examples MoreExamples.

(** The examples are strs of ASCII characters: the tables are
    [ascii_range]. *)

#[local] Existing Instance ascii_range.

Lemma db0_all_known : all_known db0.
Proof. intros store [<- | [<- | [<- | []]]]; reflexivity. Defined.

Lemma scrape_single_store_ends_idle_witness :
  find_store_by_id (db_stores db0) 7 = Some store_S
  /\ store_is_active store_S = true
  /\ resolve scrapers store_S = Some scraper_of_S
  /\ ((exists store',
          find_store_by_id
            (db_stores (snd (scrape_single_store scrapers true never_raises
                                                 every_commit 55 56 db0 7))) 7
          = Some store'
          /\ store_status store' = "idle"
          /\ store_last_scraped store' = Some 56%Z)
      /\ fst (scrape_single_store scrapers true never_raises every_commit
                                  55 56 db0 7) = Returns [])
  /\ ((exists store',
          find_store_by_id
            (db_stores (snd (scrape_single_store scrapers true never_raises
                                                 idle_commit_raises 55 56 db0 7))) 7
          = Some store'
          /\ store_status store' = "offline")
      /\ fst (scrape_single_store scrapers true never_raises idle_commit_raises
                                  55 56 db0 7) = Returns []).
Proof.
  destruct (SingleStoreFacts.scrape_single_store_ends_idle
              scrapers true never_raises every_commit 55%Z 56%Z db0 7%Z
              store_S scraper_of_S eq_refl eq_refl eq_refl) as [Hidle _].
  destruct (SingleStoreFacts.scrape_single_store_ends_idle
              scrapers true never_raises idle_commit_raises 55%Z 56%Z db0 7%Z
              store_S scraper_of_S eq_refl eq_refl eq_refl) as [_ [Hoffline _]].
  exact (conj eq_refl (conj eq_refl (conj eq_refl
           (conj (Hidle eq_refl) (Hoffline eq_refl eq_refl))))).
Defined.

Lemma trigger_then_scrape_store_witness :
  7%Z <> 0%Z
  /\ find_store_by_id (db_stores db0) 7 = Some store_S
  /\ store_is_active store_S = true
  /\ exists message db1,
       ScraperApi.trigger_scraping db0 (Some 7%Z)
       = Response (TriggeredStore message 7, db1, ScrapeStoreTask 7)
       /\ find_store_by_id (db_stores db1) 7 = Some (set_status "scraping" store_S)
       /\ exists store',
            find_store_by_id
              (db_stores (run_task scrapers true never_raises commits
                                   idle_commit_raises 55 56 db1 (ScrapeStoreTask 7))) 7
            = Some store'
            /\ store_status store' = "offline".
Proof.
  assert (7%Z <> 0%Z) as H0 by discriminate.
  destruct (ScraperApiFacts.trigger_then_scrape_store
              scrapers true never_raises commits idle_commit_raises
              55%Z 56%Z db0 7%Z store_S
              H0 eq_refl eq_refl) as [message [db1 [Hresp [Hfind [_ Hrun]]]]].
  refine (conj H0 (conj eq_refl (conj eq_refl _))).
  exists message, db1. split; [exact Hresp|]. split; [exact Hfind|].
  assert (resolve scrapers store_S <> None) as Hres by discriminate.
  destruct (Hrun Hres) as [store' [Hstore' [_ Hoffline]]].
  exists store'. split; [exact Hstore' | exact (Hoffline eq_refl eq_refl)].
Defined.

Lemma trigger_then_scrape_all_witness :
  filter store_is_active (db_stores db0) <> []
  /\ exists message db1,
       ScraperApi.trigger_scraping db0 None
       = Response (TriggeredAll message 3, db1, ScrapeAllStoresTask)
       /\ (exists store',
             nth_error
               (db_stores (run_task scrapers true never_raises commits every_commit
                                    55 56 db1 ScrapeAllStoresTask)) 0 = Some store'
             /\ store_status store' = "offline")
       /\ (exists store',
             nth_error
               (db_stores (run_task scrapers true never_raises commit_of_S_raises
                                    every_commit 55 56 db1 ScrapeAllStoresTask)) 0
             = Some store'
             /\ store_status store' = "scraping").
Proof.
  assert (filter store_is_active (db_stores db0) <> []) as H0 by discriminate.
  destruct (ScraperApiFacts.trigger_then_scrape_all
              scrapers true never_raises commits every_commit 55%Z 56%Z db0 H0)
    as [message [db1 [Hresp Hrows]]].
  destruct (ScraperApiFacts.trigger_then_scrape_all
              scrapers true never_raises commit_of_S_raises every_commit
              55%Z 56%Z db0 H0)
    as [message' [db1' [Hresp' Hrows']]].
  assert (db1' = db1) as E by (rewrite Hresp in Hresp'; now injection Hresp').
  subst db1'.
  split; [exact H0|]. exists message, db1. split; [exact Hresp|]. split.
  - destruct (Hrows 0%nat store_S eq_refl) as [store' [Hnth [_ [_ Hstatus]]]].
    exists store'. split; [exact Hnth|].
    exact (Hstatus eq_refl scraper_of_S eq_refl).
  - destruct (Hrows' 0%nat store_S eq_refl) as [store' [Hnth [_ [_ Hstatus]]]].
    exists store'. split; [exact Hnth|].
    exact (Hstatus eq_refl scraper_of_S eq_refl).
Defined.

Lemma get_scraping_status_partition_witness :
  all_known db0
  /\ (scraping (get_scraping_status db0) + online (get_scraping_status db0)
      + offline (get_scraping_status db0) + idle (get_scraping_status db0))%nat
     = total_stores (get_scraping_status db0).
Proof.
  exact (conj db0_all_known
              (ScraperApiFacts.get_scraping_status_partition db0 db0_all_known)).
Defined.

Lemma statuses_stay_known_witness :
  all_known db0
  /\ all_known (snd (stop_scraping db0))
  /\ all_known (snd (scrape_all_stores scrapers true never_raises commits 55 db0)).
Proof.
  destruct (ScraperApiFacts.statuses_stay_known
              scrapers true never_raises commits 55%Z 56%Z db0 db0_all_known)
    as [_ [Hstop [Hall _]]].
  exact (conj db0_all_known (conj Hstop Hall)).
Defined.

Lemma search_product_across_stores_entries_witness :
  NoDup (map store_name (filter (searched searchers) (db_stores db0)))
  /\ map fst (search_product_across_stores searchers db0 "cucumber") = ["S"; "T"; "U"]
  /\ dict_get (search_product_across_stores searchers db0 "cucumber") "S" = Some []
  /\ dict_get (search_product_across_stores searchers db0 "cucumber") "T"
     = Some [organic_cucumber].
Proof.
  assert (NoDup (map store_name (filter (searched searchers) (db_stores db0)))) as H1.
  { repeat constructor; simpl; intuition discriminate. }
  destruct (SummaryFacts.search_product_across_stores_entries
              searchers db0 "cucumber" H1) as [Hkeys [Hentry _]].
  refine (conj H1 (conj Hkeys (conj _ _))).
  - exact (Hentry store_S (fun _ _ => Raised "timeout")
                  (or_introl eq_refl) eq_refl).
  - exact (Hentry store_T (fun _ _ => Returned [organic_cucumber])
                  (or_intror (or_introl eq_refl)) eq_refl).
Defined.

Lemma save_store_results_keeps_pairs_unique_witness :
  unique_pairs (db_prices db0)
  /\ unique_pairs
       (db_prices (fst (_save_store_results true never_raises false
                          [organic_cucumber; organic_cucumber; unknown_widget]
                          store_T db0))).
Proof.
  assert (unique_pairs (db_prices db0)) as H by (intros p s; simpl; lia).
  exact (conj H (SaveUniqueFacts.save_store_results_keeps_pairs_unique
                   never_raises false
                   [organic_cucumber; organic_cucumber; unknown_widget]
                   store_T db0 H)).
Defined.

Lemma save_all_results_isolates_store_witness :
  keys_of (Session.held session_after_tasks)
  = keys_of (db_stores session_after_tasks)
  /\ db_prices (fst (_save_all_results true never_raises commit_of_S_raises
                       results_of_tasks session_after_tasks))
     = db_prices (fst (_save_all_results true never_raises (fun _ => false)
                         (filter (fun entry => negb (commit_of_S_raises (fst entry)))
                                 results_of_tasks)
                         session_after_tasks))
  /\ db_stores (fst (_save_all_results true never_raises commit_of_S_raises
                       results_of_tasks session_after_tasks))
     = db_stores db0
  /\ db_stores (fst (_save_all_results true never_raises commits
                       results_of_tasks session_after_tasks))
     = map (after_task scrapers 55%Z) (db_stores db0).
Proof.
  destruct (SaveUniqueFacts.save_all_results_isolates_store
              true never_raises commit_of_S_raises results_of_tasks
              session_after_tasks eq_refl) as [_ [Hprices [_ [Hstores _]]]].
  destruct (SaveUniqueFacts.save_all_results_isolates_store
              true never_raises commits results_of_tasks
              session_after_tasks eq_refl) as [_ [_ [_ [Hstores' _]]]].
  exact (conj eq_refl (conj Hprices (conj Hstores Hstores'))).
Defined.

Lemma saved_name_is_matched_witness :
  In unknown_widget [organic_cucumber; unknown_widget]
  /\ find_product (db_products db0) (pd_name unknown_widget) = None
  /\ exists p,
       _find_matching_product
         (db_products (fst (_save_store_results true never_raises false
                              [organic_cucumber; unknown_widget] store_T db0)))
         (pd_name unknown_widget) = Some p.
Proof.
  assert (In unknown_widget [organic_cucumber; unknown_widget]) as H
      by (right; left; reflexivity).
  destruct (CatalogMatchFacts.saved_name_is_matched
              true never_raises [organic_cucumber; unknown_widget] store_T db0
              unknown_widget H eq_refl) as [Hmatch _].
  exact (conj H (conj eq_refl Hmatch)).
Defined.

Lemma classify_depends_on_B_only_witness :
  dict_get category_keywords "A"
  = Some [ "cucumber"; "خيار"; "tomato"; "طماطم"; "cherry tomato";
           "capsicum"; "pepper"; "فلفل"; "arugula"; "جرجير";
           "parsley"; "بقدونس"; "coriander"; "كزبرة"; "mint"; "نعناع";
           "kale"; "basil"; "ريحان" ]
  /\ dict_get category_keywords "B"
     = Some [ "lettuce"; "خس"; "chives"; "ثوم معمر"; "batavia" ]
  /\ classify category_keywords (lower "Batavia LETTUCE")
     = classify category_keywords "Batavia LETTUCE"
  /\ classify (dict_set category_keywords "A" []) "Batavia LETTUCE"
     = classify category_keywords "Batavia LETTUCE".
Proof.
  destruct (ClassifierMoreFacts.classify_depends_on_B_only
              category_keywords _ _ "Batavia LETTUCE" eq_refl eq_refl)
    as [_ [Hcase Hother]].
  exact (conj eq_refl (conj eq_refl (conj Hcase (Hother [])))).
Defined.

Lemma classify_upper_case_keyword_never_matches_witness :
  dict_get capitalised_keywords "A" = Some ["tomato"]
  /\ dict_get capitalised_keywords "B" = Some ["Lettuce"; "chives"]
  /\ re_search_word "Lettuce" (lower "Iceberg Lettuce") = false
  /\ classify (dict_set capitalised_keywords "B" ["chives"]) "Iceberg Lettuce"
     = classify capitalised_keywords "Iceberg Lettuce".
Proof.
  destruct (ClassifierMoreFacts.classify_upper_case_keyword_never_matches
              capitalised_keywords ["tomato"] ["Lettuce"; "chives"] "Iceberg Lettuce"
              eq_refl eq_refl) as [Hnever [Hsame _]].
  exact (conj eq_refl (conj eq_refl
           (conj (Hnever "Lettuce" (or_introl eq_refl) eq_refl) Hsame))).
Defined.

Lemma price_change_percent_sign_witness :
  previous_price_obj T [recorded 20 36] (price_at_T 25) = Some (recorded 20 36)
  /\ (0 < history_price (recorded 20 36))%Q
  /\ (0 <= _format_price_with_change T [recorded 20 36] (price_at_T 25))%Q
  /\ (0 < get_prices_price_change_percent T [recorded 20 36] (price_at_T 25))%Q.
Proof.
  assert (0 < history_price (recorded 20 36))%Q as Hpos by reflexivity.
  destruct (PercentFacts.price_change_percent_sign
              T [recorded 20 36] (price_at_T 25) (recorded 20 36) eq_refl Hpos)
    as [Hup [_ Hiff]].
  assert (history_price (recorded 20 36) <= price_price (price_at_T 25))%Q as Hle
      by discriminate.
  assert (history_price (recorded 20 36) < price_price (price_at_T 25))%Q as Hlt
      by reflexivity.
  exact (conj eq_refl (conj Hpos (conj (proj1 (Hup Hle)) (proj2 Hiff Hlt)))).
Defined.

Lemma scrape_all_stores_saves_returned_items_witness :
  NoDup (map product_id (db_products db0))
  /\ NoDup (map store_name (db_stores db0))
  /\ NoDup (map store_id (db_stores db0))
  /\ In store_T (db_stores db0)
  /\ adapter_outcome scrapers store_T
     = Some (Returned ([] ++ organic_cucumber :: [unknown_widget]))
  /\ exists product,
       find_product
         (db_products (snd (scrape_all_stores scrapers true never_raises commits
                                              55 db0)))
         (pd_name organic_cucumber) = Some product
       /\ In (build_price product store_T organic_cucumber)
             (db_prices (snd (scrape_all_stores scrapers true never_raises commits
                                                55 db0))).
Proof.
  assert (NoDup (map product_id (db_products db0))) as H1
      by (repeat constructor; simpl; intuition discriminate).
  assert (NoDup (map store_name (db_stores db0))) as H2
      by (repeat constructor; simpl; intuition discriminate).
  assert (NoDup (map store_id (db_stores db0))) as H3
      by (repeat constructor; simpl; intuition discriminate).
  assert (In store_T (db_stores db0)) as H4 by (right; left; reflexivity).
  assert (forall later, In later [unknown_widget] ->
                        pd_name later <> pd_name organic_cucumber) as H5
      by (intros later [<- | []]; discriminate).
  exact (conj H1 (conj H2 (conj H3 (conj H4 (conj eq_refl
           (EndToEndFacts.scrape_all_stores_saves_returned_items
              scrapers true never_raises commits 55%Z db0 store_T
              [] organic_cucumber [unknown_widget]
              H1 H2 H3 H4 eq_refl eq_refl eq_refl H5)))))).
Defined.

End MoreWitnesses.
